(** * ioos_qc.config_creator: a shallow embedding and its properties

    The development follows [src/ioos_qc/config_creator/config_creator.py]:
    the variable configuration and its expression check, the dataset
    registry and variable resolution, the climatology time slice, the
    adaptive bounding-box search, the statistics snapshot, the per-test
    threshold sections and [to_json].

    Conventions of the embedding.
    - A Python call either returns a value or raises: [result A].
    - A [dict] is an association list in insertion order.
    - Numbers read from the JSON documents (box corners, grid coordinates,
      the pad increment) are exact rationals [Q]; values of the gridded
      data and the statistics computed from them are [float64]: a real
      number or not-a-number (rounding is not modelled). *)

From Stdlib Require Import List String Ascii Bool Arith ZArith QArith Qminmax Lia Lqa.
From Stdlib Require Import Reals Lra DecimalString DecimalNat.
From Stdlib Require Import Sorted Permutation.
Import ListNotations.
Set Warnings "-register-all".
Close Scope Q_scope.
Close Scope R_scope.
Open Scope list_scope.
Open Scope string_scope.

(* ================================================================== *)
(** * Part I: the embedding *)
(* ================================================================== *)

(** ** Python results and exceptions *)

(** The exception classes the modelled code can raise, with the message or
    key where the code or the interpreter gives one. *)
Inductive exn : Type :=
| ValueError (msg : string)
| TypeError (msg : string)
| AttributeError (msg : string)
| KeyError (key : string)
| IndexError (msg : string)
| OSError (msg : string).

Definition exn_class (e : exn) : string :=
  match e with
  | ValueError _ => "ValueError"
  | TypeError _ => "TypeError"
  | AttributeError _ => "AttributeError"
  | KeyError _ => "KeyError"
  | IndexError _ => "IndexError"
  | OSError _ => "OSError"
  end.

Inductive result (A : Type) : Type :=
| Ok (a : A)
| Raise (e : exn).
Arguments Ok {A} a.
Arguments Raise {A} e.

Definition bind {A B : Type} (r : result A) (k : A -> result B) : result B :=
  match r with
  | Ok a => k a
  | Raise e => Raise e
  end.

Notation "x <- e ;; k" := (bind e (fun x => k))
  (at level 61, e at next level, right associativity).
Notation "e ;;; k" := (bind e (fun _ => k))
  (at level 61, right associativity).

Definition is_ok {A : Type} (r : result A) : bool :=
  match r with Ok _ => true | Raise _ => false end.

(** ** Python values and dicts *)

(** A numpy float64, read as the real number it stands for, or NaN. *)
Inductive float64 : Type :=
| Num (r : R)
| NaN.

(** What [json.load] produces, plus numpy's float64 scalars. *)
Inductive pyval : Type :=
| PNone
| PBool (b : bool)
| PNum (q : Q)
| PFloat (x : float64)
| PStr (s : string)
| PList (l : list pyval)
| PDict (d : list (string * pyval)).

(** A dict in insertion order. *)
Definition dict (V : Type) : Type := list (string * V).

Fixpoint dict_get {V : Type} (d : dict V) (k : string) : option V :=
  match d with
  | [] => None
  | (k', v) :: rest => if String.eqb k k' then Some v else dict_get rest k
  end.

Definition dict_contains {V : Type} (d : dict V) (k : string) : bool :=
  match dict_get d k with Some _ => true | None => false end.

Definition dict_keys {V : Type} (d : dict V) : list string := map fst d.

(** [d[k] = v]: an existing key keeps its position, a new key goes last. *)
Fixpoint dict_set {V : Type} (d : dict V) (k : string) (v : V) : dict V :=
  match d with
  | [] => [(k, v)]
  | (k', v') :: rest =>
      if String.eqb k k' then (k', v) :: rest else (k', v') :: dict_set rest k v
  end.

(** [d[k]], raising [KeyError] on a missing key. *)
Definition dict_item {V : Type} (d : dict V) (k : string) : result V :=
  match dict_get d k with
  | Some v => Ok v
  | None => Raise (KeyError k)
  end.

(** ** Strings: [str.split(sep)], [float(str)] *)

Definition nl : string := String "010"%char "".

(** [s.split(sep)] for a one-character separator: every occurrence of the
    separator ends a token, so adjacent separators give empty tokens. *)
Fixpoint split_on (sep : ascii) (s : string) : list string :=
  match s with
  | EmptyString => [EmptyString]
  | String c rest =>
      if Ascii.eqb c sep then EmptyString :: split_on sep rest
      else match split_on sep rest with
           | [] => [String c EmptyString]
           | t :: ts => String c t :: ts
           end
  end.

Definition is_digit (c : ascii) : bool :=
  let n := nat_of_ascii c in (48 <=? n)%nat && (n <=? 57)%nat.

(** A character of a string is a code point below 256. Whitespace as
    [str.isspace] has it there: the space, the controls 0x09-0x0d and
    0x1c-0x1f, and 0x85 and 0xa0. *)
Definition is_space (c : ascii) : bool :=
  let n := nat_of_ascii c in
  (n =? 32)%nat || ((9 <=? n)%nat && (n <=? 13)%nat) || ((28 <=? n)%nat && (n <=? 31)%nat)
  || (n =? 133)%nat || (n =? 160)%nat.

(** Whitespace as [float] strips it: the space and the controls 0x09-0x0d,
    and 0x85 and 0xa0, which [float] first turns into spaces. The controls
    0x1c-0x1f are left in place and make the text no number. *)
Definition is_float_space (c : ascii) : bool :=
  let n := nat_of_ascii c in
  (n =? 32)%nat || ((9 <=? n)%nat && (n <=? 13)%nat) || (n =? 133)%nat || (n =? 160)%nat.

Definition to_lower (c : ascii) : ascii :=
  let n := nat_of_ascii c in
  if (65 <=? n)%nat && (n <=? 90)%nat then ascii_of_nat (n + 32) else c.

Fixpoint float_lstrip (s : list ascii) : list ascii :=
  match s with
  | c :: r => if is_float_space c then float_lstrip r else s
  | [] => []
  end.

Definition float_strip (s : list ascii) : list ascii :=
  rev (float_lstrip (rev (float_lstrip s))).

(** The rest of a digit part after its first digit: digits, each optionally
    preceded by one underscore. *)
Fixpoint eat_more_digits (s : list ascii) : list ascii :=
  match s with
  | c :: r =>
      if is_digit c then eat_more_digits r
      else if Ascii.eqb c "_"%char then
        match r with
        | d :: r' => if is_digit d then eat_more_digits r' else s
        | [] => s
        end
      else s
  | [] => []
  end.

Definition eat_digitpart (s : list ascii) : option (list ascii) :=
  match s with
  | c :: r => if is_digit c then Some (eat_more_digits r) else None
  | [] => None
  end.

Definition eat_sign (s : list ascii) : list ascii :=
  match s with
  | c :: r => if Ascii.eqb c "+"%char || Ascii.eqb c "-"%char then r else s
  | [] => []
  end.

(** [number ::= digitpart ["." [digitpart]] | "." digitpart] *)
Definition eat_number (s : list ascii) : option (list ascii) :=
  match eat_digitpart s with
  | Some r =>
      match r with
      | c :: r' =>
          if Ascii.eqb c "."%char then
            match eat_digitpart r' with
            | Some r'' => Some r''
            | None => Some r'
            end
          else Some r
      | [] => Some r
      end
  | None =>
      match s with
      | c :: r' => if Ascii.eqb c "."%char then eat_digitpart r' else None
      | [] => None
      end
  end.

(** [exponent ::= ("e" | "E") [sign] digitpart], optional. *)
Definition eat_exponent (s : list ascii) : option (list ascii) :=
  match s with
  | c :: r =>
      if Ascii.eqb (to_lower c) "e"%char then eat_digitpart (eat_sign r) else Some s
  | [] => Some []
  end.

Definition list_ascii_eqb (a b : list ascii) : bool :=
  String.eqb (string_of_list_ascii a) (string_of_list_ascii b).

(** Whether the builtin [float(token)] returns (rather than raising
    [ValueError]), after the language reference: surrounding whitespace is
    stripped, then an optional sign, then [inf], [infinity] or [nan] in any
    case, or a decimal number with an optional exponent. *)
Definition py_float_ok (token : string) : bool :=
  let body := eat_sign (float_strip (list_ascii_of_string token)) in
  let low := map to_lower body in
  if list_ascii_eqb low (list_ascii_of_string "inf")
     || list_ascii_eqb low (list_ascii_of_string "infinity")
     || list_ascii_eqb low (list_ascii_of_string "nan")
  then true
  else match eat_number body with
       | Some r =>
           match eat_exponent r with
           | Some [] => true
           | _ => false
           end
       | None => false
       end.

(** ** QcVariableConfig *)

Definition allowed_stats : list string := ["min"; "max"; "mean"; "std"].
Definition allowed_operators : list string := ["+"; "-"; "*"; "/"].
Definition allowed_groupings : list string := ["("; ")"].

(** [token in lst] *)
Definition str_in (token : string) (lst : list string) : bool :=
  existsb (String.eqb token) lst.

Fixpoint join (sep : string) (l : list string) : string :=
  match l with
  | [] => ""
  | [x] => x
  | x :: rest => x ++ sep ++ join sep rest
  end.

(** How an f-string prints a list of strings. *)
Definition repr_list (l : list string) : string :=
  "[" ++ join ", " (map (fun s => "'" ++ s ++ "'") l) ++ "]".

(** The message built at lines 229-234. *)
Definition fx_message (token test_name : string) : string :=
  token ++ " not allowed in min/max specification in config of " ++ test_name ++ "." ++ nl
  ++ "Allowable stats are: " ++ repr_list allowed_stats ++ "." ++ nl
  ++ "Allowable operators are: " ++ repr_list allowed_operators ++ "."
  ++ "Allowable groupings are: " ++ repr_list allowed_groupings ++ ".".

(** The test of lines 223-228 on one token: [float(token)] succeeds, or the
    token is in one of the three lists. *)
Definition token_allowed (token : string) : bool :=
  py_float_ok token
  || negb (negb (str_in token allowed_stats)
           && negb (str_in token allowed_operators)
           && negb (str_in token allowed_groupings)).

(** The loop of [_validate_fx] over the tokens. *)
Fixpoint validate_tokens (tokens : list string) (test_name : string) : result unit :=
  match tokens with
  | [] => Ok tt
  | token :: rest =>
      if py_float_ok token then validate_tokens rest test_name
      else if negb (str_in token allowed_stats)
              && negb (str_in token allowed_operators)
              && negb (str_in token allowed_groupings)
      then Raise (ValueError (fx_message token test_name))
      else validate_tokens rest test_name
  end.

Definition type_name (v : pyval) : string :=
  match v with
  | PNone => "NoneType"
  | PBool _ => "bool"
  | PNum q => if (Qden q =? 1)%positive then "int" else "float"
  | PFloat _ => "float"
  | PStr _ => "str"
  | PList _ => "list"
  | PDict _ => "dict"
  end.

Definition no_attribute (v : pyval) (attr : string) : exn :=
  AttributeError ("'" ++ type_name v ++ "' object has no attribute '" ++ attr ++ "'").

(** [QcVariableConfig._validate_fx]: the expression is split on the single
    space character; a value that is not a string has no [split]. *)
Definition _validate_fx (input_fx : pyval) (test_name : string) : result unit :=
  match input_fx with
  | PStr s => validate_tokens (split_on " "%char s) test_name
  | v => Raise (no_attribute v "split")
  end.

(** A variable configuration that passed the schema check: the five
    required keys with the types the schema names. The box corners are
    taken to be numbers. *)
Record VariableConfig : Type := mkVariableConfig {
  variable : string;
  bbox : list Q;
  start_time : string;
  end_time : string;
  tests : dict pyval
}.

(** The inner loop of [__init__] (lines 212-215) over one test's items. *)
Fixpoint validate_params (params : dict pyval) : result unit :=
  match params with
  | [] => Ok tt
  | (test_name, test_def) :: rest =>
      if String.eqb test_name "bbox" then validate_params rest
      else _validate_fx test_def test_name ;;; validate_params rest
  end.

(** The outer loop (line 211) over the keys of [config['tests']]. *)
Fixpoint validate_tests (all_tests : dict pyval) (keys : list string) : result unit :=
  match keys with
  | [] => Ok tt
  | test :: rest =>
      t <- dict_item all_tests test ;;
      match t with
      | PDict params => validate_params params ;;; validate_tests all_tests rest
      | v => Raise (no_attribute v "items")
      end
  end.

(** [QcVariableConfig.__init__] on a dict that passed the schema check. *)
Definition QcVariableConfig_init (config : VariableConfig) : result VariableConfig :=
  validate_tests (tests config) (dict_keys (tests config)) ;;; Ok config.

(** The reading of the expression grammar in the words of the
    specification: tokens separated by whitespace, each a floating-point
    literal, a stat name, an operator or a parenthesis. *)
Fixpoint ws_tokens_aux (s : list ascii) (cur : list ascii) : list string :=
  match s with
  | [] => match cur with [] => [] | _ => [string_of_list_ascii (rev cur)] end
  | c :: r =>
      if is_space c then
        match cur with
        | [] => ws_tokens_aux r []
        | _ => string_of_list_ascii (rev cur) :: ws_tokens_aux r []
        end
      else ws_tokens_aux r (c :: cur)
  end.

Definition ws_tokens (s : string) : list string :=
  ws_tokens_aux (list_ascii_of_string s) [].

Definition spec_token_allowed (token : string) : bool :=
  py_float_ok token || str_in token allowed_stats
  || str_in token allowed_operators || str_in token allowed_groupings.

Definition spec_accepts (s : string) : bool := forallb spec_token_allowed (ws_tokens s).

(** ** CreatorConfig: the dataset registry *)

(** One element of [config['datasets']] after the schema check. *)
Record DatasetDescr : Type := mkDatasetDescr {
  name : string;
  descr_file_path : string;
  descr_variables : dict string;
  descr_3d : option string
}.

(** The value stored under a dataset's name: ['file_path'], ['variables']
    and, when given, ['3d']. *)
Record DatasetEntry : Type := mkDatasetEntry {
  file_path : string;
  variables : dict string;
  dim3d : option string
}.

(** [CreatorConfig.__init__] (lines 154-167): the registry is filled in the
    order of the list; a repeated name overwrites the entry in place. *)
Definition CreatorConfig_init (datasets : list DatasetDescr) : dict DatasetEntry :=
  fold_left
    (fun acc dataset =>
       dict_set acc (name dataset)
         (mkDatasetEntry (descr_file_path dataset) (descr_variables dataset)
            (descr_3d dataset)))
    datasets [].

(** ** Loaded datasets *)

Record date : Type := mkDate { year : nat; month : nat; day : nat }.

Definition date_leb (a b : date) : bool :=
  (year a <? year b)%nat
  || ((year a =? year b)%nat
      && ((month a <? month b)%nat
          || ((month a =? month b)%nat && (day a <=? day b)%nat))).

(** One grid point of a variable: its coordinates and its series along
    time, as [resample(time='1D').interpolate()] presents it (one value per
    day; the interpolation runs along time only, so it does not depend on
    the spatial masks). *)
Record GridPoint : Type := mkGridPoint {
  gp_lat : Q;
  gp_lon : Q;
  gp_daily : list (date * float64)
}.

(** A variable of a dataset: over (time, lat, lon), or over
    (time, depth, lat, lon) as a list of levels. *)
Inductive DataVar : Type :=
| Var2D (points : list GridPoint)
| Var3D (levels : list (list GridPoint)).

(** An [xarray.Dataset]: its time coordinate and its variables. *)
Record Dataset : Type := mkDataset {
  ds_time : list date;
  ds_vars : dict DataVar
}.

(** The state of a [QcConfigCreator] after [__init__]. *)
Record QcConfigCreator : Type := mkQcConfigCreator {
  config : dict DatasetEntry;
  datasets : dict Dataset;
  dataset_years : dict nat
}.

(** [_determine_dataset_years]: the year of each dataset's first time
    coordinate. *)
Fixpoint _determine_dataset_years (dss : dict Dataset) : result (dict nat) :=
  match dss with
  | [] => Ok []
  | (dataset_name, dataset) :: rest =>
      match ds_time dataset with
      | [] => Raise (IndexError "index 0 is out of bounds for axis 0 with size 0")
      | t0 :: _ =>
          years <- _determine_dataset_years rest ;;
          Ok ((dataset_name, year t0) :: years)
      end
  end.

Section Loading.

(** [xr.load_dataset]: reading a file is outside the program. *)
Variable load_dataset : string -> result Dataset.

(** [_load_datasets] *)
Fixpoint _load_datasets (cfg : dict DatasetEntry) : result (dict Dataset) :=
  match cfg with
  | [] => Ok []
  | (nm, entry) :: rest =>
      ds <- load_dataset (file_path entry) ;;
      dss <- _load_datasets rest ;;
      Ok ((nm, ds) :: dss)
  end.

(** [QcConfigCreator.__init__] *)
Definition QcConfigCreator_init (creator_config : dict DatasetEntry) : result QcConfigCreator :=
  dss <- _load_datasets creator_config ;;
  years <- _determine_dataset_years dss ;;
  Ok (mkQcConfigCreator creator_config dss years).

End Loading.

(** ** Variable resolution *)

(** [_var2var_in_file]: the first dataset, in the order of the registry,
    whose variable map has [var]; falling out of the loop returns
    [None]. *)
Fixpoint _var2var_in_file (cfg : dict DatasetEntry) (var : string)
  : option (string * string) :=
  match cfg with
  | [] => None
  | (dataset_name, dataset) :: rest =>
      match dict_get (variables dataset) var with
      | Some var_in_file => Some (var_in_file, dataset_name)
      | None => _var2var_in_file rest var
      end
  end.

(** [_, dataset_name = ...]: unpacking [None] raises [TypeError]. *)
Definition unpack_pair {A B : Type} (r : option (A * B)) : result (A * B) :=
  match r with
  | Some p => Ok p
  | None => Raise (TypeError "cannot unpack non-iterable NoneType object")
  end.

(** [var2dataset] *)
Definition var2dataset (self : QcConfigCreator) (var : string)
  : result (string * Dataset) :=
  p <- unpack_pair (_var2var_in_file (config self) var) ;;
  ds <- dict_item (datasets self) (snd p) ;;
  Ok (snd p, ds).

(** ** The climatology time slice *)

Definition str_of_nat (n : nat) : string := NilEmpty.string_of_uint (Nat.to_uint n).

(** [f"{year}-{month}-{day}"] *)
Definition date_label (y m d : nat) : string :=
  str_of_nat y ++ "-" ++ str_of_nat m ++ "-" ++ str_of_nat d.

(** [_get_time_range]: a [slice(start, stop)] of two date labels. *)
Definition _get_time_range (self : QcConfigCreator) (var : string)
    (time_range : date * date) : result (string * string) :=
  p <- unpack_pair (_var2var_in_file (config self) var) ;;
  yr <- dict_item (dataset_years self) (snd p) ;;
  let start_time := date_label yr (month (fst time_range)) (day (fst time_range)) in
  let end_time := date_label yr (month (snd time_range)) (day (snd time_range)) in
  Ok (start_time, end_time).

Definition all_digits (s : string) : bool :=
  negb (String.eqb s "") && forallb is_digit (list_ascii_of_string s).

Definition nat_of_digits (s : string) : nat :=
  match NilEmpty.uint_of_string s with
  | Some u => Nat.of_uint u
  | None => 0
  end.

Definition is_leap (y : nat) : bool :=
  ((y mod 4 =? 0) && (negb (y mod 100 =? 0) || (y mod 400 =? 0)))%nat.

Definition days_in_month (y m : nat) : nat :=
  match m with
  | 1 | 3 | 5 | 7 | 8 | 10 | 12 => 31
  | 4 | 6 | 9 | 11 => 30
  | 2 => if is_leap y then 29 else 28
  | _ => 0
  end.

Definition valid_date (y m d : nat) : bool :=
  ((1 <=? y) && (1 <=? m) && (m <=? 12) && (1 <=? d) && (d <=? days_in_month y m))%nat.

(** Reading year, month and day from a text of three digit groups. *)
Definition read_ymd (year_digits : nat -> bool) (s : string) : option date :=
  match split_on "-"%char s with
  | [y; m; d] =>
      if all_digits y && year_digits (String.length y)
         && all_digits m && (String.length m <=? 2)%nat
         && all_digits d && (String.length d <=? 2)%nat
         && valid_date (nat_of_digits y) (nat_of_digits m) (nat_of_digits d)
      then Some (mkDate (nat_of_digits y) (nat_of_digits m) (nat_of_digits d))
      else None
  | _ => None
  end.

(** The directive [%d] also takes a space followed by a digit from 1 to
    9 for a day written on two columns. *)
Definition unpad_day (s : string) : string :=
  match split_on "-"%char s with
  | [y; m; String sp (String c EmptyString)] =>
      if Ascii.eqb sp " "%char && is_digit c && negb (Ascii.eqb c "0"%char)
      then y ++ "-" ++ m ++ "-" ++ String c EmptyString
      else s
  | _ => s
  end.

(** [datetime.datetime.strptime(s, '%Y-%m-%d')]: a four-digit year. *)
Definition strptime_ymd (s : string) : result date :=
  match read_ymd (fun n => (n =? 4)%nat) (unpad_day s) with
  | Some d => Ok d
  | None => Raise (ValueError ("time data '" ++ s ++ "' does not match format '%Y-%m-%d'"))
  end.

(** How the time index reads a slice bound such as ["2005-1-31"]. *)
Definition parse_label (s : string) : result date :=
  match read_ymd (fun _ => true) s with
  | Some d => Ok d
  | None => Raise (ValueError ("could not parse the date label '" ++ s ++ "'"))
  end.

(** ** Padding the bounding box *)

(** Python's [max(a, b)] and [min(a, b)] on two numbers. *)
Definition py_max (a b : Q) : Q := if Qle_bool b a then a else b.
Definition py_min (a b : Q) : Q := if Qle_bool a b then a else b.

(** The inner function [apply_pad] of [__apply_bbox_pad]. *)
Definition apply_pad (pad val : Q) (lat_or_lon min_or_max : string) : Q :=
  if String.eqb lat_or_lon "lat" then
    if String.eqb min_or_max "min" then py_max (-90) (val - pad)
    else py_min 90 (val + pad)
  else
    if Qle_bool val 0 && String.eqb min_or_max "min" then py_max (-180) (val - pad)
    else if Qle_bool val 0 && String.eqb min_or_max "max" then py_min 180 (val + pad)
    else if negb (Qle_bool val 0) && String.eqb min_or_max "min" then py_max (-180) (val - pad)
    else py_min 180 (val + pad).

(** [lst[i]] for a non-negative [i]. *)
Definition list_item {A : Type} (l : list A) (i : nat) : result A :=
  match nth_error l i with
  | Some x => Ok x
  | None => Raise (IndexError "list index out of range")
  end.

(** [__apply_bbox_pad]: a new list of four numbers; [bbox] is only read. *)
Definition __apply_bbox_pad (bbox : list Q) (pad : Q) : result (list Q) :=
  b0 <- list_item bbox 0 ;;
  let new_bbox := ([] ++ [apply_pad pad b0 "lon" "min"])%list in
  b1 <- list_item bbox 1 ;;
  let new_bbox := (new_bbox ++ [apply_pad pad b1 "lat" "min"])%list in
  b2 <- list_item bbox 2 ;;
  let new_bbox := (new_bbox ++ [apply_pad pad b2 "lon" "max"])%list in
  b3 <- list_item bbox 3 ;;
  let new_bbox := (new_bbox ++ [apply_pad pad b3 "lat" "max"])%list in
  Ok new_bbox.

(** The same function over a store of list objects, to see what it does to
    its argument: the list at address [bbox] is read, and the four results
    are appended to a list allocated by the call. *)
Definition heap : Type := list (list Q).

Definition heap_alloc (h : heap) : heap * nat := ((h ++ [[]])%list, List.length h).

Fixpoint heap_append (h : heap) (addr : nat) (x : Q) : heap :=
  match h, addr with
  | [], _ => []
  | l :: rest, O => (l ++ [x])%list :: rest
  | l :: rest, S a => l :: heap_append rest a x
  end.

Definition heap_index (h : heap) (addr i : nat) : result Q :=
  list_item (nth addr h []) i.

Definition apply_bbox_pad_in_heap (h : heap) (bbox : nat) (pad : Q) : heap * result nat :=
  let (h0, new_bbox) := heap_alloc h in
  match heap_index h0 bbox 0 with
  | Raise e => (h0, Raise e)
  | Ok b0 =>
      let h1 := heap_append h0 new_bbox (apply_pad pad b0 "lon" "min") in
      match heap_index h1 bbox 1 with
      | Raise e => (h1, Raise e)
      | Ok b1 =>
          let h2 := heap_append h1 new_bbox (apply_pad pad b1 "lat" "min") in
          match heap_index h2 bbox 2 with
          | Raise e => (h2, Raise e)
          | Ok b2 =>
              let h3 := heap_append h2 new_bbox (apply_pad pad b2 "lon" "max") in
              match heap_index h3 bbox 3 with
              | Raise e => (h3, Raise e)
              | Ok b3 =>
                  (heap_append h3 new_bbox (apply_pad pad b3 "lat" "max"), Ok new_bbox)
              end
          end
      end
  end.

(** The box after [n] rounds of padding. *)
Fixpoint pad_n (n : nat) (bbox : list Q) (pad : Q) : result (list Q) :=
  match n with
  | O => Ok bbox
  | S n' => b <- __apply_bbox_pad bbox pad ;; pad_n n' b pad
  end.

(** ** The spatiotemporal subset *)

(** [np.logical_and(coord >= lo, coord <= hi)] at one coordinate. *)
Definition in_mask (lo hi : Q) (coord : Q) : bool := Qle_bool lo coord && Qle_bool coord hi.

(** [.sel(time=time_slice)] on an array of daily series: label slicing keeps
    both bounds. *)
Definition sel_time (arr : list (list (date * float64))) (time_slice : string * string)
  : result (list float64) :=
  start <- parse_label (fst time_slice) ;;
  stop <- parse_label (snd time_slice) ;;
  Ok (flat_map
        (fun series =>
           map snd (filter (fun p => date_leb start (fst p) && date_leb (fst p) stop) series))
        arr).

(** [ds[var_in_file][:, depth, ...]] when the registry declares ['3d'],
    [ds[var_in_file][:, ...]] otherwise. *)
Definition select_level (entry : DatasetEntry) (data : DataVar) (depth : nat)
  : result (list GridPoint) :=
  match dim3d entry with
  | Some _ =>
      match data with
      | Var3D levels =>
          match nth_error levels depth with
          | Some pts => Ok pts
          | None => Raise (IndexError "index out of bounds for the depth axis")
          end
      | Var2D _ => Raise (IndexError "too many indices for array")
      end
  | None =>
      match data with
      | Var2D pts => Ok pts
      | Var3D _ => Raise (IndexError "boolean index did not match indexed array")
      end
  end.

(** [__get_daily_interp_subset] *)
Definition __get_daily_interp_subset (self : QcConfigCreator) (var : string)
    (time_slice : string * string) (depth : nat) (lat_mask lon_mask : Q -> bool)
  : result (list float64) :=
  p <- var2dataset self var ;;
  q <- unpack_pair (_var2var_in_file (config self) var) ;;
  entry <- dict_item (config self) (fst p) ;;
  data <- dict_item (ds_vars (snd p)) (fst q) ;;
  pts <- select_level entry data depth ;;
  sel_time
    (map gp_daily (filter (fun g => lat_mask (gp_lat g) && lon_mask (gp_lon g)) pts))
    time_slice.

(** The masks of a box (lines 400-407 and again 414-421) and the subset
    under them. *)
Definition masked_subset (self : QcConfigCreator) (var : string)
    (time_slice : string * string) (depth : nat) (bbox : list Q) : result (list float64) :=
  b1 <- list_item bbox 1 ;;
  b3 <- list_item bbox 3 ;;
  b0 <- list_item bbox 0 ;;
  b2 <- list_item bbox 2 ;;
  __get_daily_interp_subset self var time_slice depth (in_mask b1 b3) (in_mask b0 b2).

Definition nan_to (v : R) (x : float64) : R :=
  match x with Num r => r | NaN => v end.

(** [np.nansum]: not-a-number counts as zero. *)
Definition nansum (a : list float64) : R :=
  fold_right (fun x acc => (nan_to 0 x + acc)%R) 0%R a.

(** [np.nansum(subset) == 0] *)
Definition nansum_is_zero (a : list float64) : bool :=
  if Req_dec_T (nansum a) 0%R then true else false.

(** A computation that may not return: [None] when the loop is still
    running after [fuel] rounds. *)
Definition outcome (A : Type) : Type := option (result A).

(** The [while] loop of [_get_subset]; [fuel] bounds the rounds of
    padding. The result is the box that is logged and the subset. *)
Fixpoint pad_loop (fuel : nat) (self : QcConfigCreator) (var : string)
    (time_slice : string * string) (depth : nat) (pad_delta : Q)
    (bbox : list Q) (subset : list float64) : outcome (list Q * list float64) :=
  if nansum_is_zero subset then
    match fuel with
    | O => None
    | S fuel' =>
        match __apply_bbox_pad bbox pad_delta with
        | Raise e => Some (Raise e)
        | Ok bbox' =>
            match masked_subset self var time_slice depth bbox' with
            | Raise e => Some (Raise e)
            | Ok subset' => pad_loop fuel' self var time_slice depth pad_delta bbox' subset'
            end
        end
    end
  else Some (Ok (bbox, subset)).

(** [_get_subset] *)
Definition _get_subset (fuel : nat) (self : QcConfigCreator) (var : string)
    (bbox : list Q) (time_slice : string * string) (depth : nat) (pad_delta : Q)
  : outcome (list Q * list float64) :=
  match var2dataset self var with
  | Raise e => Some (Raise e)
  | Ok _ =>
      match masked_subset self var time_slice depth bbox with
      | Raise e => Some (Raise e)
      | Ok subset => pad_loop fuel self var time_slice depth pad_delta bbox subset
      end
  end.

(** ** The statistics snapshot *)

Record Stats : Type := mkStats {
  stat_min : float64;
  stat_max : float64;
  stat_mean : float64;
  stat_std : float64
}.

(** [np.fmin] and [np.fmax]: a not-a-number operand is ignored. *)
Definition fmin2 (a b : float64) : float64 :=
  match a, b with
  | NaN, _ => b
  | _, NaN => a
  | Num x, Num y => Num (Rmin x y)
  end.

Definition fmax2 (a b : float64) : float64 :=
  match a, b with
  | NaN, _ => b
  | _, NaN => a
  | Num x, Num y => Num (Rmax x y)
  end.

Definition zero_size (op : string) : exn :=
  ValueError ("zero-size array to reduction operation " ++ op ++ " which has no identity").

(** [np.nanmin], [np.nanmax]: an array without entries has no minimum; an
    array of not-a-numbers gives not-a-number (with a warning). *)
Definition nanmin (a : list float64) : result float64 :=
  match a with
  | [] => Raise (zero_size "minimum")
  | x :: rest => Ok (fold_left fmin2 rest x)
  end.

Definition nanmax (a : list float64) : result float64 :=
  match a with
  | [] => Raise (zero_size "maximum")
  | x :: rest => Ok (fold_left fmax2 rest x)
  end.

Definition is_num (x : float64) : bool :=
  match x with Num _ => true | NaN => false end.

(** The number of entries that are not not-a-number. *)
Definition count_valid (a : list float64) : nat := List.length (filter is_num a).

(** [np.nanmean]: not-a-numbers are replaced by zero, the sum is divided by
    the number of the other entries; none of them gives not-a-number. *)
Definition nanmean (a : list float64) : float64 :=
  match count_valid a with
  | O => NaN
  | cnt => Num (nansum a / INR cnt)%R
  end.

(** The sum of squared deviations, a not-a-number entry counting zero. *)
Definition sqdev_sum (avg : R) (a : list float64) : R :=
  fold_right
    (fun x acc => (match x with Num r => (r - avg) * (r - avg) | NaN => 0 end + acc)%R)
    0%R a.

(** [np.nanstd] (no degrees-of-freedom correction). *)
Definition nanstd (a : list float64) : float64 :=
  match count_valid a with
  | O => NaN
  | cnt =>
      let avg := (nansum a / INR cnt)%R in
      Num (sqrt (sqdev_sum avg a / INR cnt))
  end.

(** The dict built at lines 375-380. *)
Definition summarize (subset : list float64) : result Stats :=
  mn <- nanmin subset ;;
  mx <- nanmax subset ;;
  Ok (mkStats mn mx (nanmean subset) (nanstd subset)).

(** [_get_stats]; [depth] and [pad_delta] take their defaults. *)
Definition _get_stats (fuel : nat) (self : QcConfigCreator) (variable_config : VariableConfig)
  : outcome Stats :=
  match
    (start <- strptime_ymd (start_time variable_config) ;;
     stop <- strptime_ymd (end_time variable_config) ;;
     _get_time_range self (variable variable_config) (start, stop))
  with
  | Raise e => Some (Raise e)
  | Ok time_range =>
      match _get_subset fuel self (variable variable_config) (bbox variable_config)
              time_range 0 0.5 with
      | None => None
      | Some (Raise e) => Some (Raise e)
      | Some (Ok (_, subset)) => Some (summarize subset)
      end
  end.


(** ** The threshold sections *)

Definition not_subscriptable (v : pyval) : exn :=
  match v with
  | PStr _ => TypeError "string indices must be integers"
  | PList _ => TypeError "list indices must be integers or slices, not str"
  | _ => TypeError ("'" ++ type_name v ++ "' object is not subscriptable")
  end.

(** [variable_config['tests'][test_name][param]] *)
Definition test_param (variable_config : VariableConfig) (test_name param : string)
  : result pyval :=
  t <- dict_item (tests variable_config) test_name ;;
  match t with
  | PDict d => dict_item d param
  | v => Raise (not_subscriptable v)
  end.

Section Assembler.

(** [fx_parser.eval_fx(expression, stats)]: the evaluator is a collaborator
    of this module; it returns a number or raises. *)
Variable eval_fx : pyval -> Stats -> result pyval.

Definition __create_span_section (test_name : string) (variable_config : VariableConfig)
    (stats : Stats) : result pyval :=
  e1 <- test_param variable_config test_name "suspect_min" ;;
  suspect_min <- eval_fx e1 stats ;;
  e2 <- test_param variable_config test_name "suspect_max" ;;
  suspect_max <- eval_fx e2 stats ;;
  e3 <- test_param variable_config test_name "fail_min" ;;
  fail_min <- eval_fx e3 stats ;;
  e4 <- test_param variable_config test_name "fail_max" ;;
  fail_max <- eval_fx e4 stats ;;
  Ok (PDict [("suspect_span", PList [suspect_min; suspect_max]);
             ("fail_span", PList [fail_min; fail_max])]).

Definition __create_spike_section (test_name : string) (variable_config : VariableConfig)
    (stats : Stats) : result pyval :=
  e1 <- test_param variable_config test_name "suspect_threshold" ;;
  suspect_threshold <- eval_fx e1 stats ;;
  e2 <- test_param variable_config test_name "fail_threshold" ;;
  fail_threshold <- eval_fx e2 stats ;;
  Ok (PDict [("suspect_threshold", suspect_threshold);
             ("fail_threshold", fail_threshold)]).

Definition __create_flat_line_section (test_name : string) (variable_config : VariableConfig)
    (stats : Stats) : result pyval :=
  e1 <- test_param variable_config test_name "suspect_threshold" ;;
  suspect_threshold <- eval_fx e1 stats ;;
  e2 <- test_param variable_config test_name "fail_threshold" ;;
  fail_threshold <- eval_fx e2 stats ;;
  e3 <- test_param variable_config test_name "tolerance" ;;
  tolerance <- eval_fx e3 stats ;;
  Ok (PDict [("suspect_threshold", suspect_threshold);
             ("fail_threshold", fail_threshold);
             ("tolerance", tolerance)]).

Definition __create_location_section (test_name : string) (variable_config : VariableConfig)
  : result pyval :=
  b <- test_param variable_config test_name "bbox" ;;
  Ok (PDict [("bbox", b)]).

Definition __create_rate_of_change_section (test_name : string)
    (variable_config : VariableConfig) (stats : Stats) : result pyval :=
  e <- test_param variable_config test_name "threshold" ;;
  threshold <- eval_fx e stats ;;
  Ok (PDict [("threshold", threshold)]).

(** [_create_test_section] *)
Definition _create_test_section (test_name : string) (variable_config : VariableConfig)
    (test_limits : Stats) : result pyval :=
  if String.eqb test_name "spike_test" then
    __create_spike_section test_name variable_config test_limits
  else if String.eqb test_name "location_test" then
    __create_location_section test_name variable_config
  else if String.eqb test_name "rate_of_change_test" then
    __create_rate_of_change_section test_name variable_config test_limits
  else if String.eqb test_name "flat_line_test" then
    __create_flat_line_section test_name variable_config test_limits
  else
    __create_span_section test_name variable_config test_limits.

(** The dict comprehension of [create_config] over the test names. *)
Fixpoint test_sections (names : list string) (variable_config : VariableConfig)
    (stats : Stats) (acc : dict pyval) : result (dict pyval) :=
  match names with
  | [] => Ok acc
  | nm :: rest =>
      sec <- _create_test_section nm variable_config stats ;;
      test_sections rest variable_config stats (dict_set acc nm sec)
  end.

(** [create_config] *)
Definition create_config (fuel : nat) (self : QcConfigCreator)
    (variable_config : VariableConfig) : outcome pyval :=
  match _get_stats fuel self variable_config with
  | None => None
  | Some (Raise e) => Some (Raise e)
  | Some (Ok stats) =>
      Some (test_configs <-
              test_sections (dict_keys (tests variable_config)) variable_config stats [] ;;
            Ok (PDict [(variable variable_config,
                        PDict [("qartod", PDict test_configs)])]))
  end.

End Assembler.

(** ** [to_json] *)

(** The files of the run: their contents, and what was done to them. *)
Inductive fs_event : Type :=
| Opened (path : string)
| Wrote (path : string) (text : string)
| Closed (path : string).

Record FS : Type := mkFS {
  contents : dict string;
  events : list fs_event
}.

(** An argument of [json.dump]: a value, or a file object open for
    writing. *)
Inductive pyobj : Type :=
| ObjVal (v : pyval)
| ObjFile (path : string).

Definition fs_open_w (fs : FS) (path : string) : FS :=
  mkFS (dict_set (contents fs) path "") (events fs ++ [Opened path])%list.

Definition fs_write (fs : FS) (path text : string) : FS :=
  let old := match dict_get (contents fs) path with Some s => s | None => "" end in
  mkFS (dict_set (contents fs) path (old ++ text)) (events fs ++ [Wrote path text])%list.

Definition fs_close (fs : FS) (path : string) : FS :=
  mkFS (contents fs) (events fs ++ [Closed path])%list.

Section ToJson.

(** [json.dumps] on a value, and whether [open(path, 'w')] succeeds, belong
    to the library and to the machine. *)
Variable json_dumps : pyval -> result string.
Variable can_open : string -> bool.

(** [json.dump(obj, fp)]: [obj] is serialized, the text is written to
    [fp]. A file object is not serializable; a dict has no [write]. *)
Definition json_dump (fs : FS) (obj fp : pyobj) : FS * result unit :=
  match obj with
  | ObjFile _ => (fs, Raise (TypeError "Object of type TextIOWrapper is not JSON serializable"))
  | ObjVal v =>
      match json_dumps v with
      | Raise e => (fs, Raise e)
      | Ok text =>
          match fp with
          | ObjFile path => (fs_write fs path text, Ok tt)
          | ObjVal w => (fs, Raise (no_attribute w "write"))
          end
      end
  end.

(** [if out_file:] on [None] or a string. *)
Definition truthy (out_file : option string) : bool :=
  match out_file with
  | None => false
  | Some s => negb (String.eqb s "")
  end.

(** [to_json]: with a file, nothing is returned. *)
Definition to_json (fs : FS) (qc_config : pyval) (out_file : option string)
  : FS * result (option string) :=
  if truthy out_file then
    let path := match out_file with Some s => s | None => "" end in
    if can_open path then
      let fs1 := fs_open_w fs path in
      let (fs2, r) := json_dump fs1 (ObjFile path) (ObjVal qc_config) in
      (fs_close fs2 path, r ;;; Ok None)
    else (fs, Raise (OSError ("cannot open '" ++ path ++ "' for writing")))
  else
    (fs, text <- json_dumps qc_config ;; Ok (Some text)).

End ToJson.

(** ** Example data *)

Definition jan (d : nat) : date := mkDate 2005 1 d.

(** One dataset, ["clim"], holding ["TEMP"] at the grid point (1.5, 1.5)
    with the values 1, 2, 3, 4 on the first four days of January 2005. *)
Definition clim_dataset : Dataset :=
  mkDataset [mkDate 2005 1 16; mkDate 2005 2 15]
    [("TEMP",
      Var2D [mkGridPoint 1.5 1.5
               [(jan 1, Num 1); (jan 2, Num 2); (jan 3, Num 3); (jan 4, Num 4)]])].

Definition clim_registry : dict DatasetEntry :=
  CreatorConfig_init [mkDatasetDescr "clim" "clim.nc" [("temp", "TEMP")] None].

Definition clim_creator : QcConfigCreator :=
  mkQcConfigCreator clim_registry [("clim", clim_dataset)] [("clim", 2005)].

(** The same grid with every value missing. *)
Definition masked_dataset : Dataset :=
  mkDataset [mkDate 2005 1 16; mkDate 2005 2 15]
    [("TEMP", Var2D [mkGridPoint 1.5 1.5 [(jan 1, NaN); (jan 2, NaN)]])].

Definition masked_creator : QcConfigCreator :=
  mkQcConfigCreator clim_registry [("clim", masked_dataset)] [("clim", 2005)].

(** Two datasets that both declare the logical name ["temp"]. *)
Definition two_registry : dict DatasetEntry :=
  CreatorConfig_init
    [mkDatasetDescr "clim_a" "a.nc" [("salt", "SALT"); ("temp", "TEMP_A")] None;
     mkDatasetDescr "clim_b" "b.nc" [("temp", "TEMP_B")] (Some "depth")].

(** A configuration whose [suspect_min] has two spaces in a row. *)
Definition double_space_config : VariableConfig :=
  mkVariableConfig "temp" [(-10)%Q; (-5)%Q; 10%Q; 5%Q] "2020-01-01" "2020-02-01"
    [("gross_range_test",
      PDict [("suspect_min", PStr "min  - std"); ("suspect_max", PStr "max + std");
             ("fail_min", PStr "min - 2 * std"); ("fail_max", PStr "max + 2 * std")])].

(** A configuration with one spike test. *)
Definition spike_config : VariableConfig :=
  mkVariableConfig "temp" [(-10)%Q; (-5)%Q; 10%Q; 5%Q] "2020-01-01" "2020-02-01"
    [("spike_test",
      PDict [("suspect_threshold", PStr "std"); ("fail_threshold", PStr "2 * std")])].

(** A deployment window of four days, as [_get_time_range] writes it. *)
Definition first_days : string * string := ("2005-1-1", "2005-1-4").

(** An evaluator for the expressions that are one stat name, enough to run
    the assembler on an example. *)
Definition eval_stat_name (expression : pyval) (stats : Stats) : result pyval :=
  match expression with
  | PStr s =>
      if String.eqb s "min" then Ok (PFloat (stat_min stats))
      else if String.eqb s "max" then Ok (PFloat (stat_max stats))
      else if String.eqb s "mean" then Ok (PFloat (stat_mean stats))
      else if String.eqb s "std" then Ok (PFloat (stat_std stats))
      else Raise (ValueError ("unsupported expression: " ++ s))
  | v => Raise (no_attribute v "split")
  end.

(** An evaluator that refuses everything. *)
Definition eval_nothing (expression : pyval) (stats : Stats) : result pyval :=
  Raise (ValueError "no expression is evaluated").

Definition example_stats : Stats := mkStats (Num 1) (Num 4) (Num (5 / 2)) (Num (sqrt (5 / 4))).

Definition assembler_config : VariableConfig :=
  mkVariableConfig "temp" [(-10)%Q; (-5)%Q; 10%Q; 5%Q] "2020-01-01" "2020-02-01"
    [("gross_range_test",
      PDict [("suspect_min", PStr "min"); ("suspect_max", PStr "max");
             ("fail_min", PStr "mean"); ("fail_max", PStr "std")]);
     ("location_test",
      PDict [("bbox", PList [PNum (-80); PNum 40; PNum (-70); PNum 60])])].


(** ** Predicates used to state the properties *)

(** One item of a test passes the check of [__init__]: it is named ['bbox']
    or [_validate_fx] returns on it. *)
Definition param_ok (kv : string * pyval) : bool :=
  String.eqb (fst kv) "bbox" || is_ok (_validate_fx (snd kv) (fst kv)).

Definition test_ok (v : pyval) : bool :=
  match v with
  | PDict params => forallb param_ok params
  | _ => false
  end.

Definition tests_ok (all_tests : dict pyval) (keys : list string) : bool :=
  forallb
    (fun k => match dict_get all_tests k with Some v => test_ok v | None => false end)
    keys.

Definition with_tests (c : VariableConfig) (t : dict pyval) : VariableConfig :=
  mkVariableConfig (variable c) (bbox c) (start_time c) (end_time c) t.





(* ================================================================== *)
(** * Part I, continued: [ioos_qc.utils] *)
(* ================================================================== *)

(** ** [check_timestamps] *)

(** The timestamps are an array of signed integers of [w] bits: [int64],
    or the ticks of a [datetime64]. Arithmetic on the array wraps around. *)
Definition wrap (w : Z) (z : Z) : Z :=
  ((z + 2 ^ (w - 1)) mod 2 ^ w - 2 ^ (w - 1))%Z.

(** [np.diff] of a one-dimensional array: the steps between neighbours,
    in the type of the array. *)
Fixpoint np_diff (w : Z) (a : list Z) : list Z :=
  match a with
  | x :: rest =>
      match rest with
      | y :: _ => wrap w (y - x) :: np_diff w rest
      | [] => []
      end
  | [] => []
  end.

(** The steps between neighbours as numbers, to state what is checked. *)
Fixpoint steps (a : list Z) : list Z :=
  match a with
  | x :: rest =>
      match rest with
      | y :: _ => (y - x)%Z :: steps rest
      | [] => []
      end
  | [] => []
  end.

(** The builtin [sorted], as an insertion sort. *)
Fixpoint insert_sorted (x : Z) (l : list Z) : list Z :=
  match l with
  | [] => [x]
  | y :: rest => if (x <=? y)%Z then x :: l else y :: insert_sorted x rest
  end.

Definition sorted (a : list Z) : list Z := fold_right insert_sorted [] a.

(** [np.array_equal] on two one-dimensional arrays. *)
Fixpoint array_equal (a b : list Z) : bool :=
  match a, b with
  | [], [] => true
  | x :: a', y :: b' => (x =? y)%Z && array_equal a' b'
  | _, _ => false
  end.

(** [check_timestamps] on an array of [w]-bit integers; the interval is
    an integer. *)
Definition check_timestamps (w : Z) (times : list Z) (max_time_interval : option Z) : bool :=
  let time_diff := np_diff w times in
  let sort_diff := np_diff w (sorted times) in
  if negb (array_equal time_diff sort_diff) || existsb (fun d => (d =? 0)%Z) sort_diff
  then false
  else if match max_time_interval with
          | Some m => existsb (fun d => (m <? d)%Z) sort_diff
          | None => false
          end
  then false
  else true.

(** The values that leave room for every difference: strictly between
    [-2^(w-2)] and [2^(w-2)]. *)
Definition half_range (w : Z) (t : Z) : Prop := (- 2 ^ (w - 2) < t < 2 ^ (w - 2))%Z.

(** ** [cf_safe_name] *)

(** The class [[_a-zA-Z0-9]]. *)
Definition is_safe_char (c : ascii) : bool :=
  let n := nat_of_ascii c in
  Ascii.eqb c "_"%char
  || ((97 <=? n)%nat && (n <=? 122)%nat)
  || ((65 <=? n)%nat && (n <=? 90)%nat)
  || is_digit c.

(** [re.match('^[0-9_]', name)] *)
Definition starts_with_digit_or_underscore (s : string) : bool :=
  match s with
  | String c _ => is_digit c || Ascii.eqb c "_"%char
  | EmptyString => false
  end.

(** [re.sub(r'[^_a-zA-Z0-9]', "_", name)] *)
Fixpoint sub_unsafe (s : string) : string :=
  match s with
  | EmptyString => EmptyString
  | String c rest => String (if is_safe_char c then c else "_"%char) (sub_unsafe rest)
  end.

Definition quote : string := String "034"%char "".

Section SafeName.

(** How [format] renders a value that is not a string. *)
Variable py_str : pyval -> string.

(** [cf_safe_name] *)
Definition cf_safe_name (name : pyval) : result string :=
  match name with
  | PStr s =>
      let s := if starts_with_digit_or_underscore s then "v_" ++ s else s in
      Ok (sub_unsafe s)
  | v =>
      Raise (ValueError ("Could not convert " ++ quote ++ py_str v ++ quote
                         ++ " to a safe name"))
  end.

End SafeName.

(** ** [dict_update] *)

Definition is_mapping (v : pyval) : bool :=
  match v with PDict _ => true | _ => false end.

(** [d.get(k, {})] *)
Definition get_or_empty (d : dict pyval) (k : string) : pyval :=
  match dict_get d k with Some v => v | None => PDict [] end.

(** The loop of [dict_update] over [u.items()], the recursive call being
    [rec]. A [d] that is not a mapping is replaced by a one-item dict. *)
Definition update_loop (rec : pyval -> pyval -> result pyval) :=
  fix loop (d : pyval) (items : dict pyval) {struct items} : result pyval :=
    match items with
    | [] => Ok d
    | (k, v) :: rest =>
        match d with
        | PDict dd =>
            match v with
            | PDict _ =>
                r <- rec (get_or_empty dd k) v ;;
                loop (PDict (dict_set dd k r)) rest
            | _ => loop (PDict (dict_set dd k v)) rest
            end
        | _ => loop (PDict [(k, v)]) rest
        end
    end.

(** [dict_update]: the value returned (the argument [d] is updated in
    place when it is a mapping). *)
Fixpoint dict_update (d u : pyval) {struct u} : result pyval :=
  match u with
  | PDict items => update_loop (fun d' v => dict_update d' v) d items
  | v => Raise (no_attribute v "items")
  end.

(** Two nested mappings to merge. *)
Definition update_target : dict pyval :=
  [("a", PNum 1); ("b", PDict [("x", PNum 1)])].

Definition update_source : dict pyval :=
  [("b", PDict [("y", PNum 2)]); ("c", PNum 3)].

(* ================================================================== *)
(** * Part I, continued: notions used for the further properties *)
(* ================================================================== *)

(** The entry [CreatorConfig.__init__] stores for one dataset. *)
Definition entry_of (dataset : DatasetDescr) : DatasetEntry :=
  mkDatasetEntry (descr_file_path dataset) (descr_variables dataset) (descr_3d dataset).

(** A dataset list in which the name ["clim"] comes twice. *)
Definition repeated_datasets : list DatasetDescr :=
  [mkDatasetDescr "clim" "old.nc" [("temp", "T_OLD")] None;
   mkDatasetDescr "wave" "wave.nc" [("hs", "HS")] None;
   mkDatasetDescr "clim" "new.nc" [("temp", "T_NEW")] (Some "depth")].

(** The values of an array of daily series dated within two bounds. *)
Definition select_between (start stop : date) (arr : list (list (date * float64)))
  : list float64 :=
  flat_map
    (fun series =>
       map snd (filter (fun p => date_leb start (fst p) && date_leb (fst p) stop) series))
    arr.

(** A window that starts in November and stops in February. *)
Definition over_new_year : string * string := ("2005-11-1", "2005-2-1").

(** A deployment from November to February, on the grid of ["clim"]. *)
Definition new_year_config : VariableConfig :=
  mkVariableConfig "temp" [0%Q; 0%Q; 3%Q; 3%Q] "2020-11-01" "2021-02-01"
    [("spike_test",
      PDict [("suspect_threshold", PStr "std"); ("fail_threshold", PStr "2 * std")])].

(** The parameters a section reads, in the order it reads them. *)
Definition required_params (test_name : string) : list string :=
  if String.eqb test_name "spike_test" then ["suspect_threshold"; "fail_threshold"]
  else if String.eqb test_name "location_test" then ["bbox"]
  else if String.eqb test_name "rate_of_change_test" then ["threshold"]
  else if String.eqb test_name "flat_line_test"
       then ["suspect_threshold"; "fail_threshold"; "tolerance"]
  else ["suspect_min"; "suspect_max"; "fail_min"; "fail_max"].

(** A spike test that lacks its [fail_threshold]. *)
Definition half_spike_config : VariableConfig :=
  mkVariableConfig "temp" [(-10)%Q; (-5)%Q; 10%Q; 5%Q] "2020-01-01" "2020-02-01"
    [("spike_test", PDict [("suspect_threshold", PStr "std")])].

(** ** [PandasStore] *)

(** A member of the [include] and [exclude] lists: a test function, or a
    string (a stream id or a test name). A function equals no string. *)
Inductive selector : Type :=
| SelFunction (name : string)
| SelStr (s : string).

Definition selector_eqb (a b : selector) : bool :=
  match a, b with
  | SelFunction f, SelFunction g => String.eqb f g
  | SelStr s, SelStr t => String.eqb s t
  | _, _ => false
  end.

(** [x in lst] on a list. *)
Definition sel_in (x : selector) (lst : list selector) : bool :=
  existsb (selector_eqb x) lst.

(** [needle in hay] on two strings. *)
Fixpoint str_contains (needle hay : string) : bool :=
  String.prefix needle hay
  || match hay with
     | EmptyString => false
     | String _ rest => str_contains needle rest
     end.

(** The axes of a store built without any. *)
Definition default_axes : dict string :=
  [("t", "time"); ("z", "z"); ("y", "lat"); ("x", "lon")].

Section PandasStore.

(** Arrays and data frames belong to the libraries: an array has a size, a
    frame is asked for a column name and is assigned a column, which the
    library may refuse. *)
Variable ndarray : Type.
Variable size : ndarray -> nat.
Variable DataFrame : Type.
Variable empty_frame : DataFrame.
Variable frame_contains : DataFrame -> string -> bool.
Variable frame_setitem : DataFrame -> string -> ndarray -> result DataFrame.
Variable py_str : pyval -> string.

(** What [save] reads of a collected result. *)
Record CollectedResult : Type := mkCollectedResult {
  cr_stream_id : string;
  cr_package : string;
  cr_test : string;
  cr_function : string;
  cr_results : ndarray;
  cr_data : ndarray;
  cr_tinp : option ndarray;
  cr_zinp : option ndarray;
  cr_lat : option ndarray;
  cr_lon : option ndarray
}.

Record PandasStore : Type := mkPandasStore {
  collected_results : list CollectedResult;
  axes : dict string
}.

(** [PandasStore.__init__], the results already collected: [axes or {...}]. *)
Definition PandasStore_init (collected : list CollectedResult)
    (axes : option (dict string)) : PandasStore :=
  mkPandasStore collected
    match axes with
    | Some ((_ :: _) as a) => a
    | _ => default_axes
    end.

(** One of the four blocks that add an axis column (lines 48-65). *)
Definition add_axis (self : PandasStore) (df : DataFrame) (axis : string)
    (inp : option ndarray) : result DataFrame :=
  name <- dict_item (axes self) axis ;;
  if negb (frame_contains df name) then
    match inp with
    | Some a => if negb (size a =? 0)%nat then frame_setitem df name a else Ok df
    | None => Ok df
    end
  else Ok df.

(** The condition of the inclusion list (line 68). *)
Definition skipped_by_include (include : option (list selector)) (cr : CollectedResult)
  : bool :=
  match include with
  | None => false
  | Some inc =>
      negb (sel_in (SelFunction (cr_function cr)) inc)
      && negb (sel_in (SelStr (cr_stream_id cr)) inc)
      && negb (sel_in (SelStr (cr_test cr)) inc)
  end.

(** The condition of the exclusion list (line 72); its last operand is the
    chained comparison [cr.test in cr.test in include]. *)
Definition skipped_by_exclude (include exclude : option (list selector))
    (cr : CollectedResult) : result bool :=
  match exclude with
  | None => Ok false
  | Some exc =>
      if sel_in (SelFunction (cr_function cr)) exc then Ok true
      else if sel_in (SelStr (cr_stream_id cr)) exc then Ok true
      else if str_contains (cr_test cr) (cr_test cr) then
        match include with
        | None => Raise (TypeError "argument of type 'NoneType' is not iterable")
        | Some inc => Ok (sel_in (SelStr (cr_test cr)) inc)
        end
      else Ok false
  end.

(** The body of the loop of [save]. *)
Definition save_step (self : PandasStore) (write_data : bool)
    (include exclude : option (list selector)) (df : DataFrame) (cr : CollectedResult)
  : result DataFrame :=
  df <- add_axis self df "t" (cr_tinp cr) ;;
  df <- add_axis self df "z" (cr_zinp cr) ;;
  df <- add_axis self df "x" (cr_lon cr) ;;
  df <- add_axis self df "y" (cr_lat cr) ;;
  if skipped_by_include include cr then Ok df
  else
    skip <- skipped_by_exclude include exclude cr ;;
    if skip then Ok df
    else
      df <- (if write_data && negb (frame_contains df (cr_stream_id cr))
             then frame_setitem df (cr_stream_id cr) (cr_data cr)
             else Ok df) ;;
      column_name <- cf_safe_name py_str
                       (PStr (cr_stream_id cr ++ "." ++ cr_package cr ++ "." ++ cr_test cr)) ;;
      if negb (frame_contains df column_name)
      then frame_setitem df column_name (cr_results cr)
      else Ok df.

Fixpoint save_loop (self : PandasStore) (write_data : bool)
    (include exclude : option (list selector)) (crs : list CollectedResult)
    (df : DataFrame) : result DataFrame :=
  match crs with
  | [] => Ok df
  | cr :: rest =>
      df <- save_step self write_data include exclude df cr ;;
      save_loop self write_data include exclude rest df
  end.

(** [PandasStore.save] *)
Definition save (self : PandasStore) (write_data : bool)
    (include exclude : option (list selector)) : result DataFrame :=
  save_loop self write_data include exclude (collected_results self) empty_frame.

(** Two collected results that differ at most by their flags and data. *)
Definition same_but_arrays (a b : CollectedResult) : Prop :=
  cr_stream_id a = cr_stream_id b /\ cr_package a = cr_package b
  /\ cr_test a = cr_test b /\ cr_function a = cr_function b
  /\ cr_tinp a = cr_tinp b /\ cr_zinp a = cr_zinp b
  /\ cr_lat a = cr_lat b /\ cr_lon a = cr_lon b.

End PandasStore.

(** The column [n] of [df] is in [df'] with the same content. *)
Definition column_kept {DataFrame ndarray : Type}
    (frame_contains : DataFrame -> string -> bool)
    (frame_get : DataFrame -> string -> option ndarray)
    (n : string) (df df' : DataFrame) : Prop :=
  frame_contains df' n = true /\ frame_get df' n = frame_get df n.

(** A frame as its columns in order, for the examples: every assignment is
    accepted. *)
Definition list_frame_setitem (df : dict (list Z)) (name : string) (a : list Z)
  : result (dict (list Z)) := Ok (dict_set df name a).

Definition one_result (stream test function : string) (flags : list Z)
  : CollectedResult (list Z) :=
  mkCollectedResult (list Z) stream "qartod" test function flags [10; 20]%Z
    (Some [0; 1]%Z) None None None.

Definition list_save (crs : list (CollectedResult (list Z))) (write_data : bool)
    (include exclude : option (list selector)) : result (dict (list Z)) :=
  save (list Z) (@List.length Z) (dict (list Z)) [] dict_contains list_frame_setitem
    (fun _ => "") (PandasStore_init (list Z) crs None) write_data include exclude.

(** ** [CFNetCDFStore] *)

(** [str.strip()]: the whitespace of [str.isspace] is removed at both
    ends. *)
Fixpoint lstrip (s : list ascii) : list ascii :=
  match s with
  | c :: r => if is_space c then lstrip r else s
  | [] => []
  end.

Definition strip (s : list ascii) : list ascii := rev (lstrip (rev (lstrip s))).

Definition py_strip (s : string) : string :=
  string_of_list_ascii (strip (list_ascii_of_string s)).

(** A value of the [attrs] dict of [CFNetCDFStore.save]: the dict
    [{'ancillary_variables': column_name}] of a stream, a string, or the
    attributes of a QC variable. *)
Inductive attr_value (payload : Type) : Type :=
| AncillaryDict (column_name : string)
| AttrStr (s : string)
| QcVariable (p : payload).

Arguments AncillaryDict {payload} column_name.
Arguments AttrStr {payload} s.
Arguments QcVariable {payload} p.

(** [getattr(v, 'ancillary_variables', '')] on a value of [attrs]: neither
    a dict nor a string has an attribute of that name, the default is
    returned. *)
Definition getattr_ancillary_variables {payload : Type} (v : attr_value payload) : string :=
  match v with
  | AncillaryDict _ => ""
  | AttrStr _ => ""
  | QcVariable _ => ""
  end.

Section CFNetCDFStore.

Variable ndarray : Type.
Variable size : ndarray -> nat.
Variable DataFrame : Type.
Variable empty_frame : DataFrame.
Variable frame_contains : DataFrame -> string -> bool.
Variable frame_setitem : DataFrame -> string -> ndarray -> result DataFrame.
Variable py_str : pyval -> string.

(** [df[name] = 0] *)
Variable frame_setscalar : DataFrame -> string -> Z -> result DataFrame.

(** [list(set(lst))]: the order is the library's. *)
Variable set_to_list : list string -> list string.

(** The flag names and values of the module of the test function
    (lines 128-130), and the attributes of a QC variable built from them
    and from the configuration (lines 134-153): both read objects that are
    not of this module and may raise. *)
Variable flags : Type.
Variable get_flags : CollectedResult ndarray -> result flags.
Variable payload : Type.
Variable qc_attributes : CollectedResult ndarray -> flags -> result payload.

(** [len(config.contexts)] and [json.dumps(config.config, ...)]. *)
Variable n_contexts : nat.
Variable dumps_config : result string.

(** [dsg.from_dataframe(df, path_or_ncd, axes=..., **dsg_kwargs)], the
    [attributes] of [dsg_kwargs] being [attrs]. *)
Variable kwargs : Type.
Variable target : Type.
Variable Ncd : Type.
Variable from_dataframe :
  DataFrame -> target -> dict string -> kwargs -> dict (attr_value payload) -> result Ncd.

Record CFNetCDFStore : Type := mkCFNetCDFStore {
  cf_collected_results : list (CollectedResult ndarray);
  cf_axes : dict string
}.

(** [CFNetCDFStore.__init__], the results already collected. *)
Definition CFNetCDFStore_init (collected : list (CollectedResult ndarray))
    (axes : option (dict string)) : CFNetCDFStore :=
  mkCFNetCDFStore collected
    match axes with
    | Some ((_ :: _) as a) => a
    | _ => default_axes
    end.

(** The body of the loop over the collected results (lines 107-153). *)
Definition attrs_step (attrs : dict (attr_value payload)) (cr : CollectedResult ndarray)
  : result (dict (attr_value payload)) :=
  column_name <- cf_safe_name py_str
                   (PStr (cr_stream_id ndarray cr ++ "." ++ cr_package ndarray cr
                          ++ "." ++ cr_test ndarray cr)) ;;
  attrs <- match dict_get attrs (cr_stream_id ndarray cr) with
           | None => Ok (dict_set attrs (cr_stream_id ndarray cr) (AncillaryDict column_name))
           | Some v =>
               let existing := split_on " "%char (getattr_ancillary_variables v) in
               let existing := (existing ++ [column_name])%list in
               Ok (dict_set attrs (cr_stream_id ndarray cr)
                     (AttrStr (py_strip (join " " (set_to_list existing)))))
           end ;;
  fl <- get_flags cr ;;
  if negb (dict_contains attrs column_name) then
    p <- qc_attributes cr fl ;;
    Ok (dict_set attrs column_name (QcVariable p))
  else Ok attrs.

Fixpoint attrs_loop (crs : list (CollectedResult ndarray))
    (attrs : dict (attr_value payload)) : result (dict (attr_value payload)) :=
  match crs with
  | [] => Ok attrs
  | cr :: rest => attrs <- attrs_step attrs cr ;; attrs_loop rest attrs
  end.

(** [CFNetCDFStore.save] *)
Definition CFNetCDFStore_save (self : CFNetCDFStore) (path_or_ncd : target)
    (dsg_kwargs : kwargs) (write_data : bool) (include exclude : option (list selector))
  : result Ncd :=
  let ps := PandasStore_init ndarray (cf_collected_results self) (Some (cf_axes self)) in
  df <- save ndarray size DataFrame empty_frame frame_contains frame_setitem py_str
          ps write_data include exclude ;;
  attrs <- attrs_loop (cf_collected_results self) [] ;;
  attrs <- (if (1 <? n_contexts)%nat
            then j <- dumps_config ;; Ok (dict_set attrs "ioos_qc_config" (AttrStr j))
            else Ok attrs) ;;
  df <- frame_setscalar df "station" 0%Z ;;
  df <- frame_setscalar df "trajectory" 0%Z ;;
  df <- frame_setscalar df "profile" 0%Z ;;
  from_dataframe df path_or_ncd (cf_axes self) dsg_kwargs attrs.

End CFNetCDFStore.

(** An instance for the examples: one context, no flags, the attributes of
    a QC variable reduced to the name of its test, and a writer that returns
    what it is given. *)
Definition list_cf_save (crs : list (CollectedResult (list Z)))
  : result (dict (list Z) * dict (attr_value string)) :=
  CFNetCDFStore_save (list Z) (@List.length Z) (dict (list Z)) [] dict_contains
    list_frame_setitem (fun _ => "")
    (fun df name z => Ok (dict_set df name [z]))
    (nodup string_dec)
    unit (fun _ => Ok tt)
    string (fun cr _ => Ok (cr_test (list Z) cr))
    1 (Ok "{}")
    unit unit (dict (list Z) * dict (attr_value string))
    (fun df _ _ _ attrs => Ok (df, attrs))
    (CFNetCDFStore_init (list Z) crs None) tt tt false None None.

(* ================================================================== *)
(** * Part II: properties *)
(* ================================================================== *)

(** ** Results, dicts *)

Lemma bind_ok_inv {A B : Type} (r : result A) (k : A -> result B) (b : B) :
  bind r k = Ok b -> exists a, r = Ok a /\ k a = Ok b.
Proof. destruct r as [a|e]; simpl; intros H; [eauto | discriminate]. Qed.

Lemma dict_get_set_same {V : Type} (d : dict V) (k : string) (v : V) :
  dict_get (dict_set d k v) k = Some v.
Proof.
  induction d as [|[k' v'] d IH]; simpl.
  - now rewrite String.eqb_refl.
  - destruct (String.eqb k k') eqn:E; simpl; rewrite E; auto.
Qed.

Lemma dict_get_set_other {V : Type} (d : dict V) (k k0 : string) (v : V) :
  k0 <> k -> dict_get (dict_set d k v) k0 = dict_get d k0.
Proof.
  intros Hne. induction d as [|[k' v'] d IH]; simpl.
  - destruct (String.eqb k0 k) eqn:E; auto. apply String.eqb_eq in E. contradiction.
  - destruct (String.eqb k k') eqn:E; simpl.
    + apply String.eqb_eq in E. subst k'.
      destruct (String.eqb k0 k) eqn:E0; auto.
      apply String.eqb_eq in E0. contradiction.
    + now rewrite IH.
Qed.

Lemma dict_keys_set_present {V : Type} (d : dict V) (k : string) (v w : V) :
  dict_get d k = Some w -> dict_keys (dict_set d k v) = dict_keys d.
Proof.
  unfold dict_keys. induction d as [|[k' v'] d IH]; simpl; [discriminate|].
  destruct (String.eqb k k') eqn:E; simpl; intros H; auto.
  now rewrite IH.
Qed.

Lemma dict_get_In {V : Type} (d : dict V) (k : string) (v : V) :
  dict_get d k = Some v -> In (k, v) d.
Proof.
  induction d as [|[k' v'] d IH]; simpl; [discriminate|].
  destruct (String.eqb k k') eqn:E; intros H.
  - apply String.eqb_eq in E. inversion H. subst. now left.
  - right. auto.
Qed.

(** ** The expression check *)

Example py_float_ok_examples :
  map py_float_ok ["1"; "1.5"; ".5"; "5."; "1e5"; "-2"; "+3.0e-2"; "nan"; "Inf"; "1_0"]
  = [true; true; true; true; true; true; true; true; true; true]
  /\ map py_float_ok [""; "min"; "1e"; "1__0"; "_1"; "0x10"; "."; "1.5.2"; "--1"; "e5"]
     = [false; false; false; false; false; false; false; false; false; false]
  /\ map py_float_ok ["2" ++ String "009"%char ""; nl ++ "2"; String "160"%char "1"]
     = [true; true; true]
  /\ map py_float_ok [String "028"%char "1"; "1" ++ String "031"%char ""; "1 2"]
     = [false; false; false].
Proof. repeat split; vm_compute; reflexivity. Qed.

Example split_on_examples :
  split_on " "%char "min - 2 * std" = ["min"; "-"; "2"; "*"; "std"]
  /\ split_on " "%char "min  + max" = ["min"; ""; "+"; "max"]
  /\ split_on " "%char "" = [""].
Proof. repeat split. Qed.

Lemma token_allowed_spec (t : string) : token_allowed t = spec_token_allowed t.
Proof.
  unfold token_allowed, spec_token_allowed.
  destruct (py_float_ok t), (str_in t allowed_stats), (str_in t allowed_operators),
    (str_in t allowed_groupings); reflexivity.
Qed.

Lemma validate_tokens_ok (toks : list string) (test_name : string) :
  validate_tokens toks test_name = Ok tt <-> forallb spec_token_allowed toks = true.
Proof.
  induction toks as [|t toks IH]; cbn [validate_tokens forallb]; [tauto|].
  rewrite <- token_allowed_spec. unfold token_allowed.
  destruct (py_float_ok t); cbn [orb andb]; [exact IH|].
  destruct (negb (str_in t allowed_stats) && negb (str_in t allowed_operators)
            && negb (str_in t allowed_groupings)); cbn [negb andb].
  - split; intros H; discriminate H.
  - exact IH.
Qed.

(** When a token is refused, the error is the one built for the first such
    token. *)
Lemma validate_tokens_raise (toks : list string) (test_name : string) :
  forallb spec_token_allowed toks = false ->
  exists pre tok post,
    toks = (pre ++ tok :: post)%list
    /\ forallb spec_token_allowed pre = true
    /\ spec_token_allowed tok = false
    /\ validate_tokens toks test_name = Raise (ValueError (fx_message tok test_name)).
Proof.
  induction toks as [|t toks IH]; cbn [validate_tokens forallb]; [discriminate|].
  destruct (spec_token_allowed t) eqn:Et; cbn [andb].
  - intros H. destruct (IH H) as (pre & tok & post & -> & Hp & Ht & Hr).
    exists (t :: pre), tok, post. cbn [forallb app]. rewrite Et, Hp. repeat split; auto.
    rewrite <- token_allowed_spec in Et. unfold token_allowed in Et.
    destruct (py_float_ok t); [exact Hr|]. cbn [orb] in Et.
    destruct (negb (str_in t allowed_stats) && negb (str_in t allowed_operators)
              && negb (str_in t allowed_groupings)); [discriminate Et | exact Hr].
  - intros _. exists [], t, toks. cbn [forallb app]. repeat split; auto.
    rewrite <- token_allowed_spec in Et. unfold token_allowed in Et.
    destruct (py_float_ok t); [discriminate Et|]. cbn [orb] in Et.
    destruct (negb (str_in t allowed_stats) && negb (str_in t allowed_operators)
              && negb (str_in t allowed_groupings)); [reflexivity | discriminate Et].
Qed.

Lemma fx_message_names_token (tok test_name : string) :
  String.prefix tok (fx_message tok test_name) = true.
Proof.
  unfold fx_message. induction tok as [|c tok IH]; simpl.
  - reflexivity.
  - destruct (ascii_dec c c) as [_|Hne]; [exact IH | now elim Hne].
Qed.

Lemma validate_params_ok (params : dict pyval) :
  validate_params params = Ok tt <-> forallb param_ok params = true.
Proof.
  induction params as [|[k v] params IH]; simpl; [tauto|].
  unfold param_ok at 1. simpl.
  destruct (String.eqb k "bbox"); simpl; [exact IH|].
  destruct (_validate_fx v k) as [[]|e]; simpl; [exact IH|].
  split; discriminate.
Qed.

Lemma validate_tests_ok (all_tests : dict pyval) (keys : list string) :
  validate_tests all_tests keys = Ok tt <-> tests_ok all_tests keys = true.
Proof.
  unfold tests_ok. induction keys as [|k keys IH]; simpl; [tauto|].
  unfold dict_item. destruct (dict_get all_tests k) as [v|]; simpl.
  2: split; discriminate.
  destruct v; simpl; try (split; discriminate).
  destruct (validate_params d) as [[]|e] eqn:E; simpl.
  - apply validate_params_ok in E. rewrite E. exact IH.
  - destruct (forallb param_ok d) eqn:F; simpl.
    + apply validate_params_ok in F. congruence.
    + split; discriminate.
Qed.

Lemma QcVariableConfig_init_ok (c : VariableConfig) :
  QcVariableConfig_init c = Ok c <-> tests_ok (tests c) (dict_keys (tests c)) = true.
Proof.
  unfold QcVariableConfig_init. rewrite <- validate_tests_ok.
  destruct (validate_tests (tests c) (dict_keys (tests c))) as [[]|e]; simpl.
  - tauto.
  - split; discriminate.
Qed.

(** A [ValueError] of the check comes from a refused token of an item that
    is not named ['bbox']. *)
Lemma validate_params_value_error (params : dict pyval) (m : string) :
  validate_params params = Raise (ValueError m) ->
  exists pname s tok,
    In (pname, PStr s) params /\ pname <> "bbox"
    /\ In tok (split_on " "%char s) /\ spec_token_allowed tok = false
    /\ m = fx_message tok pname.
Proof.
  induction params as [|[k v] params IH]; simpl; [discriminate|].
  destruct (String.eqb k "bbox") eqn:Ek.
  - intros H. destruct (IH H) as (p & s & t & Hin & R). exists p, s, t. tauto.
  - assert (Hk : k <> "bbox") by (intros ->; discriminate).
    destruct (_validate_fx v k) as [[]|e] eqn:E; simpl.
    + intros H. destruct (IH H) as (p & s & t & Hin & R). exists p, s, t. tauto.
    + intros H. inversion H. subst e. clear H.
      destruct v; simpl in E; try discriminate.
      destruct (forallb spec_token_allowed (split_on " "%char s)) eqn:F.
      * apply (validate_tokens_ok _ k) in F. congruence.
      * destruct (validate_tokens_raise _ k F) as (pre & tok & post & Hs & _ & Ht & Hr).
        rewrite Hr in E. inversion E. subst m.
        exists k, s, tok. repeat split; auto.
        rewrite Hs. apply in_or_app. right. now left.
Qed.

Lemma validate_tests_value_error (all_tests : dict pyval) (keys : list string) (m : string) :
  validate_tests all_tests keys = Raise (ValueError m) ->
  exists test params pname s tok,
    In test keys /\ dict_get all_tests test = Some (PDict params)
    /\ In (pname, PStr s) params /\ pname <> "bbox"
    /\ In tok (split_on " "%char s) /\ spec_token_allowed tok = false
    /\ m = fx_message tok pname.
Proof.
  induction keys as [|k keys IH]; simpl; [discriminate|].
  unfold dict_item. destruct (dict_get all_tests k) as [v|] eqn:G; simpl; [|discriminate].
  destruct v; simpl; try discriminate.
  destruct (validate_params d) as [[]|e] eqn:E; simpl.
  - intros H. destruct (IH H) as (t & ps & p & s & tok & Hin & R).
    exists t, ps, p, s, tok. tauto.
  - intros H. inversion H. subst e.
    destruct (validate_params_value_error _ _ E) as (p & s & tok & R).
    exists k, d, p, s, tok. tauto.
Qed.

Lemma validate_params_set_bbox (params : dict pyval) (v : pyval) :
  validate_params (dict_set params "bbox" v) = validate_params params.
Proof.
  induction params as [|[k w] params IH]; [reflexivity|].
  cbn [dict_set]. destruct (String.eqb "bbox" k) eqn:E.
  - apply String.eqb_eq in E. subst k. reflexivity.
  - cbn [validate_params]. rewrite IH. reflexivity.
Qed.

Lemma QcVariableConfig_init_value_error (c : VariableConfig) (m : string) :
  QcVariableConfig_init c = Raise (ValueError m) ->
  exists test params pname s tok,
    dict_get (tests c) test = Some (PDict params)
    /\ In (pname, PStr s) params /\ pname <> "bbox"
    /\ In tok (split_on " "%char s) /\ spec_token_allowed tok = false
    /\ m = fx_message tok pname.
Proof.
  unfold QcVariableConfig_init.
  destruct (validate_tests (tests c) (dict_keys (tests c))) as [[]|e] eqn:E;
    cbn [bind]; [discriminate|].
  intros H. inversion H. subst e.
  destruct (validate_tests_value_error _ _ _ E) as (t & ps & p & s & tok & _ & R).
  exists t, ps, p, s, tok. exact R.
Qed.

(** [float] takes a text with the whitespace it strips around it as it
    takes the text alone. *)
Lemma float_lstrip_ws (ws l : list ascii) :
  forallb is_float_space ws = true -> float_lstrip (ws ++ l)%list = float_lstrip l.
Proof.
  induction ws as [|c ws IH]; cbn [forallb app float_lstrip]; intros H; [reflexivity|].
  apply andb_prop in H. destruct H as [Hc Hws]. rewrite Hc. auto.
Qed.

Lemma float_lstrip_all_ws (ws : list ascii) :
  forallb is_float_space ws = true -> float_lstrip ws = [].
Proof.
  intros H. rewrite <- (app_nil_r ws). now rewrite float_lstrip_ws.
Qed.

Lemma float_lstrip_app (l m : list ascii) :
  float_lstrip l <> [] -> float_lstrip (l ++ m)%list = (float_lstrip l ++ m)%list.
Proof.
  induction l as [|c l IH]; cbn [float_lstrip app]; [intros H; now elim H|].
  destruct (is_float_space c); [exact IH | reflexivity].
Qed.

Lemma float_lstrip_nil_app (l m : list ascii) :
  float_lstrip l = [] -> forallb is_float_space m = true -> float_lstrip (l ++ m)%list = [].
Proof.
  induction l as [|c l IH]; cbn [float_lstrip app]; intros Hl Hm.
  - now apply float_lstrip_all_ws.
  - destruct (is_float_space c); [auto | discriminate].
Qed.

Lemma forallb_rev {A : Type} (f : A -> bool) (l : list A) :
  forallb f (rev l) = forallb f l.
Proof.
  induction l as [|a l IH]; [reflexivity|]. cbn [rev forallb].
  rewrite forallb_app, IH. cbn [forallb]. rewrite andb_true_r. apply andb_comm.
Qed.

Lemma float_strip_ws (ws1 l ws2 : list ascii) :
  forallb is_float_space ws1 = true ->
  forallb is_float_space ws2 = true ->
  float_strip (ws1 ++ l ++ ws2)%list = float_strip l.
Proof.
  intros H1 H2. unfold float_strip. rewrite (float_lstrip_ws ws1 _ H1).
  destruct (float_lstrip l) as [|c r] eqn:E.
  - now rewrite (float_lstrip_nil_app l ws2 E H2).
  - rewrite float_lstrip_app by (rewrite E; discriminate). rewrite E, rev_app_distr.
    rewrite float_lstrip_ws by (now rewrite forallb_rev). reflexivity.
Qed.

Lemma list_ascii_of_string_app (a b : string) :
  list_ascii_of_string (a ++ b)
  = (list_ascii_of_string a ++ list_ascii_of_string b)%list.
Proof. induction a as [|c a IH]; cbn; [reflexivity|now rewrite IH]. Qed.

Lemma py_float_ok_ws (ws1 tok ws2 : string) :
  forallb is_float_space (list_ascii_of_string ws1) = true ->
  forallb is_float_space (list_ascii_of_string ws2) = true ->
  py_float_ok (ws1 ++ tok ++ ws2) = py_float_ok tok.
Proof.
  intros H1 H2. unfold py_float_ok.
  rewrite !list_ascii_of_string_app, (float_strip_ws _ _ _ H1 H2). reflexivity.
Qed.

(** Splitting a text that has a separator in it. *)
Lemma split_on_not_nil (sep : ascii) (s : string) : split_on sep s <> [].
Proof.
  destruct s as [|c s]; cbn [split_on]; [discriminate|].
  destruct (Ascii.eqb c sep); [discriminate|].
  destruct (split_on sep s); discriminate.
Qed.

Lemma split_on_join (sep : ascii) (a b : string) :
  split_on sep (a ++ String sep b) = (split_on sep a ++ split_on sep b)%list.
Proof.
  induction a as [|c a IH]; cbn [append split_on].
  - rewrite Ascii.eqb_refl. reflexivity.
  - destruct (Ascii.eqb c sep); [now rewrite IH|]. rewrite IH.
    pose proof (split_on_not_nil sep a) as N.
    destruct (split_on sep a); [now elim N | reflexivity].
Qed.

(** The empty expression, two spaces in a row, a leading and a trailing
    space each give an empty token. *)
Lemma split_on_has_empty_token (s a b : string) :
  s = "" \/ s = a ++ "  " ++ b \/ s = " " ++ b \/ s = a ++ " " ->
  In "" (split_on " "%char s).
Proof.
  intros [-> | [-> | [-> | ->]]].
  - now left.
  - change (a ++ "  " ++ b) with (a ++ String " "%char (String " "%char b)).
    rewrite split_on_join. apply in_or_app. right. now left.
  - now left.
  - change (a ++ " ") with (a ++ String " "%char "").
    rewrite split_on_join. apply in_or_app. right. now left.
Qed.

Lemma validate_tokens_refuses (toks : list string) (tok test_name : string) :
  In tok toks -> spec_token_allowed tok = false ->
  exists tok', validate_tokens toks test_name = Raise (ValueError (fx_message tok' test_name)).
Proof.
  intros Hin Ht.
  destruct (forallb spec_token_allowed toks) eqn:F.
  - rewrite forallb_forall in F. rewrite (F tok Hin) in Ht. discriminate.
  - destruct (validate_tokens_raise toks test_name F) as (pre & tok' & post & _ & _ & _ & Hr).
    now exists tok'.
Qed.

(** C2 (as amended). The tokens of an expression are the pieces between
    single space characters. [_validate_fx] returns exactly when each of
    them is accepted, that is [float] converts it or it is a stat name, an
    operator or a parenthesis; otherwise it raises the [ValueError] whose
    message starts with the first refused token. [float] converts a text
    with the whitespace it strips around it (a tab or a newline, say)
    exactly when it converts the text alone. The empty token is refused, so
    the empty expression, two spaces in a row, a leading space and a
    trailing space make the check raise. Construction succeeds exactly when
    every test is a dict whose items, those named ['bbox'] apart, pass that
    check, and a [ValueError] of construction names a refused token of such
    an item: the refusal happens in [__init__], before any evaluation. *)
Theorem validate_fx_accepts_space_separated_tokens :
  (forall s test_name : string,
      (_validate_fx (PStr s) test_name = Ok tt
       <-> forallb spec_token_allowed (split_on " "%char s) = true)
      /\ (forallb spec_token_allowed (split_on " "%char s) = false ->
          exists pre tok post,
            split_on " "%char s = (pre ++ tok :: post)%list
            /\ forallb spec_token_allowed pre = true
            /\ spec_token_allowed tok = false
            /\ _validate_fx (PStr s) test_name
               = Raise (ValueError (fx_message tok test_name))
            /\ String.prefix tok (fx_message tok test_name) = true))
  /\ (forall ws1 tok ws2 : string,
         forallb is_float_space (list_ascii_of_string ws1) = true ->
         forallb is_float_space (list_ascii_of_string ws2) = true ->
         py_float_ok (ws1 ++ tok ++ ws2) = py_float_ok tok)
  /\ (spec_token_allowed "" = false
      /\ forall s a b test_name : string,
           s = "" \/ s = a ++ "  " ++ b \/ s = " " ++ b \/ s = a ++ " " ->
           exists tok,
             _validate_fx (PStr s) test_name
             = Raise (ValueError (fx_message tok test_name)))
  /\ (forall c : VariableConfig,
         QcVariableConfig_init c = Ok c
         <-> tests_ok (tests c) (dict_keys (tests c)) = true)
  /\ (forall (c : VariableConfig) (m : string),
         QcVariableConfig_init c = Raise (ValueError m) ->
         exists test params pname s tok,
           dict_get (tests c) test = Some (PDict params)
           /\ In (pname, PStr s) params /\ pname <> "bbox"
           /\ In tok (split_on " "%char s) /\ spec_token_allowed tok = false
           /\ m = fx_message tok pname).
Proof.
  split; [|split; [|split; [|split]]].
  - intros s test_name. split.
    + cbn [_validate_fx]. apply validate_tokens_ok.
    + intros F. cbn [_validate_fx].
      destruct (validate_tokens_raise _ test_name F) as (pre & tok & post & Hs & Hp & Ht & Hr).
      exists pre, tok, post. repeat split; auto using fx_message_names_token.
  - exact py_float_ok_ws.
  - split; [reflexivity|]. intros s a b test_name Hs. cbn [_validate_fx].
    apply (validate_tokens_refuses _ "" test_name (split_on_has_empty_token s a b Hs)).
    reflexivity.
  - exact QcVariableConfig_init_ok.
  - exact QcVariableConfig_init_value_error.
Qed.

(** C2 (as stated) fails: every whitespace-separated token of
    ["min  - std"] is a stat name or an operator, yet the check raises, on
    the empty token between the two spaces, and construction fails. *)
Lemma double_space_expression_rejected :
  ws_tokens "min  - std" = ["min"; "-"; "std"]
  /\ spec_accepts "min  - std" = true
  /\ split_on " "%char "min  - std" = ["min"; ""; "-"; "std"]
  /\ _validate_fx (PStr "min  - std") "suspect_min"
     = Raise (ValueError (fx_message "" "suspect_min"))
  /\ is_ok (QcVariableConfig_init double_space_config) = false.
Proof. repeat split; vm_compute; reflexivity. Qed.

(** C9. In any test, the item named ['bbox'] is skipped by the check of
    [__init__]: giving the item ['bbox'] of any test of an accepted
    configuration any value, a string of any content included, leaves the
    configuration accepted. *)
Theorem bbox_parameter_not_validated :
  forall (c : VariableConfig) (test : string) (params : dict pyval) (v : pyval),
    dict_get (tests c) test = Some (PDict params) ->
    QcVariableConfig_init c = Ok c ->
    QcVariableConfig_init
      (with_tests c (dict_set (tests c) test (PDict (dict_set params "bbox" v))))
    = Ok (with_tests c (dict_set (tests c) test (PDict (dict_set params "bbox" v)))).
Proof.
  intros c test params v Hget Hok.
  apply QcVariableConfig_init_ok in Hok. apply QcVariableConfig_init_ok.
  cbn [with_tests tests]. rewrite (dict_keys_set_present _ _ _ _ Hget).
  unfold tests_ok in *. rewrite forallb_forall in *. intros k Hk.
  destruct (String.eqb k test) eqn:E.
  - apply String.eqb_eq in E. subst k. rewrite dict_get_set_same.
    specialize (Hok test Hk). rewrite Hget in Hok. cbn [test_ok] in *.
    apply validate_params_ok. rewrite validate_params_set_bbox.
    apply validate_params_ok. exact Hok.
  - rewrite dict_get_set_other.
    + apply Hok, Hk.
    + intros ->. rewrite String.eqb_refl in E. discriminate.
Qed.

Lemma bbox_parameter_not_validated_witness :
  dict_get (tests spike_config) "spike_test"
  = Some (PDict [("suspect_threshold", PStr "std"); ("fail_threshold", PStr "2 * std")])
  /\ QcVariableConfig_init spike_config = Ok spike_config
  /\ _validate_fx (PStr "import os; 1 ** x") "tolerance" <> Ok tt
  /\ QcVariableConfig_init
       (with_tests spike_config
          (dict_set (tests spike_config) "spike_test"
             (PDict (dict_set [("suspect_threshold", PStr "std");
                               ("fail_threshold", PStr "2 * std")]
                       "bbox" (PStr "import os; 1 ** x")))))
     = Ok (with_tests spike_config
             (dict_set (tests spike_config) "spike_test"
                (PDict (dict_set [("suspect_threshold", PStr "std");
                                  ("fail_threshold", PStr "2 * std")]
                          "bbox" (PStr "import os; 1 ** x"))))).
Proof.
  split; [reflexivity|]. split; [reflexivity|]. split; [vm_compute; discriminate|].
  apply (bbox_parameter_not_validated spike_config "spike_test"
           [("suspect_threshold", PStr "std"); ("fail_threshold", PStr "2 * std")]
           (PStr "import os; 1 ** x")); reflexivity.
Defined.

(** ** Variable resolution *)

Lemma var2var_in_file_none (cfg : dict DatasetEntry) (var : string) :
  (forall nm entry, In (nm, entry) cfg -> dict_get (variables entry) var = None) ->
  _var2var_in_file cfg var = None.
Proof.
  induction cfg as [|[nm entry] cfg IH]; intros H; cbn [_var2var_in_file]; [reflexivity|].
  rewrite (H nm entry (or_introl eq_refl)). apply IH.
  intros nm' entry' Hin. apply (H nm' entry'). now right.
Qed.

Lemma var2var_in_file_some (cfg : dict DatasetEntry) (var var_in_file dataset_name : string) :
  _var2var_in_file cfg var = Some (var_in_file, dataset_name) ->
  exists pre dataset post,
    cfg = (pre ++ (dataset_name, dataset) :: post)%list
    /\ (forall nm entry, In (nm, entry) pre -> dict_get (variables entry) var = None)
    /\ dict_get (variables dataset) var = Some var_in_file.
Proof.
  induction cfg as [|[nm entry] cfg IH]; cbn [_var2var_in_file]; [discriminate|].
  destruct (dict_get (variables entry) var) as [w|] eqn:G.
  - intros H. inversion H. subst w nm.
    exists [], entry, cfg. repeat split; auto. intros ? ? [].
  - intros H. destruct (IH H) as (pre & ds & post & -> & Hpre & Hds).
    exists ((nm, entry) :: pre), ds, post. repeat split; auto.
    intros nm' entry' [Heq|Hin].
    + inversion Heq. subst. exact G.
    + eauto.
Qed.

Lemma var2var_in_file_found (cfg : dict DatasetEntry) (var : string) :
  (exists nm entry, In (nm, entry) cfg /\ dict_contains (variables entry) var = true) ->
  exists var_in_file dataset_name,
    _var2var_in_file cfg var = Some (var_in_file, dataset_name).
Proof.
  intros (nm & entry & Hin & Hc).
  destruct (_var2var_in_file cfg var) as [[w d]|] eqn:E; [eauto|].
  exfalso. revert Hin Hc E. induction cfg as [|[nm' entry'] cfg IH]; [intros []|].
  cbn [_var2var_in_file]. intros [Heq|Hin] Hc.
  - inversion Heq. subst. unfold dict_contains in Hc.
    destruct (dict_get (variables entry) var); discriminate.
  - destruct (dict_get (variables entry') var); [discriminate|]. now apply IH.
Qed.

(** C7. When some registered dataset declares the logical name,
    [_var2var_in_file] returns the file-local name and the dataset name of
    the first dataset of the registry, in insertion order, whose variable
    map has the name: no dataset before it has it. Being a function of the
    registry and the name, the answer is the same at every call, also when
    several datasets declare the name. *)
Theorem var2var_in_file_first_match :
  forall (cfg : dict DatasetEntry) (var : string),
    (exists nm entry, In (nm, entry) cfg /\ dict_contains (variables entry) var = true) ->
    exists pre dataset_name dataset post var_in_file,
      cfg = (pre ++ (dataset_name, dataset) :: post)%list
      /\ (forall nm entry, In (nm, entry) pre -> dict_get (variables entry) var = None)
      /\ dict_get (variables dataset) var = Some var_in_file
      /\ _var2var_in_file cfg var = Some (var_in_file, dataset_name).
Proof.
  intros cfg var H.
  destruct (var2var_in_file_found cfg var H) as (w & d & E).
  destruct (var2var_in_file_some _ _ _ _ E) as (pre & ds & post & Hc & Hpre & Hds).
  exists pre, d, ds, post, w. auto.
Qed.

Lemma var2var_in_file_first_match_witness :
  (exists nm entry, In (nm, entry) two_registry /\ dict_contains (variables entry) "temp" = true)
  /\ dict_keys two_registry = ["clim_a"; "clim_b"]
  /\ _var2var_in_file two_registry "temp" = Some ("TEMP_A", "clim_a")
  /\ exists pre dataset_name dataset post var_in_file,
      two_registry = (pre ++ (dataset_name, dataset) :: post)%list
      /\ (forall nm entry, In (nm, entry) pre -> dict_get (variables entry) "temp" = None)
      /\ dict_get (variables dataset) "temp" = Some var_in_file
      /\ _var2var_in_file two_registry "temp" = Some (var_in_file, dataset_name).
Proof.
  assert (H : exists nm entry,
             In (nm, entry) two_registry /\ dict_contains (variables entry) "temp" = true).
  { exists "clim_b", (mkDatasetEntry "b.nc" [("temp", "TEMP_B")] (Some "depth")).
    split; [right; left; reflexivity | reflexivity]. }
  split; [exact H|]. split; [reflexivity|]. split; [reflexivity|].
  exact (var2var_in_file_first_match two_registry "temp" H).
Defined.

Lemma get_subset_unresolved (fuel : nat) (self : QcConfigCreator) (var : string)
    (bbox : list Q) (time_slice : string * string) (depth : nat) (pad_delta : Q) :
  _var2var_in_file (config self) var = None ->
  _get_subset fuel self var bbox time_slice depth pad_delta
  = Some (Raise (TypeError "cannot unpack non-iterable NoneType object")).
Proof.
  intros H. unfold _get_subset, var2dataset. rewrite H. reflexivity.
Qed.

(** C3 (as amended). When no registered dataset declares the logical name,
    [_var2var_in_file] returns [None] without raising, and every operation
    that unpacks its result fails with the [TypeError] of unpacking [None],
    which reaches the caller: [var2dataset], the time slice, the subset
    and, once the two dates are read, [create_config]. *)
Theorem unresolved_variable_raises_type_error :
  forall (self : QcConfigCreator) (var : string),
    (forall nm entry, In (nm, entry) (config self) -> dict_get (variables entry) var = None) ->
    _var2var_in_file (config self) var = None
    /\ var2dataset self var
       = Raise (TypeError "cannot unpack non-iterable NoneType object")
    /\ (forall time_range,
           _get_time_range self var time_range
           = Raise (TypeError "cannot unpack non-iterable NoneType object"))
    /\ (forall fuel bbox time_slice depth pad_delta,
           _get_subset fuel self var bbox time_slice depth pad_delta
           = Some (Raise (TypeError "cannot unpack non-iterable NoneType object")))
    /\ (forall eval_fx fuel c,
           variable c = var ->
           is_ok (strptime_ymd (start_time c)) = true ->
           is_ok (strptime_ymd (end_time c)) = true ->
           create_config eval_fx fuel self c
           = Some (Raise (TypeError "cannot unpack non-iterable NoneType object"))).
Proof.
  intros self var H. pose proof (var2var_in_file_none _ _ H) as E.
  split; [exact E|]. split; [|split; [|split]].
  - unfold var2dataset. rewrite E. reflexivity.
  - intros tr. unfold _get_time_range. rewrite E. reflexivity.
  - intros. now apply get_subset_unresolved.
  - intros eval_fx fuel c Hv Hs He. unfold create_config, _get_stats.
    destruct (strptime_ymd (start_time c)) as [d0|]; [|discriminate].
    destruct (strptime_ymd (end_time c)) as [d1|]; [|discriminate].
    cbn [bind]. rewrite Hv. unfold _get_time_range. rewrite E. reflexivity.
Qed.

Lemma unresolved_variable_raises_type_error_witness :
  (forall nm entry,
      In (nm, entry) (config clim_creator) -> dict_get (variables entry) "salinity" = None)
  /\ var2dataset clim_creator "salinity"
     = Raise (TypeError "cannot unpack non-iterable NoneType object").
Proof.
  assert (H : forall nm entry,
             In (nm, entry) (config clim_creator) ->
             dict_get (variables entry) "salinity" = None).
  { intros nm entry [Heq|[]]. inversion Heq. reflexivity. }
  split; [exact H|].
  exact (proj1 (proj2 (unresolved_variable_raises_type_error clim_creator "salinity" H))).
Defined.

(** C3 (as stated) fails: for the name ["salinity"], which the registry
    does not have, the lookup returns [None] instead of raising, and
    [var2dataset] raises an exception of class [TypeError], not
    [VariableResolutionError]. *)
Lemma unresolved_variable_is_not_a_resolution_error :
  _var2var_in_file (config clim_creator) "salinity" = None
  /\ var2dataset clim_creator "salinity"
     = Raise (TypeError "cannot unpack non-iterable NoneType object")
  /\ exn_class (TypeError "cannot unpack non-iterable NoneType object") = "TypeError"
  /\ String.eqb (exn_class (TypeError "cannot unpack non-iterable NoneType object"))
       "VariableResolutionError" = false.
Proof. repeat split. Qed.

(** ** Padding the bounding box *)

Lemma py_max_Qmax (a b : Q) : py_max a b = Qmax a b.
Proof.
  unfold py_max, Qmax, GenericMinMax.gmax.
  destruct (Qle_bool b a) eqn:E; destruct (a ?= b)%Q eqn:C; try reflexivity.
  - apply Qle_bool_iff in E. apply Qlt_alt in C.
    exfalso. apply (Qlt_irrefl a). eapply Qlt_le_trans; eauto.
  - exfalso. apply Qeq_alt in C.
    assert (H : (b <= a)%Q) by (rewrite C; apply Qle_refl).
    apply Qle_bool_iff in H. congruence.
  - exfalso. apply Qgt_alt in C.
    assert (H : (b <= a)%Q) by (apply Qlt_le_weak; exact C).
    apply Qle_bool_iff in H. congruence.
Qed.

Lemma py_min_Qmin (a b : Q) : py_min a b = Qmin a b.
Proof.
  unfold py_min, Qmin, GenericMinMax.gmin.
  destruct (Qle_bool a b) eqn:E; destruct (a ?= b)%Q eqn:C; try reflexivity.
  - apply Qle_bool_iff in E. apply Qgt_alt in C.
    exfalso. apply (Qlt_irrefl a). eapply Qle_lt_trans; eauto.
  - exfalso. apply Qeq_alt in C.
    assert (H : (a <= b)%Q) by (rewrite C; apply Qle_refl).
    apply Qle_bool_iff in H. congruence.
  - exfalso. apply Qlt_alt in C.
    assert (H : (a <= b)%Q) by (apply Qlt_le_weak; exact C).
    apply Qle_bool_iff in H. congruence.
Qed.

(** The four calls of [apply_pad]: the sign test on a longitude selects
    between branches that compute the same value. *)
Lemma apply_pad_lon_min (pad val : Q) :
  apply_pad pad val "lon" "min" = Qmax (-180) (val - pad).
Proof.
  unfold apply_pad. cbn [String.eqb Ascii.eqb Bool.eqb andb].
  rewrite <- py_max_Qmax. destruct (Qle_bool val 0); reflexivity.
Qed.

Lemma apply_pad_lon_max (pad val : Q) :
  apply_pad pad val "lon" "max" = Qmin 180 (val + pad).
Proof.
  unfold apply_pad. cbn [String.eqb Ascii.eqb Bool.eqb andb].
  rewrite <- py_min_Qmin. destruct (Qle_bool val 0); reflexivity.
Qed.

Lemma apply_pad_lat_min (pad val : Q) :
  apply_pad pad val "lat" "min" = Qmax (-90) (val - pad).
Proof. unfold apply_pad. cbn [String.eqb Ascii.eqb Bool.eqb]. apply py_max_Qmax. Qed.

Lemma apply_pad_lat_max (pad val : Q) :
  apply_pad pad val "lat" "max" = Qmin 90 (val + pad).
Proof. unfold apply_pad. cbn [String.eqb Ascii.eqb Bool.eqb]. apply py_min_Qmin. Qed.

Lemma apply_bbox_pad_box (x0 y0 x1 y1 pad : Q) :
  __apply_bbox_pad [x0; y0; x1; y1] pad
  = Ok [Qmax (-180) (x0 - pad); Qmax (-90) (y0 - pad);
        Qmin 180 (x1 + pad); Qmin 90 (y1 + pad)].
Proof.
  unfold __apply_bbox_pad, list_item. cbn [nth_error bind app].
  now rewrite apply_pad_lon_min, apply_pad_lat_min, apply_pad_lon_max, apply_pad_lat_max.
Qed.

Lemma heap_append_last (h : heap) (l : list Q) (x : Q) :
  heap_append (h ++ [l])%list (List.length h) x = (h ++ [(l ++ [x])%list])%list.
Proof. induction h as [|l0 h IH]; cbn; [reflexivity | now rewrite IH]. Qed.

Lemma heap_index_old (h : heap) (l : list Q) (addr i : nat) :
  (addr < List.length h)%nat ->
  heap_index (h ++ [l])%list addr i = list_item (nth addr h []) i.
Proof. intros H. unfold heap_index. now rewrite app_nth1. Qed.

(** On the store, the call leaves every list there was as it was and
    returns the address of a list it allocated. *)
Lemma apply_bbox_pad_in_heap_fresh (h : heap) (addr : nat) (x0 y0 x1 y1 pad : Q) :
  (addr < List.length h)%nat ->
  nth addr h [] = [x0; y0; x1; y1] ->
  apply_bbox_pad_in_heap h addr pad
  = ((h ++ [[Qmax (-180) (x0 - pad); Qmax (-90) (y0 - pad);
             Qmin 180 (x1 + pad); Qmin 90 (y1 + pad)]])%list,
     Ok (List.length h)).
Proof.
  intros Hlt Hbox. unfold apply_bbox_pad_in_heap, heap_alloc.
  rewrite heap_index_old, Hbox by exact Hlt. cbn [list_item nth_error].
  rewrite heap_append_last.
  rewrite heap_index_old, Hbox by exact Hlt. cbn [list_item nth_error].
  rewrite heap_append_last.
  rewrite heap_index_old, Hbox by exact Hlt. cbn [list_item nth_error].
  rewrite heap_append_last.
  rewrite heap_index_old, Hbox by exact Hlt. cbn [list_item nth_error].
  rewrite heap_append_last. cbn [app].
  now rewrite apply_pad_lon_min, apply_pad_lat_min, apply_pad_lon_max, apply_pad_lat_max.
Qed.

(** C4 (as amended). For a box of four corners and a positive pad,
    [__apply_bbox_pad] returns exactly
    (max(-180, xmin - pad), max(-90, ymin - pad), min(180, xmax + pad),
    min(90, ymax + pad)): the western and southern edges never go below
    -180 and -90, the eastern and northern never above 180 and 90. Each
    edge that lies within the globe moves outwards or stays, so the new
    box contains an old box that lies within the globe. On the store the
    result is a newly allocated list, every list there was, the argument
    included, being unchanged. *)
Theorem apply_bbox_pad_clamps_and_grows :
  forall x0 y0 x1 y1 pad : Q,
    (0 < pad)%Q ->
    __apply_bbox_pad [x0; y0; x1; y1] pad
    = Ok [Qmax (-180) (x0 - pad); Qmax (-90) (y0 - pad);
          Qmin 180 (x1 + pad); Qmin 90 (y1 + pad)]
    /\ ((-180 <= Qmax (-180) (x0 - pad))%Q /\ (-90 <= Qmax (-90) (y0 - pad))%Q
        /\ (Qmin 180 (x1 + pad) <= 180)%Q /\ (Qmin 90 (y1 + pad) <= 90)%Q)
    /\ ((-180 <= x0)%Q -> (Qmax (-180) (x0 - pad) <= x0)%Q)
    /\ ((-90 <= y0)%Q -> (Qmax (-90) (y0 - pad) <= y0)%Q)
    /\ ((x1 <= 180)%Q -> (x1 <= Qmin 180 (x1 + pad))%Q)
    /\ ((y1 <= 90)%Q -> (y1 <= Qmin 90 (y1 + pad))%Q)
    /\ (forall (h : heap) (addr : nat),
           (addr < List.length h)%nat ->
           nth addr h [] = [x0; y0; x1; y1] ->
           exists new_box,
             __apply_bbox_pad [x0; y0; x1; y1] pad = Ok new_box
             /\ apply_bbox_pad_in_heap h addr pad = ((h ++ [new_box])%list, Ok (List.length h))
             /\ List.length h <> addr
             /\ nth addr (h ++ [new_box])%list [] = [x0; y0; x1; y1]).
Proof.
  intros x0 y0 x1 y1 pad Hpad.
  split; [apply apply_bbox_pad_box|].
  split; [repeat split; try apply Q.le_max_l; apply Q.le_min_l|].
  split; [|split; [|split; [|split]]].
  - intros H. apply Q.max_lub; [exact H|]. Lqa.lra.
  - intros H. apply Q.max_lub; [exact H|]. Lqa.lra.
  - intros H. apply Q.min_glb; [exact H|]. Lqa.lra.
  - intros H. apply Q.min_glb; [exact H|]. Lqa.lra.
  - intros h addr Hlt Hbox. eexists. split; [apply apply_bbox_pad_box|].
    split; [now apply apply_bbox_pad_in_heap_fresh|].
    split; [lia|]. now rewrite app_nth1.
Qed.

(** The case of the claim: the western edge -179.8 padded by 0.5 stops at
    -180. *)
Lemma apply_bbox_pad_clamps_and_grows_witness :
  (0 < 0.5)%Q
  /\ __apply_bbox_pad [(-179.8)%Q; (-5)%Q; 10%Q; 5%Q] 0.5
     = Ok [Qmax (-180) (-179.8 - 0.5); Qmax (-90) (-5 - 0.5);
           Qmin 180 (10 + 0.5); Qmin 90 (5 + 0.5)]
  /\ Qmax (-180) (-179.8 - 0.5) = (-180)%Q
  /\ ((-179.8 - 0.5)%Q == -180.3)%Q.
Proof.
  split; [reflexivity|].
  split; [exact (proj1 (apply_bbox_pad_clamps_and_grows (-179.8) (-5) 10 5 0.5 eq_refl))|].
  split; reflexivity.
Defined.

(** C4 (as stated) fails for a box that reaches beyond the globe: its
    western edge -200 is moved to -180, inside the old box, so the new box
    does not contain the old one. *)
Lemma apply_bbox_pad_shrinks_box_beyond_globe :
  __apply_bbox_pad [(-200)%Q; 0%Q; 10%Q; 10%Q] 0.5
  = Ok [(-180)%Q; (0 - 0.5)%Q; (10 + 0.5)%Q; (10 + 0.5)%Q]
  /\ (-200 < -180)%Q.
Proof. split; vm_compute; reflexivity. Qed.

(** ** The loop of [_get_subset] *)

Lemma nansum_is_zero_true (a : list float64) :
  nansum_is_zero a = true <-> nansum a = 0%R.
Proof.
  unfold nansum_is_zero. destruct (Req_dec_T (nansum a) 0); split; auto; discriminate.
Qed.

Lemma nansum_is_zero_false (a : list float64) :
  nansum_is_zero a = false <-> nansum a <> 0%R.
Proof.
  unfold nansum_is_zero. destruct (Req_dec_T (nansum a) 0); split; auto;
    try discriminate; contradiction.
Qed.

Lemma list_item_ok_length {A : Type} (l : list A) (i : nat) (x : A) :
  list_item l i = Ok x -> (i < List.length l)%nat.
Proof.
  unfold list_item. destruct (nth_error l i) eqn:E; [|discriminate].
  intros _. apply nth_error_Some. congruence.
Qed.

Lemma list_item_in_range {A : Type} (l : list A) (i : nat) :
  (i < List.length l)%nat -> exists x, list_item l i = Ok x.
Proof.
  intros H. unfold list_item. destruct (nth_error l i) eqn:E; [eauto|].
  apply nth_error_None in E. lia.
Qed.

Lemma apply_bbox_pad_total (bbox : list Q) (pad : Q) :
  (4 <= List.length bbox)%nat ->
  exists bbox', __apply_bbox_pad bbox pad = Ok bbox' /\ List.length bbox' = 4%nat.
Proof.
  intros H. unfold __apply_bbox_pad.
  destruct (list_item_in_range bbox 0 ltac:(lia)) as [b0 ->].
  destruct (list_item_in_range bbox 1 ltac:(lia)) as [b1 ->].
  destruct (list_item_in_range bbox 2 ltac:(lia)) as [b2 ->].
  destruct (list_item_in_range bbox 3 ltac:(lia)) as [b3 ->].
  cbn [bind app]. eexists. split; reflexivity.
Qed.

(** Whether [__get_daily_interp_subset] raises does not depend on the
    masks. *)
Lemma get_daily_interp_subset_masks (self : QcConfigCreator) (var : string)
    (time_slice : string * string) (depth : nat) (m1 m2 m1' m2' : Q -> bool) :
  is_ok (__get_daily_interp_subset self var time_slice depth m1 m2)
  = is_ok (__get_daily_interp_subset self var time_slice depth m1' m2').
Proof.
  unfold __get_daily_interp_subset.
  destruct (var2dataset self var) as [p|e]; cbn [bind]; [|reflexivity].
  destruct (unpack_pair (_var2var_in_file (config self) var)) as [q|e];
    cbn [bind]; [|reflexivity].
  destruct (dict_item (config self) (fst p)) as [entry|e]; cbn [bind]; [|reflexivity].
  destruct (dict_item (ds_vars (snd p)) (fst q)) as [data|e]; cbn [bind]; [|reflexivity].
  destruct (select_level entry data depth) as [pts|e]; cbn [bind]; [|reflexivity].
  unfold sel_time.
  destruct (parse_label (fst time_slice)); cbn [bind]; [|reflexivity].
  destruct (parse_label (snd time_slice)); reflexivity.
Qed.

Lemma masked_subset_needs_four (self : QcConfigCreator) (var : string)
    (time_slice : string * string) (depth : nat) (bbox : list Q) (subset : list float64) :
  masked_subset self var time_slice depth bbox = Ok subset -> (4 <= List.length bbox)%nat.
Proof.
  unfold masked_subset. intros H.
  apply bind_ok_inv in H. destruct H as (b1 & _ & H).
  apply bind_ok_inv in H. destruct H as (b3 & H3 & _).
  apply list_item_ok_length in H3. lia.
Qed.

(** Once the subset of one box was computed, the subset of every box of
    four corners can be. *)
Lemma masked_subset_total (self : QcConfigCreator) (var : string)
    (time_slice : string * string) (depth : nat) (bbox bbox' : list Q)
    (subset : list float64) :
  masked_subset self var time_slice depth bbox = Ok subset ->
  (4 <= List.length bbox')%nat ->
  exists subset', masked_subset self var time_slice depth bbox' = Ok subset'.
Proof.
  unfold masked_subset. intros H Hlen.
  apply bind_ok_inv in H. destruct H as (b1 & _ & H).
  apply bind_ok_inv in H. destruct H as (b3 & _ & H).
  apply bind_ok_inv in H. destruct H as (b0 & _ & H).
  apply bind_ok_inv in H. destruct H as (b2 & _ & H).
  destruct (list_item_in_range bbox' 1 ltac:(lia)) as [c1 ->].
  destruct (list_item_in_range bbox' 3 ltac:(lia)) as [c3 ->].
  destruct (list_item_in_range bbox' 0 ltac:(lia)) as [c0 ->].
  destruct (list_item_in_range bbox' 2 ltac:(lia)) as [c2 ->].
  cbn [bind].
  pose proof (get_daily_interp_subset_masks self var time_slice depth
                (in_mask b1 b3) (in_mask b0 b2) (in_mask c1 c3) (in_mask c0 c2)) as E.
  rewrite H in E. cbn [is_ok] in E.
  destruct (__get_daily_interp_subset self var time_slice depth (in_mask c1 c3)
              (in_mask c0 c2)); [eauto | discriminate].
Qed.

(** What the loop does, by the fuel it is given: it never raises; when it
    returns, some round [n] within the fuel is the first whose box has a
    subset of non-zero sum, and that box and subset are returned; when the
    fuel runs out, every round within the fuel gave a zero sum. *)
Lemma pad_loop_spec (self : QcConfigCreator) (var : string)
    (time_slice : string * string) (depth : nat) (pad_delta : Q) (fuel : nat) :
  forall (bbox : list Q) (subset : list float64),
    masked_subset self var time_slice depth bbox = Ok subset ->
    match pad_loop fuel self var time_slice depth pad_delta bbox subset with
    | None =>
        forall n box sub,
          (n <= fuel)%nat -> pad_n n bbox pad_delta = Ok box ->
          masked_subset self var time_slice depth box = Ok sub -> nansum sub = 0%R
    | Some (Ok (box, sub)) =>
        exists n,
          (n <= fuel)%nat /\ pad_n n bbox pad_delta = Ok box
          /\ masked_subset self var time_slice depth box = Ok sub
          /\ nansum sub <> 0%R
          /\ (forall k bk sk,
                 (k < n)%nat -> pad_n k bbox pad_delta = Ok bk ->
                 masked_subset self var time_slice depth bk = Ok sk -> nansum sk = 0%R)
    | Some (Raise _) => False
    end.
Proof.
  induction fuel as [|fuel IH]; intros bbox subset Hsub; cbn [pad_loop].
  - destruct (nansum_is_zero subset) eqn:Z.
    + apply nansum_is_zero_true in Z. intros n box sub Hn Hp Hm.
      assert (n = 0%nat) by lia. subst n. cbn [pad_n] in Hp. inversion Hp. subst box.
      rewrite Hsub in Hm. inversion Hm. subst sub. exact Z.
    + apply nansum_is_zero_false in Z. exists 0%nat.
      split; [lia|]. split; [reflexivity|]. split; [exact Hsub|]. split; [exact Z|].
      intros k bk sk Hk. lia.
  - destruct (nansum_is_zero subset) eqn:Z.
    + apply nansum_is_zero_true in Z.
      destruct (apply_bbox_pad_total bbox pad_delta
                  (masked_subset_needs_four _ _ _ _ _ _ Hsub)) as (bbox' & Hpad & Hlen).
      rewrite Hpad.
      destruct (masked_subset_total _ _ _ _ _ bbox' _ Hsub ltac:(lia)) as (subset' & Hsub').
      rewrite Hsub'. specialize (IH bbox' subset' Hsub').
      destruct (pad_loop fuel self var time_slice depth pad_delta bbox' subset')
        as [[[box sub]|e]|].
      * destruct IH as (n & Hn & Hp & Hm & Hnz & Hmin).
        exists (S n). split; [lia|]. split; [cbn [pad_n]; rewrite Hpad; exact Hp|].
        split; [exact Hm|]. split; [exact Hnz|].
        intros k bk sk Hk Hpk Hmk. destruct k as [|k].
        -- cbn [pad_n] in Hpk. inversion Hpk. subst bk.
           rewrite Hsub in Hmk. inversion Hmk. subst sk. exact Z.
        -- cbn [pad_n] in Hpk. rewrite Hpad in Hpk. cbn [bind] in Hpk.
           apply (Hmin k bk sk); auto. lia.
      * exact IH.
      * intros n box sub Hn Hp Hm. destruct n as [|n].
        -- cbn [pad_n] in Hp. inversion Hp. subst box.
           rewrite Hsub in Hm. inversion Hm. subst sub. exact Z.
        -- cbn [pad_n] in Hp. rewrite Hpad in Hp. cbn [bind] in Hp.
           apply (IH n box sub); auto. lia.
    + apply nansum_is_zero_false in Z. exists 0%nat.
      split; [lia|]. split; [reflexivity|]. split; [exact Hsub|]. split; [exact Z|].
      intros k bk sk Hk. lia.
Qed.

Lemma get_subset_loop (fuel : nat) (self : QcConfigCreator) (var : string)
    (bbox : list Q) (time_slice : string * string) (depth : nat) (pad_delta : Q)
    (subset0 : list float64) :
  is_ok (var2dataset self var) = true ->
  masked_subset self var time_slice depth bbox = Ok subset0 ->
  _get_subset fuel self var bbox time_slice depth pad_delta
  = pad_loop fuel self var time_slice depth pad_delta bbox subset0.
Proof.
  intros Hv Hs. unfold _get_subset.
  destruct (var2dataset self var); [|discriminate]. now rewrite Hs.
Qed.

(** C1 (as amended). When the subset of the given box has a nan-sum of
    zero, [_get_subset] pads the box at least once before it returns: what
    it returns is the box after [n >= 1] rounds and its subset, the first
    round whose subset has a non-zero nan-sum. It returns if some round
    reaches such a box, and with the number of that round as fuel; if no
    round does, it returns for no fuel at all: nothing bounds the loop. It
    never raises once the first subset was computed. *)
Theorem get_subset_pads_until_data_found :
  forall (self : QcConfigCreator) (var : string) (bbox : list Q)
         (time_slice : string * string) (depth : nat) (pad_delta : Q)
         (subset0 : list float64),
    is_ok (var2dataset self var) = true ->
    masked_subset self var time_slice depth bbox = Ok subset0 ->
    nansum subset0 = 0%R ->
    (forall fuel box sub,
        _get_subset fuel self var bbox time_slice depth pad_delta = Some (Ok (box, sub)) ->
        exists n,
          (1 <= n <= fuel)%nat /\ pad_n n bbox pad_delta = Ok box
          /\ masked_subset self var time_slice depth box = Ok sub
          /\ nansum sub <> 0%R
          /\ (forall k bk sk,
                 (k < n)%nat -> pad_n k bbox pad_delta = Ok bk ->
                 masked_subset self var time_slice depth bk = Ok sk -> nansum sk = 0%R))
    /\ (forall n box sub,
           pad_n n bbox pad_delta = Ok box ->
           masked_subset self var time_slice depth box = Ok sub ->
           nansum sub <> 0%R ->
           exists box' sub',
             _get_subset n self var bbox time_slice depth pad_delta
             = Some (Ok (box', sub')))
    /\ ((forall n box sub,
            pad_n n bbox pad_delta = Ok box ->
            masked_subset self var time_slice depth box = Ok sub -> nansum sub = 0%R) ->
        forall fuel, _get_subset fuel self var bbox time_slice depth pad_delta = None)
    /\ (forall fuel e,
           _get_subset fuel self var bbox time_slice depth pad_delta <> Some (Raise e)).
Proof.
  intros self var bbox ts depth pad subset0 Hv Hs Hz.
  split; [|split; [|split]].
  - intros fuel box sub H. rewrite (get_subset_loop _ _ _ _ _ _ _ _ Hv Hs) in H.
    pose proof (pad_loop_spec self var ts depth pad fuel bbox subset0 Hs) as P.
    rewrite H in P. destruct P as (n & Hn & Hp & Hm & Hnz & Hmin).
    exists n. repeat split; auto. destruct n as [|n]; [|lia].
    cbn [pad_n] in Hp. inversion Hp. subst box.
    rewrite Hs in Hm. inversion Hm. subst sub. contradiction.
  - intros n box sub Hp Hm Hnz. rewrite (get_subset_loop _ _ _ _ _ _ _ _ Hv Hs).
    pose proof (pad_loop_spec self var ts depth pad n bbox subset0 Hs) as P.
    destruct (pad_loop n self var ts depth pad bbox subset0) as [[[box' sub']|e]|].
    + eauto.
    + contradiction.
    + exfalso. apply Hnz. apply (P n box sub); auto.
  - intros Hall fuel. rewrite (get_subset_loop _ _ _ _ _ _ _ _ Hv Hs).
    pose proof (pad_loop_spec self var ts depth pad fuel bbox subset0 Hs) as P.
    destruct (pad_loop fuel self var ts depth pad bbox subset0) as [[[box' sub']|e]|].
    + destruct P as (n & _ & Hp & Hm & Hnz & _). exfalso. apply Hnz. eapply Hall; eauto.
    + contradiction.
    + reflexivity.
  - intros fuel e H. rewrite (get_subset_loop _ _ _ _ _ _ _ _ Hv Hs) in H.
    pose proof (pad_loop_spec self var ts depth pad fuel bbox subset0 Hs) as P.
    rewrite H in P. exact P.
Qed.

Lemma nansum_1234 : nansum [Num 1; Num 2; Num 3; Num 4] <> 0%R.
Proof. unfold nansum. cbn [fold_right nan_to]. lra. Qed.

(** The box (0, 0, 1, 1) holds no grid point of ["clim"]; one round of
    padding reaches the point (1.5, 1.5), and the padded box and the four
    values there are returned. *)
Lemma get_subset_pads_until_data_found_witness :
  is_ok (var2dataset clim_creator "temp") = true
  /\ masked_subset clim_creator "temp" first_days 0 [0%Q; 0%Q; 1%Q; 1%Q] = Ok []
  /\ nansum [] = 0%R
  /\ _get_subset 1 clim_creator "temp" [0%Q; 0%Q; 1%Q; 1%Q] first_days 0 0.5
     = Some (Ok ([Qmax (-180) (0 - 0.5); Qmax (-90) (0 - 0.5);
                  Qmin 180 (1 + 0.5); Qmin 90 (1 + 0.5)],
                 [Num 1; Num 2; Num 3; Num 4])).
Proof.
  split; [reflexivity|]. split; [reflexivity|]. split; [reflexivity|].
  destruct (get_subset_pads_until_data_found clim_creator "temp"
              [0%Q; 0%Q; 1%Q; 1%Q] first_days 0 0.5 [] eq_refl eq_refl eq_refl)
    as (P1 & P2 & _).
  destruct (P2 1%nat
              [Qmax (-180) (0 - 0.5); Qmax (-90) (0 - 0.5);
               Qmin 180 (1 + 0.5); Qmin 90 (1 + 0.5)]
              [Num 1; Num 2; Num 3; Num 4] eq_refl eq_refl nansum_1234)
    as (box' & sub' & H).
  destruct (P1 1%nat box' sub' H) as (n & Hn & Hp & Hm & _).
  assert (n = 1%nat) by lia. subst n.
  assert (Hb : pad_n 1 [0%Q; 0%Q; 1%Q; 1%Q] 0.5
               = Ok [Qmax (-180) (0 - 0.5); Qmax (-90) (0 - 0.5);
                     Qmin 180 (1 + 0.5); Qmin 90 (1 + 0.5)]) by reflexivity.
  rewrite Hb in Hp. inversion Hp. subst box'.
  assert (Hs : masked_subset clim_creator "temp" first_days 0
                 [Qmax (-180) (0 - 0.5); Qmax (-90) (0 - 0.5);
                  Qmin 180 (1 + 0.5); Qmin 90 (1 + 0.5)]
               = Ok [Num 1; Num 2; Num 3; Num 4]) by reflexivity.
  rewrite Hs in Hm. inversion Hm. subst sub'. exact H.
Defined.

Lemma nansum_all_nan (a : list float64) :
  Forall (fun x => x = NaN) a -> nansum a = 0%R.
Proof.
  induction 1 as [|x a Hx _ IH]; cbn [nansum fold_right]; [reflexivity|].
  subst x. cbn [nan_to]. fold (nansum a). rewrite IH. lra.
Qed.

(** On the grid whose values are all missing, the subset of every box has
    a zero nan-sum. *)
Lemma masked_creator_no_data (box : list Q) (sub : list float64) :
  masked_subset masked_creator "temp" first_days 0 box = Ok sub -> nansum sub = 0%R.
Proof.
  unfold masked_subset. intros H.
  apply bind_ok_inv in H. destruct H as (b1 & _ & H).
  apply bind_ok_inv in H. destruct H as (b3 & _ & H).
  apply bind_ok_inv in H. destruct H as (b0 & _ & H).
  apply bind_ok_inv in H. destruct H as (b2 & _ & H).
  unfold __get_daily_interp_subset in H.
  change (var2dataset masked_creator "temp") with (Ok ("clim", masked_dataset)) in H.
  cbn [bind fst snd] in H.
  change (_var2var_in_file (config masked_creator) "temp") with (Some ("TEMP", "clim")) in H.
  cbn [bind fst snd unpack_pair] in H.
  change (dict_item (config masked_creator) "clim")
    with (Ok (mkDatasetEntry "clim.nc" [("temp", "TEMP")] None)) in H.
  cbn [bind] in H.
  change (dict_item (ds_vars masked_dataset) "TEMP")
    with (Ok (Var2D [mkGridPoint 1.5 1.5 [(jan 1, NaN); (jan 2, NaN)]])) in H.
  cbn [bind select_level dim3d filter gp_lat gp_lon] in H.
  destruct (in_mask b1 b3 1.5 && in_mask b0 b2 1.5);
    vm_compute in H; inversion H; subst sub; apply nansum_all_nan; repeat constructor.
Qed.

(** C1 (as stated) fails: over a grid whose values are all missing the
    first subset has a nan-sum of zero, and [_get_subset] is still padding
    after any number of rounds. *)
Lemma get_subset_never_returns_without_data :
  masked_subset masked_creator "temp" first_days 0 [0%Q; 0%Q; 3%Q; 3%Q] = Ok [NaN; NaN]
  /\ nansum [NaN; NaN] = 0%R
  /\ (forall fuel,
         _get_subset fuel masked_creator "temp" [0%Q; 0%Q; 3%Q; 3%Q] first_days 0 0.5
         = None).
Proof.
  assert (Hs : masked_subset masked_creator "temp" first_days 0 [0%Q; 0%Q; 3%Q; 3%Q]
               = Ok [NaN; NaN]) by reflexivity.
  assert (Hz : nansum [NaN; NaN] = 0%R) by (apply nansum_all_nan; repeat constructor).
  split; [exact Hs|]. split; [exact Hz|].
  intros fuel.
  rewrite (get_subset_loop fuel masked_creator "temp" _ first_days 0 0.5 _
             (eq_refl true) Hs).
  pose proof (pad_loop_spec masked_creator "temp" first_days 0 0.5 fuel _ _ Hs) as P.
  destruct (pad_loop fuel masked_creator "temp" first_days 0 0.5 [0%Q; 0%Q; 3%Q; 3%Q]
              [NaN; NaN]) as [[[box sub]|e]|].
  - destruct P as (n & _ & _ & Hm & Hnz & _). exfalso. apply Hnz.
    exact (masked_creator_no_data _ _ Hm).
  - contradiction.
  - reflexivity.
Qed.

(** ** The time slice *)

Lemma string_of_uint_digits (d : Decimal.uint) :
  forallb is_digit (list_ascii_of_string (NilEmpty.string_of_uint d)) = true.
Proof. induction d; cbn; auto. Qed.

Lemma to_uint_not_nil (n : nat) : Nat.to_uint n <> Decimal.Nil.
Proof.
  intros H. pose proof (Unsigned.of_to n) as E. rewrite H in E. cbn in E. subst n.
  discriminate H.
Qed.

Lemma str_of_nat_all_digits (n : nat) : all_digits (str_of_nat n) = true.
Proof.
  unfold all_digits, str_of_nat. rewrite string_of_uint_digits, andb_true_r.
  destruct (Nat.to_uint n) eqn:E; try reflexivity.
  now apply to_uint_not_nil in E.
Qed.

Lemma nat_of_digits_str_of_nat (n : nat) : nat_of_digits (str_of_nat n) = n.
Proof.
  unfold nat_of_digits, str_of_nat. rewrite NilEmpty.usu. apply Unsigned.of_to.
Qed.

Lemma digit_is_not_dash (c : ascii) : is_digit c = true -> Ascii.eqb c "-"%char = false.
Proof.
  destruct c as [[] [] [] [] [] [] [] []]; intros H; try reflexivity; discriminate H.
Qed.

Lemma split_on_dash_digits (s : string) :
  forallb is_digit (list_ascii_of_string s) = true -> split_on "-"%char s = [s].
Proof.
  induction s as [|c s IH]; cbn [list_ascii_of_string forallb split_on]; [reflexivity|].
  intros H. apply andb_true_iff in H. destruct H as [Hc Hs].
  rewrite (digit_is_not_dash c Hc), (IH Hs). reflexivity.
Qed.

Lemma split_on_dash_app (s rest : string) :
  forallb is_digit (list_ascii_of_string s) = true ->
  split_on "-"%char (s ++ String "-"%char rest) = s :: split_on "-"%char rest.
Proof.
  induction s as [|c s IH]; cbn [list_ascii_of_string forallb split_on append].
  - intros _. reflexivity.
  - intros H. apply andb_true_iff in H. destruct H as [Hc Hs].
    rewrite (digit_is_not_dash c Hc), (IH Hs). reflexivity.
Qed.

Lemma all_digits_chars (s : string) :
  all_digits s = true -> forallb is_digit (list_ascii_of_string s) = true.
Proof. unfold all_digits. intros H. apply andb_true_iff in H. tauto. Qed.

Lemma split_date_label (y m d : nat) :
  split_on "-"%char (date_label y m d) = [str_of_nat y; str_of_nat m; str_of_nat d].
Proof.
  unfold date_label.
  change ("-" ++ str_of_nat m ++ "-" ++ str_of_nat d)
    with (String "-"%char (str_of_nat m ++ String "-"%char (str_of_nat d))).
  rewrite split_on_dash_app by (apply all_digits_chars, str_of_nat_all_digits).
  rewrite split_on_dash_app by (apply all_digits_chars, str_of_nat_all_digits).
  rewrite split_on_dash_digits by (apply all_digits_chars, str_of_nat_all_digits).
  reflexivity.
Qed.

(** A label written by [_get_time_range] is read back as the date it was
    written from, or not at all. *)
Lemma read_ymd_date_label (f : nat -> bool) (y m d : nat) (dt : date) :
  read_ymd f (date_label y m d) = Some dt -> dt = mkDate y m d.
Proof.
  unfold read_ymd. rewrite split_date_label, !nat_of_digits_str_of_nat.
  match goal with |- (if ?c then _ else _) = _ -> _ => destruct c end;
    intros H; [now inversion H | discriminate H].
Qed.

Lemma short_numbers (n : nat) : (n <= 31)%nat -> (String.length (str_of_nat n) <=? 2)%nat = true.
Proof.
  intros H.
  assert (A : forallb (fun k => (String.length (str_of_nat k) <=? 2)%nat) (seq 0 32) = true)
    by (vm_compute; reflexivity).
  rewrite forallb_forall in A. apply A. apply in_seq. lia.
Qed.

Lemma days_in_month_le (y m : nat) : (days_in_month y m <= 31)%nat.
Proof.
  unfold days_in_month.
  do 13 (destruct m as [|m]; [try lia; destruct (is_leap y); lia|]). lia.
Qed.

Lemma parse_label_date_label (y m d : nat) :
  valid_date y m d = true -> parse_label (date_label y m d) = Ok (mkDate y m d).
Proof.
  intros V. unfold parse_label, read_ymd.
  rewrite split_date_label, !nat_of_digits_str_of_nat, !str_of_nat_all_digits, V.
  unfold valid_date in V. rewrite !andb_true_iff in V.
  destruct V as ((((_ & _) & Hm) & _) & Hd).
  apply Nat.leb_le in Hm, Hd. pose proof (days_in_month_le y m).
  rewrite !short_numbers by lia. reflexivity.
Qed.

Lemma date_leb_refl (a : date) : date_leb a a = true.
Proof.
  unfold date_leb. rewrite !Nat.eqb_refl, Nat.leb_refl, !andb_true_r.
  now rewrite !orb_true_r.
Qed.

(** An entry dated at the stop label is selected. *)
Lemma sel_time_keeps_stop (arr : list (list (date * float64))) (start stop : date)
    (start_label stop_label : string) (series : list (date * float64)) (v : float64) :
  parse_label start_label = Ok start ->
  parse_label stop_label = Ok stop ->
  date_leb start stop = true ->
  In series arr -> In (stop, v) series ->
  exists sub, sel_time arr (start_label, stop_label) = Ok sub /\ In v sub.
Proof.
  intros Hs He Hle Hser Hin. unfold sel_time. cbn [fst snd]. rewrite Hs, He. cbn [bind].
  eexists. split; [reflexivity|].
  apply in_flat_map. exists series. split; [exact Hser|].
  apply in_map_iff. exists (stop, v). split; [reflexivity|].
  apply filter_In. split; [exact Hin|]. cbn [fst]. now rewrite Hle, date_leb_refl.
Qed.

Lemma load_datasets_keys (load_dataset : string -> result Dataset)
    (cfg : dict DatasetEntry) (dss : dict Dataset) :
  _load_datasets load_dataset cfg = Ok dss -> dict_keys dss = dict_keys cfg.
Proof.
  revert dss. induction cfg as [|[nm entry] cfg IH]; intros dss; cbn [_load_datasets].
  - intros H. now inversion H.
  - intros H. apply bind_ok_inv in H. destruct H as (ds & _ & H).
    apply bind_ok_inv in H. destruct H as (dss' & Hd & H). inversion H. subst dss.
    unfold dict_keys in *. cbn [map fst]. now rewrite (IH dss' Hd).
Qed.

Lemma dict_get_in_keys {V : Type} (d : dict V) (k : string) :
  In k (dict_keys d) -> exists v, dict_get d k = Some v.
Proof.
  induction d as [|[k' v'] d IH]; cbn; [intros []|].
  intros [->|H]; [rewrite String.eqb_refl; eauto|].
  destruct (String.eqb k k'); eauto.
Qed.

Lemma determine_dataset_years_first (dss : dict Dataset) (years : dict nat) :
  _determine_dataset_years dss = Ok years ->
  forall nm ds,
    dict_get dss nm = Some ds ->
    exists t0 rest, ds_time ds = t0 :: rest /\ dict_get years nm = Some (year t0).
Proof.
  revert years. induction dss as [|[nm0 ds0] dss IH]; intros years; cbn [_determine_dataset_years].
  - intros _ nm ds H. discriminate H.
  - destruct (ds_time ds0) as [|t0 rest] eqn:T; [discriminate|].
    intros H. apply bind_ok_inv in H. destruct H as (years' & Hy & H).
    inversion H. subst years. intros nm ds. cbn [dict_get].
    destruct (String.eqb nm nm0).
    + intros G. inversion G. subst ds. eauto.
    + apply (IH years' Hy).
Qed.

Lemma var2var_in_file_key (cfg : dict DatasetEntry) (var w nm : string) :
  _var2var_in_file cfg var = Some (w, nm) -> In nm (dict_keys cfg).
Proof.
  intros H. destruct (var2var_in_file_some _ _ _ _ H) as (pre & ds & post & -> & _).
  unfold dict_keys. rewrite map_app. apply in_or_app. right. now left.
Qed.

(** C6. For a creator built by [__init__] and a variable some dataset
    declares, the slice runs from the deployment's start month and day to
    its end month and day, both in the year of the first time coordinate
    of the dataset that owns the variable. The two labels are read back as
    those dates, and the slice keeps its stop: an entry dated at the end
    month and day is selected. *)
Theorem time_range_uses_reference_year :
  forall (load_dataset : string -> result Dataset) (cfg : dict DatasetEntry)
         (self : QcConfigCreator) (var : string) (t0 t1 : date),
    QcConfigCreator_init load_dataset cfg = Ok self ->
    (exists nm entry, In (nm, entry) cfg /\ dict_contains (variables entry) var = true) ->
    exists var_in_file nm ds first_time rest,
      _var2var_in_file (config self) var = Some (var_in_file, nm)
      /\ dict_get (datasets self) nm = Some ds
      /\ ds_time ds = first_time :: rest
      /\ _get_time_range self var (t0, t1)
         = Ok (date_label (year first_time) (month t0) (day t0),
               date_label (year first_time) (month t1) (day t1))
      /\ (forall dt,
             parse_label (date_label (year first_time) (month t0) (day t0)) = Ok dt ->
             dt = mkDate (year first_time) (month t0) (day t0))
      /\ (forall dt,
             parse_label (date_label (year first_time) (month t1) (day t1)) = Ok dt ->
             dt = mkDate (year first_time) (month t1) (day t1))
      /\ (valid_date (year first_time) (month t0) (day t0) = true ->
          valid_date (year first_time) (month t1) (day t1) = true ->
          date_leb (mkDate (year first_time) (month t0) (day t0))
            (mkDate (year first_time) (month t1) (day t1)) = true ->
          forall arr series v,
            In series arr ->
            In (mkDate (year first_time) (month t1) (day t1), v) series ->
            exists sub,
              sel_time arr
                (date_label (year first_time) (month t0) (day t0),
                 date_label (year first_time) (month t1) (day t1)) = Ok sub
              /\ In v sub).
Proof.
  intros load_dataset cfg self var t0 t1 Hinit Hvar.
  unfold QcConfigCreator_init in Hinit.
  apply bind_ok_inv in Hinit. destruct Hinit as (dss & Hload & Hinit).
  apply bind_ok_inv in Hinit. destruct Hinit as (years & Hyears & Hinit).
  inversion Hinit. subst self. clear Hinit. cbn [config datasets dataset_years].
  destruct (var2var_in_file_found cfg var Hvar) as (w & nm & E).
  pose proof (var2var_in_file_key _ _ _ _ E) as Hkey.
  rewrite <- (load_datasets_keys _ _ _ Hload) in Hkey.
  destruct (dict_get_in_keys dss nm Hkey) as (ds & Hds).
  destruct (determine_dataset_years_first _ _ Hyears nm ds Hds) as (ft & rest & Ht & Hy).
  exists w, nm, ds, ft, rest.
  split; [exact E|]. split; [exact Hds|]. split; [exact Ht|].
  split.
  { unfold _get_time_range. cbn [config dataset_years]. rewrite E. cbn [unpack_pair bind snd].
    unfold dict_item. rewrite Hy. reflexivity. }
  split.
  { intros dt H. unfold parse_label in H.
    destruct (read_ymd (fun _ => true) (date_label (year ft) (month t0) (day t0))) eqn:R;
      [|discriminate]. inversion H. subst. eapply read_ymd_date_label; eauto. }
  split.
  { intros dt H. unfold parse_label in H.
    destruct (read_ymd (fun _ => true) (date_label (year ft) (month t1) (day t1))) eqn:R;
      [|discriminate]. inversion H. subst. eapply read_ymd_date_label; eauto. }
  intros V0 V1 Hle arr series v Hser Hin.
  eapply sel_time_keeps_stop; eauto using parse_label_date_label.
Qed.

Lemma time_range_uses_reference_year_witness :
  QcConfigCreator_init (fun _ => Ok clim_dataset) clim_registry = Ok clim_creator
  /\ (exists nm entry,
         In (nm, entry) clim_registry /\ dict_contains (variables entry) "temp" = true)
  /\ _get_time_range clim_creator "temp" (mkDate 2020 1 1, mkDate 2020 1 4)
     = Ok ("2005-1-1", "2005-1-4")
  /\ exists var_in_file nm ds first_time rest,
      _var2var_in_file (config clim_creator) "temp" = Some (var_in_file, nm)
      /\ dict_get (datasets clim_creator) nm = Some ds
      /\ ds_time ds = first_time :: rest
      /\ _get_time_range clim_creator "temp" (mkDate 2020 1 1, mkDate 2020 1 4)
         = Ok (date_label (year first_time) 1 1, date_label (year first_time) 1 4).
Proof.
  assert (Hi : QcConfigCreator_init (fun _ => Ok clim_dataset) clim_registry
               = Ok clim_creator) by reflexivity.
  assert (Hv : exists nm entry,
             In (nm, entry) clim_registry /\ dict_contains (variables entry) "temp" = true).
  { exists "clim", (mkDatasetEntry "clim.nc" [("temp", "TEMP")] None).
    split; [left; reflexivity | reflexivity]. }
  split; [exact Hi|]. split; [exact Hv|]. split; [reflexivity|].
  destruct (time_range_uses_reference_year (fun _ => Ok clim_dataset) clim_registry
              clim_creator "temp" (mkDate 2020 1 1) (mkDate 2020 1 4) Hi Hv)
    as (w & nm & ds & ft & rest & H1 & H2 & H3 & H4 & _).
  exists w, nm, ds, ft, rest. auto.
Defined.

(** ** The statistics snapshot *)











Lemma summarize_example :
  summarize [Num 1; Num 2; Num 3; Num 4] = Ok example_stats.
Proof.
  unfold summarize, nanmin, nanmax, nanmean, nanstd, count_valid, example_stats.
  cbn [fold_left fmin2 fmax2 bind filter is_num List.length].
  rewrite (Rmin_left 1 2), (Rmin_left 1 3), (Rmin_left 1 4) by lra.
  rewrite (Rmax_right 1 2), (Rmax_right 2 3), (Rmax_right 3 4) by lra.
  assert (Hm : (nansum [Num 1; Num 2; Num 3; Num 4] / INR 4 = 5 / 2)%R)
    by (unfold nansum; cbn; lra).
  rewrite Hm.
  assert (Hs : (sqdev_sum (5 / 2) [Num 1; Num 2; Num 3; Num 4] / INR 4 = 5 / 4)%R)
    by (unfold sqdev_sum; cbn; lra).
  rewrite Hs. reflexivity.
Qed.


(** If the loop returns at all, it returns the same with any fuel that
    covers the round it returned at. *)
Lemma pad_loop_fuel_enough (self : QcConfigCreator) (var : string)
    (time_slice : string * string) (depth : nat) (pad_delta : Q)
    (bbox : list Q) (subset : list float64) (n fuel : nat)
    (box : list Q) (sub : list float64) :
  masked_subset self var time_slice depth bbox = Ok subset ->
  pad_n n bbox pad_delta = Ok box ->
  masked_subset self var time_slice depth box = Ok sub ->
  nansum sub <> 0%R ->
  (forall k bk sk,
      (k < n)%nat -> pad_n k bbox pad_delta = Ok bk ->
      masked_subset self var time_slice depth bk = Ok sk -> nansum sk = 0%R) ->
  (n <= fuel)%nat ->
  pad_loop fuel self var time_slice depth pad_delta bbox subset = Some (Ok (box, sub)).
Proof.
  intros Hs Hp Hm Hnz Hmin Hn.
  pose proof (pad_loop_spec self var time_slice depth pad_delta fuel bbox subset Hs) as P.
  destruct (pad_loop fuel self var time_slice depth pad_delta bbox subset)
    as [[[box' sub']|e]|].
  - destruct P as (n' & _ & Hp' & Hm' & Hnz' & Hmin').
    assert (n' = n).
    { destruct (Nat.lt_trichotomy n' n) as [L|[E|L]]; [|exact E|].
      - elim Hnz'. eapply Hmin; eauto.
      - elim Hnz. eapply Hmin'; eauto. }
    subst n'. rewrite Hp in Hp'. inversion Hp'. subst box'.
    rewrite Hm in Hm'. inversion Hm'. subst sub'. reflexivity.
  - contradiction.
  - elim Hnz. eapply P; eauto.
Qed.





(** The climatology of the examples over January: the subset is the four
    values and the snapshot is theirs. *)
Lemma clim_subset (fuel : nat) :
  _get_subset fuel clim_creator "temp" [(-10)%Q; (-5)%Q; 10%Q; 5%Q]
    ("2005-1-1", "2005-2-1") 0 0.5
  = Some (Ok ([(-10)%Q; (-5)%Q; 10%Q; 5%Q], [Num 1; Num 2; Num 3; Num 4])).
Proof.
  assert (Hm : masked_subset clim_creator "temp" ("2005-1-1", "2005-2-1") 0
                 [(-10)%Q; (-5)%Q; 10%Q; 5%Q]
               = Ok [Num 1; Num 2; Num 3; Num 4]) by reflexivity.
  rewrite (get_subset_loop fuel clim_creator "temp" _ ("2005-1-1", "2005-2-1") 0 0.5 _
             (eq_refl true) Hm).
  apply (pad_loop_fuel_enough clim_creator "temp" ("2005-1-1", "2005-2-1") 0 0.5 _ _
           0 fuel _ _ Hm (eq_refl _) Hm nansum_1234).
  - intros k bk sk Hk. lia.
  - lia.
Qed.

Lemma clim_stats (c : VariableConfig) (fuel : nat) :
  variable c = "temp" ->
  bbox c = [(-10)%Q; (-5)%Q; 10%Q; 5%Q] ->
  start_time c = "2020-01-01" ->
  end_time c = "2020-02-01" ->
  _get_stats fuel clim_creator c = Some (Ok example_stats).
Proof.
  intros Hv Hb Hs He. unfold _get_stats. rewrite Hv, Hb, Hs, He.
  assert (Ht : (start <- strptime_ymd "2020-01-01" ;;
                stop <- strptime_ymd "2020-02-01" ;;
                _get_time_range clim_creator "temp" (start, stop))
               = Ok ("2005-1-1", "2005-2-1")) by reflexivity.
  rewrite Ht, clim_subset. now rewrite summarize_example.
Qed.





(** ** The threshold sections *)

Section AssemblerFacts.

Variable eval_fx : pyval -> Stats -> result pyval.
Variable c : VariableConfig.
Variable stats : Stats.

Lemma spike_section (test_name : string) (e1 e2 v1 v2 : pyval) :
  test_param c test_name "suspect_threshold" = Ok e1 -> eval_fx e1 stats = Ok v1 ->
  test_param c test_name "fail_threshold" = Ok e2 -> eval_fx e2 stats = Ok v2 ->
  __create_spike_section eval_fx test_name c stats
  = Ok (PDict [("suspect_threshold", v1); ("fail_threshold", v2)]).
Proof.
  intros H1 E1 H2 E2. unfold __create_spike_section.
  rewrite H1. cbn [bind]. rewrite E1. cbn [bind].
  rewrite H2. cbn [bind]. rewrite E2. reflexivity.
Qed.

Lemma location_section (test_name : string) (b : pyval) :
  test_param c test_name "bbox" = Ok b ->
  __create_location_section test_name c = Ok (PDict [("bbox", b)]).
Proof. intros H. unfold __create_location_section. rewrite H. reflexivity. Qed.

Lemma rate_of_change_section (test_name : string) (e v : pyval) :
  test_param c test_name "threshold" = Ok e -> eval_fx e stats = Ok v ->
  __create_rate_of_change_section eval_fx test_name c stats
  = Ok (PDict [("threshold", v)]).
Proof.
  intros H E. unfold __create_rate_of_change_section.
  rewrite H. cbn [bind]. rewrite E. reflexivity.
Qed.

Lemma flat_line_section (test_name : string) (e1 e2 e3 v1 v2 v3 : pyval) :
  test_param c test_name "suspect_threshold" = Ok e1 -> eval_fx e1 stats = Ok v1 ->
  test_param c test_name "fail_threshold" = Ok e2 -> eval_fx e2 stats = Ok v2 ->
  test_param c test_name "tolerance" = Ok e3 -> eval_fx e3 stats = Ok v3 ->
  __create_flat_line_section eval_fx test_name c stats
  = Ok (PDict [("suspect_threshold", v1); ("fail_threshold", v2); ("tolerance", v3)]).
Proof.
  intros H1 E1 H2 E2 H3 E3. unfold __create_flat_line_section.
  rewrite H1. cbn [bind]. rewrite E1. cbn [bind].
  rewrite H2. cbn [bind]. rewrite E2. cbn [bind].
  rewrite H3. cbn [bind]. rewrite E3. reflexivity.
Qed.

Lemma span_section (test_name : string) (e1 e2 e3 e4 v1 v2 v3 v4 : pyval) :
  test_param c test_name "suspect_min" = Ok e1 -> eval_fx e1 stats = Ok v1 ->
  test_param c test_name "suspect_max" = Ok e2 -> eval_fx e2 stats = Ok v2 ->
  test_param c test_name "fail_min" = Ok e3 -> eval_fx e3 stats = Ok v3 ->
  test_param c test_name "fail_max" = Ok e4 -> eval_fx e4 stats = Ok v4 ->
  __create_span_section eval_fx test_name c stats
  = Ok (PDict [("suspect_span", PList [v1; v2]); ("fail_span", PList [v3; v4])]).
Proof.
  intros H1 E1 H2 E2 H3 E3 H4 E4. unfold __create_span_section.
  rewrite H1. cbn [bind]. rewrite E1. cbn [bind].
  rewrite H2. cbn [bind]. rewrite E2. cbn [bind].
  rewrite H3. cbn [bind]. rewrite E3. cbn [bind].
  rewrite H4. cbn [bind]. rewrite E4. reflexivity.
Qed.

Lemma dispatch_other (test_name : string) :
  test_name <> "spike_test" -> test_name <> "location_test" ->
  test_name <> "rate_of_change_test" -> test_name <> "flat_line_test" ->
  _create_test_section eval_fx test_name c stats
  = __create_span_section eval_fx test_name c stats.
Proof.
  intros N1 N2 N3 N4. unfold _create_test_section.
  destruct (String.eqb_spec test_name "spike_test") as [E|_]; [contradiction|].
  destruct (String.eqb_spec test_name "location_test") as [E|_]; [contradiction|].
  destruct (String.eqb_spec test_name "rate_of_change_test") as [E|_]; [contradiction|].
  destruct (String.eqb_spec test_name "flat_line_test") as [E|_]; [contradiction|].
  reflexivity.
Qed.

End AssemblerFacts.

(** C5. [_create_test_section] chooses by the exact test name:
    ["spike_test"] gives the two thresholds, ["location_test"] gives the
    item ['bbox'] as it stands in the configuration, whatever the
    evaluator, ["rate_of_change_test"] gives the threshold,
    ["flat_line_test"] gives the two thresholds and the tolerance, and any
    other name gives the two spans; every number in a section is what
    [eval_fx] returns on the item's expression and the statistics. *)
Theorem create_test_section_by_name :
  forall (eval_fx : pyval -> Stats -> result pyval) (c : VariableConfig) (stats : Stats),
    (forall e1 e2 v1 v2,
        test_param c "spike_test" "suspect_threshold" = Ok e1 -> eval_fx e1 stats = Ok v1 ->
        test_param c "spike_test" "fail_threshold" = Ok e2 -> eval_fx e2 stats = Ok v2 ->
        _create_test_section eval_fx "spike_test" c stats
        = Ok (PDict [("suspect_threshold", v1); ("fail_threshold", v2)]))
    /\ (forall b,
           test_param c "location_test" "bbox" = Ok b ->
           _create_test_section eval_fx "location_test" c stats = Ok (PDict [("bbox", b)]))
    /\ (forall e v,
           test_param c "rate_of_change_test" "threshold" = Ok e -> eval_fx e stats = Ok v ->
           _create_test_section eval_fx "rate_of_change_test" c stats
           = Ok (PDict [("threshold", v)]))
    /\ (forall e1 e2 e3 v1 v2 v3,
           test_param c "flat_line_test" "suspect_threshold" = Ok e1 ->
           eval_fx e1 stats = Ok v1 ->
           test_param c "flat_line_test" "fail_threshold" = Ok e2 ->
           eval_fx e2 stats = Ok v2 ->
           test_param c "flat_line_test" "tolerance" = Ok e3 ->
           eval_fx e3 stats = Ok v3 ->
           _create_test_section eval_fx "flat_line_test" c stats
           = Ok (PDict [("suspect_threshold", v1); ("fail_threshold", v2);
                        ("tolerance", v3)]))
    /\ (forall test_name e1 e2 e3 e4 v1 v2 v3 v4,
           test_name <> "spike_test" -> test_name <> "location_test" ->
           test_name <> "rate_of_change_test" -> test_name <> "flat_line_test" ->
           test_param c test_name "suspect_min" = Ok e1 -> eval_fx e1 stats = Ok v1 ->
           test_param c test_name "suspect_max" = Ok e2 -> eval_fx e2 stats = Ok v2 ->
           test_param c test_name "fail_min" = Ok e3 -> eval_fx e3 stats = Ok v3 ->
           test_param c test_name "fail_max" = Ok e4 -> eval_fx e4 stats = Ok v4 ->
           _create_test_section eval_fx test_name c stats
           = Ok (PDict [("suspect_span", PList [v1; v2]); ("fail_span", PList [v3; v4])])).
Proof.
  intros eval_fx c stats. split; [|split; [|split; [|split]]].
  - intros. change (_create_test_section eval_fx "spike_test" c stats)
      with (__create_spike_section eval_fx "spike_test" c stats).
    eapply spike_section; eauto.
  - intros. change (_create_test_section eval_fx "location_test" c stats)
      with (__create_location_section "location_test" c).
    now apply location_section.
  - intros. change (_create_test_section eval_fx "rate_of_change_test" c stats)
      with (__create_rate_of_change_section eval_fx "rate_of_change_test" c stats).
    eapply rate_of_change_section; eauto.
  - intros. change (_create_test_section eval_fx "flat_line_test" c stats)
      with (__create_flat_line_section eval_fx "flat_line_test" c stats).
    eapply flat_line_section; eauto.
  - intros. rewrite dispatch_other by assumption.
    eapply span_section; eauto.
Qed.

(** The sections of [assembler_config]: the spans of a gross range test
    from the statistics, and the box of a location test under an evaluator
    that refuses every expression. *)
Lemma create_test_section_by_name_witness :
  _create_test_section eval_stat_name "gross_range_test" assembler_config example_stats
  = Ok (PDict [("suspect_span", PList [PFloat (Num 1); PFloat (Num 4)]);
               ("fail_span", PList [PFloat (Num (5 / 2)); PFloat (Num (sqrt (5 / 4)))])])
  /\ _create_test_section eval_nothing "location_test" assembler_config example_stats
     = Ok (PDict [("bbox", PList [PNum (-80); PNum 40; PNum (-70); PNum 60])]).
Proof.
  split.
  - refine (proj2 (proj2 (proj2 (proj2
              (create_test_section_by_name eval_stat_name assembler_config example_stats))))
              "gross_range_test" (PStr "min") (PStr "max") (PStr "mean") (PStr "std")
              _ _ _ _ _ _ _ _ _ _ _ _ _ _ _ _);
      try reflexivity; discriminate.
  - refine (proj1 (proj2
              (create_test_section_by_name eval_nothing assembler_config example_stats))
              _ _).
    reflexivity.
Defined.

(** ** [to_json] *)

Lemma wrote_in_app (evs more : list fs_event) (p text : string) :
  (forall q t, ~ In (Wrote q t) more) ->
  In (Wrote p text) (evs ++ more)%list -> In (Wrote p text) evs.
Proof.
  intros Hmore H. apply in_app_or in H. destruct H as [H|H]; [exact H|].
  now apply Hmore in H.
Qed.

(** C10 (as amended). Without an [out_file], or with an empty one,
    [to_json] returns [json.dumps(qc_config)] and touches no file. With a
    non-empty [out_file] it raises and writes nothing: when the file cannot
    be opened nothing changes; when it can, the file is opened, which
    empties it, and closed, and the [TypeError] of serializing the file
    object instead of the configuration reaches the caller. *)
Theorem to_json_returns_text_or_fails :
  forall (json_dumps : pyval -> result string) (can_open : string -> bool)
         (fs : FS) (qc_config : pyval) (out_file : option string),
    (truthy out_file = false ->
     to_json json_dumps can_open fs qc_config out_file
     = (fs, text <- json_dumps qc_config ;; Ok (Some text)))
    /\ (forall path,
           out_file = Some path -> path <> "" ->
           exists fs' e,
             to_json json_dumps can_open fs qc_config out_file = (fs', Raise e)
             /\ (forall p text, In (Wrote p text) (events fs') -> In (Wrote p text) (events fs))
             /\ (can_open path = false -> fs' = fs /\ exn_class e = "OSError")
             /\ (can_open path = true ->
                 e = TypeError "Object of type TextIOWrapper is not JSON serializable"
                 /\ dict_get (contents fs') path = Some ""
                 /\ events fs' = (events fs ++ [Opened path; Closed path])%list)).
Proof.
  intros json_dumps can_open fs qc_config out_file. split.
  - intros H. unfold to_json. rewrite H. reflexivity.
  - intros path -> Hne. unfold to_json. cbn [truthy].
    destruct (String.eqb_spec path "") as [E|_]; [contradiction|]. cbn [negb].
    destruct (can_open path) eqn:C.
    + cbn [json_dump bind]. eexists. eexists. split; [reflexivity|].
      cbn [fs_close fs_open_w events contents].
      split; [|split; [discriminate|]].
      * intros p text H. rewrite <- app_assoc in H. cbn [app] in H.
        apply (wrote_in_app (events fs) [Opened path; Closed path] p text); [|exact H].
        intros q t [F|[F|[]]]; discriminate F.
      * intros _. split; [reflexivity|]. split; [apply dict_get_set_same|].
        rewrite <- app_assoc. reflexivity.
    + eexists. eexists. split; [reflexivity|].
      split; [auto|]. split; [auto | discriminate].
Qed.

Lemma to_json_returns_text_or_fails_witness :
  truthy None = false
  /\ to_json (fun _ => Ok "{}") (fun _ => true) (mkFS [("qc.json", "old")] [])
       (PDict []) None
     = (mkFS [("qc.json", "old")] [], Ok (Some "{}"))
  /\ to_json (fun _ => Ok "{}") (fun _ => true) (mkFS [("qc.json", "old")] [])
       (PDict []) (Some "qc.json")
     = (mkFS [("qc.json", "")] [Opened "qc.json"; Closed "qc.json"],
        Raise (TypeError "Object of type TextIOWrapper is not JSON serializable")).
Proof.
  split; [reflexivity|]. split.
  - exact (proj1 (to_json_returns_text_or_fails (fun _ => Ok "{}") (fun _ => true)
                    (mkFS [("qc.json", "old")] []) (PDict []) None) eq_refl).
  - reflexivity.
Defined.

(** C10 (as stated) fails for the empty string, an [out_file] that is not
    [None]: the test [if out_file:] is false on it, and [to_json] returns
    the text instead of raising. *)
Lemma to_json_empty_out_file_returns_text :
  to_json (fun _ => Ok "{}") (fun _ => true) (mkFS [] []) (PDict []) (Some "")
  = (mkFS [] [], Ok (Some "{}")).
Proof. reflexivity. Qed.

(* ================================================================== *)
(** * Part III: further properties *)
(* ================================================================== *)

(** ** [check_timestamps] *)

Lemma array_equal_eq (a b : list Z) : array_equal a b = true <-> a = b.
Proof.
  revert b. induction a as [|x a IH]; intros [|y b]; cbn [array_equal];
    try (split; [discriminate | intros H; discriminate H]); [tauto|].
  rewrite andb_true_iff, Z.eqb_eq, IH. split.
  - intros [-> ->]. reflexivity.
  - intros H. inversion H. auto.
Qed.

Lemma insert_sorted_Sorted (x : Z) (l : list Z) :
  Sorted Z.le l -> Sorted Z.le (insert_sorted x l).
Proof.
  induction l as [|y l IH]; intros H; cbn [insert_sorted].
  - repeat constructor.
  - destruct (Z.leb_spec x y) as [L|L].
    + constructor; [exact H|]. constructor. exact L.
    + inversion H as [|? ? Hs Hh]. subst. constructor; [auto|].
      destruct l as [|z l]; cbn [insert_sorted].
      * constructor. lia.
      * destruct (Z.leb_spec x z); constructor; [lia|].
        inversion Hh. assumption.
Qed.

Lemma sorted_Sorted (a : list Z) : Sorted Z.le (sorted a).
Proof.
  induction a as [|x a IH]; cbn; [constructor|]. now apply insert_sorted_Sorted.
Qed.

Lemma sorted_of_Sorted (l : list Z) : Sorted Z.le l -> sorted l = l.
Proof.
  induction l as [|x l IH]; intros H; [reflexivity|].
  inversion H as [|? ? Hs Hh]. subst.
  change (sorted (x :: l)) with (insert_sorted x (sorted l)). rewrite (IH Hs).
  destruct l as [|y l]; [reflexivity|]. cbn [insert_sorted].
  inversion Hh as [|? ? L]. subst. apply Z.leb_le in L. now rewrite L.
Qed.

Lemma steps_cons2 (x y : Z) (l : list Z) :
  steps (x :: y :: l) = (y - x)%Z :: steps (y :: l).
Proof. reflexivity. Qed.

Lemma wrap_small (w z : Z) :
  (2 <= w)%Z -> (- 2 ^ (w - 1) <= z < 2 ^ (w - 1))%Z -> wrap w z = z.
Proof.
  intros Hw Hz. unfold wrap.
  assert (P : (2 ^ w = 2 * 2 ^ (w - 1))%Z).
  { replace w with (Z.succ (w - 1)) at 1 by lia. apply Z.pow_succ_r. lia. }
  rewrite Z.mod_small by lia. lia.
Qed.

Lemma np_diff_steps (w : Z) (a : list Z) :
  (2 <= w)%Z -> Forall (half_range w) a -> np_diff w a = steps a.
Proof.
  intros Hw. induction a as [|x a IH]; intros H; [reflexivity|].
  inversion H as [|? ? Hx Ha]. subst. destruct a as [|y a]; [reflexivity|].
  cbn [np_diff steps]. inversion Ha as [|? ? Hy _]. subst.
  change (match a with | [] => [] | y0 :: _ => wrap w (y0 - y) :: np_diff w a end)
    with (np_diff w (y :: a)).
  change (match a with | [] => [] | y0 :: _ => (y0 - y)%Z :: steps a end)
    with (steps (y :: a)).
  rewrite (IH Ha). f_equal. apply wrap_small; [exact Hw|].
  unfold half_range in *.
  assert (P : (2 ^ (w - 1) = 2 * 2 ^ (w - 2))%Z).
  { replace (w - 1)%Z with (Z.succ (w - 2)) by lia. apply Z.pow_succ_r. lia. }
  lia.
Qed.

Lemma insert_sorted_Forall (P : Z -> Prop) (x : Z) (l : list Z) :
  P x -> Forall P l -> Forall P (insert_sorted x l).
Proof.
  intros Hx. induction 1 as [|y l Hy Hl IH]; cbn [insert_sorted].
  - repeat constructor. exact Hx.
  - destruct (x <=? y)%Z; repeat constructor; auto.
Qed.

Lemma sorted_Forall (P : Z -> Prop) (a : list Z) : Forall P a -> Forall P (sorted a).
Proof.
  induction 1 as [|x a Hx Ha IH]; cbn; [constructor|].
  now apply insert_sorted_Forall.
Qed.

Lemma Sorted_le_diff (l : list Z) :
  Sorted Z.le l -> Forall (fun d => (0 <= d)%Z) (steps l).
Proof.
  induction l as [|x l IH]; intros H; [constructor|].
  inversion H as [|? ? Hs Hh]. subst.
  destruct l as [|y l]; [constructor|]. rewrite steps_cons2.
  inversion Hh. subst. constructor; [lia | auto].
Qed.

Lemma Sorted_lt_diff (l : list Z) :
  Sorted Z.lt l <-> Forall (fun d => (0 < d)%Z) (steps l).
Proof.
  induction l as [|x l IH].
  - split; constructor.
  - destruct l as [|y l].
    + split; intros _; repeat constructor.
    + rewrite steps_cons2. split.
      * intros H. inversion H as [|? ? Hs Hh]. subst. inversion Hh. subst.
        constructor; [lia | now apply IH].
      * intros H. inversion H. subst. constructor; [now apply IH|].
        constructor. lia.
Qed.

Lemma Sorted_lt_le (l : list Z) : Sorted Z.lt l -> Sorted Z.le l.
Proof.
  induction 1 as [|x l Hs IH Hh]; constructor; auto.
  destruct Hh; constructor. lia.
Qed.

Lemma existsb_false_Forall {A : Type} (f : A -> bool) (l : list A) :
  existsb f l = false <-> Forall (fun x => f x = false) l.
Proof.
  induction l as [|x l IH]; cbn [existsb].
  - split; constructor.
  - rewrite orb_false_iff, IH. split.
    + intros [? ?]. now constructor.
    + intros H. inversion H. auto.
Qed.

(** X1. On an array of [w]-bit integers whose values leave room for
    every difference (they lie strictly between [-2^(w-2)] and [2^(w-2)]),
    and for an interval that is an integer of [w] bits, [check_timestamps]
    returns [True] exactly when the times are strictly increasing and,
    when an interval is given, no step between neighbours exceeds it. *)
Theorem check_timestamps_strictly_increasing :
  forall (w : Z) (times : list Z) (max_time_interval : option Z),
    (2 <= w)%Z ->
    Forall (half_range w) times ->
    (forall m, max_time_interval = Some m -> (- 2 ^ (w - 1) <= m < 2 ^ (w - 1))%Z) ->
    (check_timestamps w times max_time_interval = true
     <-> Sorted Z.lt times
         /\ (forall m, max_time_interval = Some m ->
                       Forall (fun d => (d <= m)%Z) (steps times))).
Proof.
  intros w times mx Hw Hr _. unfold check_timestamps.
  rewrite (np_diff_steps w times Hw Hr).
  rewrite (np_diff_steps w (sorted times) Hw (sorted_Forall _ _ Hr)).
  destruct (array_equal (steps times) (steps (sorted times))) eqn:E; cbn [negb orb].
  - apply array_equal_eq in E.
    destruct (existsb (fun d => (d =? 0)%Z) (steps (sorted times))) eqn:Z0.
    + split; [discriminate|]. intros [Hs _]. exfalso.
      apply existsb_exists in Z0. destruct Z0 as (d & Hin & Hd).
      apply Z.eqb_eq in Hd. subst d. rewrite <- E in Hin.
      apply Sorted_lt_diff in Hs. rewrite Forall_forall in Hs.
      specialize (Hs 0%Z Hin). lia.
    + assert (Hs : Sorted Z.lt times).
      { apply Sorted_lt_diff. rewrite E.
        pose proof (Sorted_le_diff _ (sorted_Sorted times)) as P.
        apply existsb_false_Forall in Z0.
        rewrite Forall_forall in *. intros d Hd.
        specialize (P d Hd). specialize (Z0 d Hd). cbn in Z0.
        apply Z.eqb_neq in Z0. lia. }
      destruct mx as [m|].
      * destruct (existsb (fun d => (m <? d)%Z) (steps (sorted times))) eqn:G.
        -- split; [discriminate|]. intros [_ Hg]. exfalso.
           apply existsb_exists in G. destruct G as (d & Hin & Hd).
           apply Z.ltb_lt in Hd. rewrite <- E in Hin.
           specialize (Hg m eq_refl). rewrite Forall_forall in Hg.
           specialize (Hg d Hin). lia.
        -- split; [|reflexivity]. intros _. split; [exact Hs|].
           intros m' Hm. inversion Hm. subst m'.
           apply existsb_false_Forall in G. rewrite E.
           rewrite Forall_forall in *. intros d Hd. specialize (G d Hd). cbn in G.
           apply Z.ltb_ge in G. exact G.
      * split; [|reflexivity]. intros _. split; [exact Hs|]. intros m Hm. discriminate Hm.
  - split; [discriminate|]. intros [Hs _]. exfalso.
    rewrite (sorted_of_Sorted _ (Sorted_lt_le _ Hs)) in E.
    assert (T : array_equal (steps times) (steps times) = true)
      by (now apply array_equal_eq).
    congruence.
Qed.

Lemma check_timestamps_strictly_increasing_witness :
  (2 <= 64)%Z
  /\ Forall (half_range 64) [0; 60; 120; 240]%Z
  /\ (check_timestamps 64 [0; 60; 120; 240]%Z (Some 120%Z) = true
      <-> Sorted Z.lt [0; 60; 120; 240]%Z
          /\ (forall m, Some 120%Z = Some m ->
                        Forall (fun d => (d <= m)%Z) (steps [0; 60; 120; 240]%Z))).
Proof.
  assert (Hw : (2 <= 64)%Z) by lia.
  assert (Hr : Forall (half_range 64) [0; 60; 120; 240]%Z)
    by (repeat constructor; unfold half_range; cbn; lia).
  split; [exact Hw|]. split; [exact Hr|].
  apply (check_timestamps_strictly_increasing 64 [0; 60; 120; 240]%Z (Some 120%Z) Hw Hr).
  intros m Hm. inversion Hm. subst m. cbn. lia.
Defined.

(** Without that room the differences wrap: on 8 bits the decreasing
    pair 64, -64 has the step -128 both as it stands and sorted, and
    passes. *)
Example check_timestamps_wraps :
  check_timestamps 8 [64; -64]%Z None = true.
Proof. reflexivity. Qed.

(** ** [cf_safe_name] *)

Lemma sub_unsafe_safe (s : string) :
  forallb is_safe_char (list_ascii_of_string (sub_unsafe s)) = true.
Proof.
  induction s as [|c s IH]; cbn [sub_unsafe list_ascii_of_string forallb]; [reflexivity|].
  rewrite IH, andb_true_r. destruct (is_safe_char c) eqn:E; [exact E | reflexivity].
Qed.

Lemma sub_unsafe_id (s : string) :
  forallb is_safe_char (list_ascii_of_string s) = true -> sub_unsafe s = s.
Proof.
  induction s as [|c s IH]; cbn [sub_unsafe list_ascii_of_string forallb]; [reflexivity|].
  intros H. apply andb_true_iff in H. destruct H as [Hc Hs]. now rewrite Hc, IH.
Qed.

Lemma sub_unsafe_length (s : string) : String.length (sub_unsafe s) = String.length s.
Proof. induction s as [|c s IH]; cbn; [reflexivity | now rewrite IH]. Qed.

Lemma digit_is_safe (c : ascii) : is_digit c = true -> is_safe_char c = true.
Proof. intros H. unfold is_safe_char. rewrite H. now rewrite !orb_true_r. Qed.

(** X2. On a string, [cf_safe_name] returns a name of the characters
    [_a-zA-Z0-9] only that does not start with a digit, and is empty only
    for the empty string; the name has the length of the argument, or two
    more when ["v_"] was put in front; a name that is already of those
    characters and starts with neither a digit nor an underscore is returned
    as it is. A value that is not a string raises [ValueError]. *)
Theorem cf_safe_name_is_safe :
  forall (py_str : pyval -> string),
    (forall s : string,
        exists r,
          cf_safe_name py_str (PStr s) = Ok r
          /\ forallb is_safe_char (list_ascii_of_string r) = true
          /\ match r with
             | String c _ => is_digit c = false
             | EmptyString => s = EmptyString
             end
          /\ (String.length r
              = if starts_with_digit_or_underscore s then 2 + String.length s
                else String.length s)%nat
          /\ (forallb is_safe_char (list_ascii_of_string s) = true ->
              starts_with_digit_or_underscore s = false -> r = s))
    /\ (forall v : pyval,
           (forall s, v <> PStr s) ->
           exists msg, cf_safe_name py_str v = Raise (ValueError msg)).
Proof.
  intros py_str. split.
  - intros s. eexists. split; [reflexivity|].
    split; [apply sub_unsafe_safe|]. split; [|split].
    + destruct s as [|c s]; [reflexivity|]. cbn [starts_with_digit_or_underscore].
      destruct (is_digit c || Ascii.eqb c "_"%char) eqn:E.
      * reflexivity.
      * cbn [sub_unsafe]. apply orb_false_elim in E.
        destruct (is_safe_char c); [exact (proj1 E) | reflexivity].
    + destruct (starts_with_digit_or_underscore s); rewrite sub_unsafe_length; reflexivity.
    + intros Hs Hd. rewrite Hd. now apply sub_unsafe_id.
  - intros v Hv. destruct v; try (eexists; reflexivity). now elim (Hv s).
Qed.

(** X3. [cf_safe_name] is not idempotent: for a name that starts with a
    character outside [_a-zA-Z0-9] the result starts with an underscore,
    and applying the function to the result puts ["v_"] in front of it. *)
Theorem cf_safe_name_twice :
  forall (py_str : pyval -> string) (c : ascii) (rest : string),
    is_safe_char c = false ->
    cf_safe_name py_str (PStr (String c rest)) = Ok (String "_"%char (sub_unsafe rest))
    /\ cf_safe_name py_str (PStr (String "_"%char (sub_unsafe rest)))
       = Ok ("v_" ++ String "_"%char (sub_unsafe rest)).
Proof.
  intros py_str c rest Hc.
  assert (Hd : is_digit c || Ascii.eqb c "_"%char = false).
  { apply orb_false_iff. split.
    - destruct (is_digit c) eqn:E; [|reflexivity].
      apply digit_is_safe in E. congruence.
    - destruct (Ascii.eqb c "_"%char) eqn:E; [|reflexivity].
      unfold is_safe_char in Hc. rewrite E in Hc. discriminate Hc. }
  split.
  - cbn [cf_safe_name starts_with_digit_or_underscore]. rewrite Hd.
    cbn [sub_unsafe]. now rewrite Hc.
  - cbn [cf_safe_name starts_with_digit_or_underscore].
    replace (is_digit "_"%char || Ascii.eqb "_"%char "_"%char) with true by reflexivity.
    f_equal. change ("v_" ++ String "_"%char (sub_unsafe rest))
      with (String "v"%char (String "_"%char (String "_"%char (sub_unsafe rest)))).
    cbn [sub_unsafe].
    replace (is_safe_char "v"%char) with true by reflexivity.
    replace (is_safe_char "_"%char) with true by reflexivity.
    rewrite (sub_unsafe_id (sub_unsafe rest)) by apply sub_unsafe_safe. reflexivity.
Qed.

Lemma cf_safe_name_twice_witness :
  is_safe_char "."%char = false
  /\ cf_safe_name (fun _ => "") (PStr ".temp.qartod") = Ok "_temp_qartod"
  /\ cf_safe_name (fun _ => "") (PStr "_temp_qartod") = Ok "v__temp_qartod".
Proof.
  split; [reflexivity|].
  exact (cf_safe_name_twice (fun _ => "") "."%char "temp.qartod" eq_refl).
Defined.

(** ** [dict_update] *)

Lemma dict_update_mapping (d : pyval) (items : dict pyval) :
  dict_update d (PDict items) = update_loop dict_update d items.
Proof. reflexivity. Qed.

(** On a mapping [u] the function returns. *)
Lemma dict_update_total :
  forall (u d : pyval), is_mapping u = true -> exists r, dict_update d u = Ok r.
Proof.
  fix IH 1. intros u d Hu. destruct u as [| | | | |l|items]; try discriminate Hu.
  rewrite dict_update_mapping. clear Hu. revert d.
  induction items as [|[k v] items IHitems]; intros d; cbn [update_loop].
  - eauto.
  - destruct d as [| | | | | |dd]; try apply IHitems.
    pose proof (IH v (get_or_empty dd k)) as Hv.
    destruct v as [| | | | |l|vi]; try apply IHitems.
    destruct (Hv eq_refl) as [r Hr].
    rewrite Hr. cbn [bind]. apply IHitems.
Qed.

Lemma dict_get_not_in_keys {V : Type} (d : dict V) (k : string) :
  ~ In k (dict_keys d) -> dict_get d k = None.
Proof.
  induction d as [|[k' v'] d IH]; cbn; [reflexivity|]. intros H.
  destruct (String.eqb_spec k k') as [->|_]; [elim H; now left|].
  apply IH. intros Hin. apply H. now right.
Qed.

Lemma get_or_empty_set_other (d : dict pyval) (k k0 : string) (v : pyval) :
  k0 <> k -> get_or_empty (dict_set d k v) k0 = get_or_empty d k0.
Proof. intros H. unfold get_or_empty. now rewrite dict_get_set_other. Qed.

Lemma update_loop_lookup (items : dict pyval) :
  forall dd : dict pyval,
    NoDup (dict_keys items) ->
    exists res,
      update_loop dict_update (PDict dd) items = Ok (PDict res)
      /\ (forall k, dict_get items k = None -> dict_get res k = dict_get dd k)
      /\ (forall k v,
             dict_get items k = Some v -> is_mapping v = false ->
             dict_get res k = Some v)
      /\ (forall k v,
             dict_get items k = Some v -> is_mapping v = true ->
             exists r,
               dict_update (get_or_empty dd k) v = Ok r /\ dict_get res k = Some r).
Proof.
  induction items as [|[k0 v0] rest IH]; intros dd Hnd.
  - exists dd. cbn [update_loop dict_get]. repeat split; auto; discriminate.
  - unfold dict_keys in Hnd. cbn [map fst] in Hnd. inversion Hnd as [|? ? Hk0 Hrest]. subst.
    fold (dict_keys rest) in Hk0, Hrest.
    pose proof (dict_get_not_in_keys rest k0 Hk0) as Hnone.
    assert (Step : exists x,
               update_loop dict_update (PDict dd) ((k0, v0) :: rest)
               = update_loop dict_update (PDict (dict_set dd k0 x)) rest
               /\ (is_mapping v0 = false -> x = v0)
               /\ (is_mapping v0 = true -> dict_update (get_or_empty dd k0) v0 = Ok x)).
    { cbn [update_loop].
      destruct (is_mapping v0) eqn:M.
      - destruct (dict_update_total v0 (get_or_empty dd k0) M) as [r Hr].
        exists r. destruct v0; try discriminate M. rewrite Hr. cbn [bind].
        repeat split; auto; discriminate.
      - exists v0. destruct v0; try discriminate M; repeat split; auto; discriminate. }
    destruct Step as (x & Hstep & Hx0 & Hx1). rewrite Hstep.
    destruct (IH (dict_set dd k0 x) Hrest) as (res & Hres & Hn & Hv & Hm).
    exists res. split; [exact Hres|]. cbn [dict_get]. split; [|split].
    + intros k. destruct (String.eqb_spec k k0) as [->|Hne]; [discriminate|].
      intros H. rewrite (Hn k H). now apply dict_get_set_other.
    + intros k v. destruct (String.eqb_spec k k0) as [->|Hne].
      * intros H M. inversion H. subst v0. rewrite (Hn k0 Hnone), dict_get_set_same.
        now rewrite (Hx0 M).
      * apply Hv.
    + intros k v. destruct (String.eqb_spec k k0) as [->|Hne].
      * intros H M. inversion H. subst v0. exists x. split; [now apply Hx1|].
        now rewrite (Hn k0 Hnone), dict_get_set_same.
      * intros H M. destruct (Hm k v H M) as (r & Hr & Hg).
        exists r. split; [|exact Hg]. now rewrite get_or_empty_set_other in Hr.
Qed.

(** X4. Merging a mapping [u] into a mapping [d]: a key that [u] lacks
    keeps the value it has in [d]; a key that [u] gives a value that is
    not a mapping gets that value; a key that [u] gives a mapping gets the
    merge of that mapping into [d.get(key, {})]. *)
Theorem dict_update_lookup :
  forall (dd items : dict pyval),
    NoDup (dict_keys items) ->
    exists res,
      dict_update (PDict dd) (PDict items) = Ok (PDict res)
      /\ (forall k, dict_get items k = None -> dict_get res k = dict_get dd k)
      /\ (forall k v,
             dict_get items k = Some v -> is_mapping v = false ->
             dict_get res k = Some v)
      /\ (forall k v,
             dict_get items k = Some v -> is_mapping v = true ->
             exists r,
               dict_update (get_or_empty dd k) v = Ok r /\ dict_get res k = Some r).
Proof. intros dd items H. rewrite dict_update_mapping. now apply update_loop_lookup. Qed.

Lemma update_source_keys : NoDup (dict_keys update_source).
Proof.
  repeat constructor; cbn; intuition discriminate.
Qed.

Lemma dict_update_lookup_witness :
  NoDup (dict_keys update_source)
  /\ dict_update (PDict update_target) (PDict update_source)
     = Ok (PDict [("a", PNum 1); ("b", PDict [("x", PNum 1); ("y", PNum 2)]);
                  ("c", PNum 3)])
  /\ exists res,
      dict_update (PDict update_target) (PDict update_source) = Ok (PDict res)
      /\ (forall k, dict_get update_source k = None ->
                    dict_get res k = dict_get update_target k).
Proof.
  split; [exact update_source_keys|]. split; [reflexivity|].
  destruct (dict_update_lookup update_target update_source update_source_keys)
    as (res & H1 & H2 & _).
  exists res. auto.
Defined.

Lemma dict_keys_set {V : Type} (d : dict V) (k : string) (v : V) :
  dict_keys (dict_set d k v)
  = if dict_contains d k then dict_keys d else (dict_keys d ++ [k])%list.
Proof.
  unfold dict_keys, dict_contains.
  induction d as [|[k' v'] d IH]; cbn [dict_set dict_get map fst app]; [reflexivity|].
  destruct (String.eqb k k'); cbn [map fst]; [reflexivity|].
  rewrite IH. destruct (dict_get d k); reflexivity.
Qed.

Lemma dict_contains_set {V : Type} (d : dict V) (k k0 : string) (v : V) :
  dict_contains (dict_set d k v) k0 = dict_contains d k0 || String.eqb k0 k.
Proof.
  unfold dict_contains. destruct (String.eqb_spec k0 k) as [->|Hne].
  - rewrite dict_get_set_same. now rewrite orb_true_r.
  - rewrite dict_get_set_other by exact Hne. now rewrite orb_false_r.
Qed.

Lemma update_loop_keys (items : dict pyval) :
  forall dd res : dict pyval,
    NoDup (dict_keys items) ->
    update_loop dict_update (PDict dd) items = Ok (PDict res) ->
    dict_keys res
    = (dict_keys dd ++ filter (fun k => negb (dict_contains dd k)) (dict_keys items))%list.
Proof.
  induction items as [|[k0 v0] rest IH]; intros dd res Hnd Hres.
  - cbn in Hres. inversion Hres. cbn. now rewrite app_nil_r.
  - unfold dict_keys in Hnd. cbn [map fst] in Hnd. inversion Hnd as [|? ? Hk0 Hrest]. subst.
    fold (dict_keys rest) in Hk0, Hrest.
    assert (Step : exists x,
               update_loop dict_update (PDict dd) ((k0, v0) :: rest)
               = update_loop dict_update (PDict (dict_set dd k0 x)) rest).
    { cbn [update_loop]. destruct (is_mapping v0) eqn:M.
      - destruct (dict_update_total v0 (get_or_empty dd k0) M) as [r Hr].
        exists r. destruct v0; try discriminate M. now rewrite Hr.
      - exists v0. destruct v0; try discriminate M; reflexivity. }
    destruct Step as (x & Hstep). rewrite Hstep in Hres.
    rewrite (IH _ _ Hrest Hres), dict_keys_set.
    change (dict_keys ((k0, v0) :: rest)) with (k0 :: dict_keys rest). cbn [filter].
    assert (F : filter (fun k => negb (dict_contains (dict_set dd k0 x) k)) (dict_keys rest)
                = filter (fun k => negb (dict_contains dd k)) (dict_keys rest)).
    { apply filter_ext_in. intros k Hk. rewrite dict_contains_set.
      destruct (String.eqb_spec k k0) as [->|_]; [contradiction|]. now rewrite orb_false_r. }
    rewrite F. destruct (dict_contains dd k0); cbn [negb]; [reflexivity|].
    now rewrite <- app_assoc.
Qed.

(** X5. The merged mapping keeps the keys of [d] in their order and puts
    the keys that only [u] has after them, in the order of [u]. *)
Theorem dict_update_keys :
  forall (dd items res : dict pyval),
    NoDup (dict_keys items) ->
    dict_update (PDict dd) (PDict items) = Ok (PDict res) ->
    dict_keys res
    = (dict_keys dd ++ filter (fun k => negb (dict_contains dd k)) (dict_keys items))%list.
Proof. intros dd items res H. rewrite dict_update_mapping. now apply update_loop_keys. Qed.

Lemma dict_update_keys_witness :
  NoDup (dict_keys update_source)
  /\ dict_update (PDict update_target) (PDict update_source)
     = Ok (PDict [("a", PNum 1); ("b", PDict [("x", PNum 1); ("y", PNum 2)]);
                  ("c", PNum 3)])
  /\ dict_keys [("a", PNum 1); ("b", PDict [("x", PNum 1); ("y", PNum 2)]); ("c", PNum 3)]
     = (dict_keys update_target
        ++ filter (fun k => negb (dict_contains update_target k))
             (dict_keys update_source))%list.
Proof.
  split; [exact update_source_keys|]. split; [reflexivity|].
  exact (dict_update_keys update_target update_source _ update_source_keys eq_refl).
Defined.

(** ** The registry and the loaded creator *)

Lemma find_app {A : Type} (f : A -> bool) (l1 l2 : list A) :
  find f (l1 ++ l2)%list = match find f l1 with Some x => Some x | None => find f l2 end.
Proof. induction l1 as [|x l1 IH]; cbn; [reflexivity|]. destruct (f x); auto. Qed.

Lemma registry_fold_lookup (datasets : list DatasetDescr) :
  forall (acc : dict DatasetEntry) (nm : string),
    dict_get
      (fold_left (fun acc dataset => dict_set acc (name dataset) (entry_of dataset))
         datasets acc) nm
    = match find (fun d => String.eqb (name d) nm) (rev datasets) with
      | Some d => Some (entry_of d)
      | None => dict_get acc nm
      end.
Proof.
  induction datasets as [|d datasets IH]; intros acc nm; cbn [fold_left rev find].
  - reflexivity.
  - rewrite IH, find_app. cbn [find].
    destruct (find (fun d0 => String.eqb (name d0) nm) (rev datasets)); [reflexivity|].
    destruct (String.eqb_spec (name d) nm) as [<-|Hne].
    + apply dict_get_set_same.
    + apply dict_get_set_other. congruence.
Qed.

Lemma dict_contains_keys {V : Type} (d : dict V) (k : string) :
  dict_contains d k = true <-> In k (dict_keys d).
Proof.
  unfold dict_contains. split.
  - destruct (dict_get d k) as [v|] eqn:G; [|discriminate]. intros _.
    apply dict_get_In in G. unfold dict_keys. apply in_map_iff. now exists (k, v).
  - intros H. destruct (dict_get_in_keys d k H) as [v ->]. reflexivity.
Qed.

Lemma dict_set_NoDup {V : Type} (d : dict V) (k : string) (v : V) :
  NoDup (dict_keys d) -> NoDup (dict_keys (dict_set d k v)).
Proof.
  intros H. rewrite dict_keys_set. destruct (dict_contains d k) eqn:C; [exact H|].
  apply NoDup_app; [exact H | repeat constructor; intros [] |].
  intros x Hx [<-|[]]. apply dict_contains_keys in Hx. congruence.
Qed.

Lemma registry_fold_NoDup (datasets : list DatasetDescr) :
  forall acc : dict DatasetEntry,
    NoDup (dict_keys acc) ->
    NoDup (dict_keys
             (fold_left (fun acc dataset => dict_set acc (name dataset) (entry_of dataset))
                datasets acc)).
Proof.
  induction datasets as [|d datasets IH]; intros acc H; cbn [fold_left]; [exact H|].
  apply IH. now apply dict_set_NoDup.
Qed.

Lemma registry_fold_keys (datasets : list DatasetDescr) :
  forall acc : dict DatasetEntry,
    NoDup (dict_keys acc ++ map name datasets)%list ->
    dict_keys
      (fold_left (fun acc dataset => dict_set acc (name dataset) (entry_of dataset))
         datasets acc)
    = (dict_keys acc ++ map name datasets)%list.
Proof.
  induction datasets as [|d datasets IH]; intros acc H; cbn [fold_left map].
  - now rewrite app_nil_r.
  - cbn [map] in H.
    assert (C : dict_contains acc (name d) = false).
    { destruct (dict_contains acc (name d)) eqn:C; [|reflexivity].
      apply dict_contains_keys in C. apply NoDup_remove_2 in H.
      elim H. apply in_or_app. now left. }
    assert (K : dict_keys (dict_set acc (name d) (entry_of d))
                = (dict_keys acc ++ [name d])%list)
      by (now rewrite dict_keys_set, C).
    rewrite IH; rewrite K, <- app_assoc; [reflexivity | exact H].
Qed.

(** X6. The registry built from the dataset list: under a name stands the
    entry of the last dataset of the list with that name; no name stands
    twice; and when the names of the list are distinct, the registry has
    them in the order of the list. *)
Theorem creator_config_last_wins :
  forall (datasets : list DatasetDescr),
    (forall nm,
        dict_get (CreatorConfig_init datasets) nm
        = option_map entry_of (find (fun d => String.eqb (name d) nm) (rev datasets)))
    /\ NoDup (dict_keys (CreatorConfig_init datasets))
    /\ (NoDup (map name datasets) ->
        dict_keys (CreatorConfig_init datasets) = map name datasets).
Proof.
  intros datasets.
  change (CreatorConfig_init datasets)
    with (fold_left (fun acc dataset => dict_set acc (name dataset) (entry_of dataset))
            datasets []).
  split; [|split].
  - intros nm. rewrite registry_fold_lookup.
    destruct (find (fun d => String.eqb (name d) nm) (rev datasets)); reflexivity.
  - apply registry_fold_NoDup. constructor.
  - intros H. now rewrite registry_fold_keys.
Qed.

Lemma creator_config_last_wins_witness :
  dict_keys (CreatorConfig_init repeated_datasets) = ["clim"; "wave"]
  /\ dict_get (CreatorConfig_init repeated_datasets) "clim"
     = Some (mkDatasetEntry "new.nc" [("temp", "T_NEW")] (Some "depth")).
Proof.
  split; [reflexivity|].
  exact (proj1 (creator_config_last_wins repeated_datasets) "clim").
Defined.

Lemma load_datasets_lookup (load_dataset : string -> result Dataset)
    (cfg : dict DatasetEntry) (dss : dict Dataset) :
  _load_datasets load_dataset cfg = Ok dss ->
  forall nm entry,
    dict_get cfg nm = Some entry ->
    exists ds, dict_get dss nm = Some ds /\ load_dataset (file_path entry) = Ok ds.
Proof.
  revert dss. induction cfg as [|[nm0 e0] cfg IH]; intros dss; cbn [_load_datasets].
  - intros _ nm entry H. discriminate H.
  - intros H. apply bind_ok_inv in H. destruct H as (ds0 & Hl & H).
    apply bind_ok_inv in H. destruct H as (dss' & Hd & H). inversion H. subst dss.
    intros nm entry. cbn [dict_get]. destruct (String.eqb nm nm0).
    + intros G. inversion G. subst e0. eauto.
    + apply (IH dss' Hd).
Qed.

Lemma determine_dataset_years_keys (dss : dict Dataset) (years : dict nat) :
  _determine_dataset_years dss = Ok years -> dict_keys years = dict_keys dss.
Proof.
  revert years. induction dss as [|[nm ds] dss IH]; intros years;
    cbn [_determine_dataset_years].
  - intros H. now inversion H.
  - destruct (ds_time ds); [discriminate|].
    intros H. apply bind_ok_inv in H. destruct H as (years' & Hy & H).
    inversion H. subst years. unfold dict_keys in *. cbn [map fst].
    now rewrite (IH years' Hy).
Qed.

(** X7. A creator built by [__init__] resolves every variable some
    dataset declares: [var2dataset] returns the name of the first dataset
    declaring it and the dataset loaded from the file path the registry
    has under that name, and [_get_time_range] returns a slice. Neither
    raises [KeyError]. *)
Theorem built_creator_resolves_declared_variable :
  forall (load_dataset : string -> result Dataset) (cfg : dict DatasetEntry)
         (self : QcConfigCreator) (var : string),
    QcConfigCreator_init load_dataset cfg = Ok self ->
    (exists nm entry, In (nm, entry) cfg /\ dict_contains (variables entry) var = true) ->
    exists var_in_file nm entry ds,
      _var2var_in_file cfg var = Some (var_in_file, nm)
      /\ dict_get cfg nm = Some entry
      /\ load_dataset (file_path entry) = Ok ds
      /\ var2dataset self var = Ok (nm, ds)
      /\ (forall t0 t1, exists time_slice,
             _get_time_range self var (t0, t1) = Ok time_slice).
Proof.
  intros load_dataset cfg self var Hinit Hvar.
  unfold QcConfigCreator_init in Hinit.
  apply bind_ok_inv in Hinit. destruct Hinit as (dss & Hload & Hinit).
  apply bind_ok_inv in Hinit. destruct Hinit as (years & Hyears & Hinit).
  inversion Hinit. subst self. clear Hinit.
  destruct (var2var_in_file_found cfg var Hvar) as (w & nm & E).
  pose proof (var2var_in_file_key _ _ _ _ E) as Hkey.
  destruct (dict_get_in_keys cfg nm Hkey) as (entry & Hentry).
  destruct (load_datasets_lookup _ _ _ Hload nm entry Hentry) as (ds & Hds & Hl).
  destruct (determine_dataset_years_first _ _ Hyears nm ds Hds) as (ft & rest & _ & Hy).
  exists w, nm, entry, ds. split; [exact E|]. split; [exact Hentry|]. split; [exact Hl|].
  split.
  - unfold var2dataset. cbn [config datasets]. rewrite E. cbn [unpack_pair bind snd].
    unfold dict_item. rewrite Hds. reflexivity.
  - intros t0 t1. eexists. unfold _get_time_range. cbn [config dataset_years].
    rewrite E. cbn [unpack_pair bind snd]. unfold dict_item. rewrite Hy. reflexivity.
Qed.

Lemma built_creator_resolves_declared_variable_witness :
  QcConfigCreator_init (fun _ => Ok clim_dataset) clim_registry = Ok clim_creator
  /\ (exists nm entry,
         In (nm, entry) clim_registry /\ dict_contains (variables entry) "temp" = true)
  /\ var2dataset clim_creator "temp" = Ok ("clim", clim_dataset)
  /\ exists var_in_file nm entry ds,
      _var2var_in_file clim_registry "temp" = Some (var_in_file, nm)
      /\ dict_get clim_registry nm = Some entry
      /\ (fun _ : string => Ok clim_dataset) (file_path entry) = Ok ds
      /\ var2dataset clim_creator "temp" = Ok (nm, ds).
Proof.
  assert (Hi : QcConfigCreator_init (fun _ => Ok clim_dataset) clim_registry
               = Ok clim_creator) by reflexivity.
  assert (Hv : exists nm entry,
             In (nm, entry) clim_registry /\ dict_contains (variables entry) "temp" = true).
  { exists "clim", (mkDatasetEntry "clim.nc" [("temp", "TEMP")] None).
    split; [left; reflexivity | reflexivity]. }
  split; [exact Hi|]. split; [exact Hv|]. split; [reflexivity|].
  destruct (built_creator_resolves_declared_variable (fun _ => Ok clim_dataset)
              clim_registry clim_creator "temp" Hi Hv)
    as (w & nm & entry & ds & H1 & H2 & H3 & H4 & _).
  exists w, nm, entry, ds. auto.
Defined.

Lemma load_datasets_Forall2 (load_dataset : string -> result Dataset)
    (cfg : dict DatasetEntry) (dss : dict Dataset) :
  _load_datasets load_dataset cfg = Ok dss ->
  Forall2 (fun kv kd => fst kd = fst kv /\ load_dataset (file_path (snd kv)) = Ok (snd kd))
    cfg dss.
Proof.
  revert dss. induction cfg as [|[nm e] cfg IH]; intros dss; cbn [_load_datasets].
  - intros H. inversion H. constructor.
  - intros H. apply bind_ok_inv in H. destruct H as (ds & Hl & H).
    apply bind_ok_inv in H. destruct H as (dss' & Hd & H). inversion H. subst dss.
    constructor; [split; [reflexivity | exact Hl] | now apply IH].
Qed.

Lemma load_datasets_exists (load_dataset : string -> result Dataset)
    (cfg : dict DatasetEntry) :
  Forall (fun kv => exists ds, load_dataset (file_path (snd kv)) = Ok ds) cfg ->
  exists dss, _load_datasets load_dataset cfg = Ok dss.
Proof.
  induction 1 as [|[nm e] cfg (ds & Hl) _ (dss & IH)]; cbn [_load_datasets]; [eauto|].
  cbn [snd] in Hl. rewrite Hl, IH. cbn [bind]. eauto.
Qed.

Lemma determine_dataset_years_ok (dss : dict Dataset) :
  (exists years, _determine_dataset_years dss = Ok years)
  <-> Forall (fun kd => ds_time (snd kd) <> []) dss.
Proof.
  induction dss as [|[nm ds] dss IH]; cbn [_determine_dataset_years].
  - split; [constructor | eauto].
  - destruct (ds_time ds) as [|t0 rest] eqn:T.
    + split.
      * intros (years & H). discriminate H.
      * intros H. inversion H as [|? ? Hd _]. cbn [snd] in Hd. congruence.
    + split.
      * intros (years & H). apply bind_ok_inv in H. destruct H as (years' & Hy & _).
        constructor; [cbn [snd]; congruence | apply IH; eauto].
      * intros H. inversion H as [|? ? _ Hr]. apply IH in Hr. destruct Hr as (years' & Hy).
        rewrite Hy. cbn [bind]. eauto.
Qed.

(** X8. [QcConfigCreator.__init__] succeeds exactly when every file of
    the registry loads and every loaded dataset has at least one time
    coordinate; the creator then holds the registry as given, and a
    dataset and a reference year under each of its names, in its order. *)
Theorem creator_init_succeeds_iff :
  forall (load_dataset : string -> result Dataset) (cfg : dict DatasetEntry),
    ((exists self, QcConfigCreator_init load_dataset cfg = Ok self)
     <-> Forall (fun kv => exists ds,
                     load_dataset (file_path (snd kv)) = Ok ds /\ ds_time ds <> []) cfg)
    /\ (forall self,
           QcConfigCreator_init load_dataset cfg = Ok self ->
           config self = cfg
           /\ dict_keys (datasets self) = dict_keys cfg
           /\ dict_keys (dataset_years self) = dict_keys cfg).
Proof.
  intros load_dataset cfg. split; [split|].
  - intros (self & Hinit). unfold QcConfigCreator_init in Hinit.
    apply bind_ok_inv in Hinit. destruct Hinit as (dss & Hload & Hinit).
    apply bind_ok_inv in Hinit. destruct Hinit as (years & Hyears & _).
    pose proof (load_datasets_Forall2 _ _ _ Hload) as F2.
    assert (Ft : Forall (fun kd => ds_time (snd kd) <> []) dss)
      by (apply determine_dataset_years_ok; eauto).
    clear Hload Hyears. induction F2 as [|kv kd cfg dss (_ & Hl) _ IH]; [constructor|].
    inversion Ft. subst. constructor; [eauto | auto].
  - intros F.
    assert (Fl : Forall (fun kv => exists ds, load_dataset (file_path (snd kv)) = Ok ds) cfg).
    { eapply Forall_impl; [|exact F]. intros kv (ds & H & _). eauto. }
    destruct (load_datasets_exists _ _ Fl) as (dss & Hload).
    pose proof (load_datasets_Forall2 _ _ _ Hload) as F2.
    assert (Ft : Forall (fun kd => ds_time (snd kd) <> []) dss).
    { clear Hload Fl. induction F2 as [|kv kd cfg dss (_ & Hl) _ IH]; [constructor|].
      inversion F as [|? ? (ds & Hd & Ht) Fr]. subst.
      constructor; [|auto]. rewrite Hl in Hd. inversion Hd. congruence. }
    apply determine_dataset_years_ok in Ft. destruct Ft as (years & Hyears).
    eexists. unfold QcConfigCreator_init. rewrite Hload. cbn [bind].
    rewrite Hyears. reflexivity.
  - intros self Hinit. unfold QcConfigCreator_init in Hinit.
    apply bind_ok_inv in Hinit. destruct Hinit as (dss & Hload & Hinit).
    apply bind_ok_inv in Hinit. destruct Hinit as (years & Hyears & Hinit).
    inversion Hinit. subst self. cbn [config datasets dataset_years].
    split; [reflexivity|].
    rewrite (determine_dataset_years_keys _ _ Hyears), (load_datasets_keys _ _ _ Hload).
    auto.
Qed.

(** ** The subset as a function of the box and of the window *)

(** When the subset was computed under one pair of masks, it is, under
    every pair of masks, the selection between the two dates of the slice
    over the grid points the masks keep. *)
Lemma get_daily_interp_subset_shape (self : QcConfigCreator) (var : string)
    (time_slice : string * string) (depth : nat) (m1 m2 : Q -> bool)
    (sub : list float64) :
  __get_daily_interp_subset self var time_slice depth m1 m2 = Ok sub ->
  exists pts start stop,
    parse_label (fst time_slice) = Ok start
    /\ parse_label (snd time_slice) = Ok stop
    /\ forall n1 n2,
        __get_daily_interp_subset self var time_slice depth n1 n2
        = Ok (select_between start stop
                (map gp_daily (filter (fun g => n1 (gp_lat g) && n2 (gp_lon g)) pts))).
Proof.
  unfold __get_daily_interp_subset.
  destruct (var2dataset self var) as [p|e]; cbn [bind]; [|discriminate].
  destruct (unpack_pair (_var2var_in_file (config self) var)) as [q|e];
    cbn [bind]; [|discriminate].
  destruct (dict_item (config self) (fst p)) as [entry|e]; cbn [bind]; [|discriminate].
  destruct (dict_item (ds_vars (snd p)) (fst q)) as [data|e]; cbn [bind]; [|discriminate].
  destruct (select_level entry data depth) as [pts|e]; cbn [bind]; [|discriminate].
  unfold sel_time.
  destruct (parse_label (fst time_slice)) as [start|e]; cbn [bind]; [|discriminate].
  destruct (parse_label (snd time_slice)) as [stop|e]; cbn [bind]; [|discriminate].
  intros _. exists pts, start, stop. repeat split; reflexivity.
Qed.

Lemma in_mask_wider (lo hi lo' hi' coord : Q) :
  (lo' <= lo)%Q -> (hi <= hi')%Q -> in_mask lo hi coord = true -> in_mask lo' hi' coord = true.
Proof.
  unfold in_mask. rewrite !andb_true_iff, !Qle_bool_iff. intros H1 H2 [H3 H4].
  split; eapply Qle_trans; eauto.
Qed.

Lemma select_between_incl (start stop : date) (f g : GridPoint -> bool)
    (pts : list GridPoint) :
  (forall p, f p = true -> g p = true) ->
  incl (select_between start stop (map gp_daily (filter f pts)))
       (select_between start stop (map gp_daily (filter g pts))).
Proof.
  intros Hfg v Hv. unfold select_between in *.
  apply in_flat_map in Hv. destruct Hv as (series & Hs & Hin).
  apply in_map_iff in Hs. destruct Hs as (p & <- & Hp).
  apply filter_In in Hp. destruct Hp as [Hp Hf].
  apply in_flat_map. exists (gp_daily p). split; [|exact Hin].
  apply in_map. apply filter_In. auto.
Qed.

(** X9. A wider box selects at least what a narrower one does: when the
    subset of a box was computed, the subset of every box that contains it
    is computed too and holds every value of the first. *)
Theorem masked_subset_grows_with_box :
  forall (self : QcConfigCreator) (var : string) (time_slice : string * string)
         (depth : nat) (x0 y0 x1 y1 X0 Y0 X1 Y1 : Q) (sub : list float64),
    (X0 <= x0)%Q -> (Y0 <= y0)%Q -> (x1 <= X1)%Q -> (y1 <= Y1)%Q ->
    masked_subset self var time_slice depth [x0; y0; x1; y1] = Ok sub ->
    exists sub',
      masked_subset self var time_slice depth [X0; Y0; X1; Y1] = Ok sub'
      /\ incl sub sub'.
Proof.
  intros self var ts depth x0 y0 x1 y1 X0 Y0 X1 Y1 sub Hx0 Hy0 Hx1 Hy1 H.
  unfold masked_subset in *. cbn [list_item nth_error bind] in *.
  destruct (get_daily_interp_subset_shape _ _ _ _ _ _ _ H) as (pts & start & stop & _ & _ & S).
  rewrite S in H. inversion H. subst sub. eexists. split; [apply S|].
  apply select_between_incl. intros p Hp.
  apply andb_true_iff in Hp. destruct Hp as [Hlat Hlon]. apply andb_true_iff. split.
  - eapply in_mask_wider; [exact Hy0 | exact Hy1 | exact Hlat].
  - eapply in_mask_wider; [exact Hx0 | exact Hx1 | exact Hlon].
Qed.

Lemma masked_subset_grows_with_box_witness :
  (-1 <= 0)%Q /\ (-1 <= 0)%Q /\ (1 <= 2)%Q /\ (1 <= 2)%Q
  /\ masked_subset clim_creator "temp" first_days 0 [0%Q; 0%Q; 1%Q; 1%Q] = Ok []
  /\ masked_subset clim_creator "temp" first_days 0 [(-1)%Q; (-1)%Q; 2%Q; 2%Q]
     = Ok [Num 1; Num 2; Num 3; Num 4]
  /\ exists sub',
      masked_subset clim_creator "temp" first_days 0 [(-1)%Q; (-1)%Q; 2%Q; 2%Q] = Ok sub'
      /\ incl [] sub'.
Proof.
  assert (L1 : (-1 <= 0)%Q) by (intro H; discriminate H).
  assert (L2 : (1 <= 2)%Q) by (intro H; discriminate H).
  split; [exact L1|]. split; [exact L1|]. split; [exact L2|]. split; [exact L2|].
  split; [reflexivity|]. split; [reflexivity|].
  exact (masked_subset_grows_with_box clim_creator "temp" first_days 0
           0 0 1 1 (-1) (-1) 2 2 [] L1 L1 L2 L2 eq_refl).
Defined.

Lemma date_leb_iff (a b : date) :
  date_leb a b = true
  <-> (year a < year b
       \/ (year a = year b
           /\ (month a < month b \/ (month a = month b /\ day a <= day b))))%nat.
Proof.
  unfold date_leb.
  rewrite !orb_true_iff, !andb_true_iff, !orb_true_iff, !andb_true_iff.
  rewrite !Nat.ltb_lt, !Nat.eqb_eq, Nat.leb_le. tauto.
Qed.

Lemma date_leb_trans (a b c : date) :
  date_leb a b = true -> date_leb b c = true -> date_leb a c = true.
Proof. rewrite !date_leb_iff. lia. Qed.

Lemma select_between_reversed (start stop : date) (arr : list (list (date * float64))) :
  date_leb start stop = false -> select_between start stop arr = [].
Proof.
  intros H. unfold select_between. induction arr as [|series arr IH]; [reflexivity|].
  cbn [flat_map]. rewrite IH, app_nil_r.
  induction series as [|p series IHs]; [reflexivity|]. cbn [filter].
  destruct (date_leb start (fst p) && date_leb (fst p) stop) eqn:E; [|exact IHs].
  apply andb_true_iff in E. destruct E as [E1 E2].
  rewrite (date_leb_trans _ _ _ E1 E2) in H. discriminate H.
Qed.

(** A slice whose start is later than its stop selects nothing, under any box. *)
Lemma reversed_slice_never_returns :
  forall (self : QcConfigCreator) (var : string) (bbox : list Q)
         (time_slice : string * string) (depth : nat) (pad_delta : Q)
         (start stop : date) (subset0 : list float64),
    parse_label (fst time_slice) = Ok start ->
    parse_label (snd time_slice) = Ok stop ->
    date_leb start stop = false ->
    is_ok (var2dataset self var) = true ->
    masked_subset self var time_slice depth bbox = Ok subset0 ->
    forall fuel, _get_subset fuel self var bbox time_slice depth pad_delta = None.
Proof.
  intros self var bbox ts depth pad start stop subset0 Hs He Hrev Hv H0 fuel.
  assert (Hall : forall box sub,
             masked_subset self var ts depth box = Ok sub -> nansum sub = 0%R).
  { intros box sub H. unfold masked_subset in H.
    apply bind_ok_inv in H. destruct H as (b1 & _ & H).
    apply bind_ok_inv in H. destruct H as (b3 & _ & H).
    apply bind_ok_inv in H. destruct H as (b0 & _ & H).
    apply bind_ok_inv in H. destruct H as (b2 & _ & H).
    destruct (get_daily_interp_subset_shape _ _ _ _ _ _ _ H)
      as (pts & start' & stop' & Hs' & He' & S).
    rewrite S in H. inversion H. subst sub.
    rewrite Hs in Hs'. rewrite He in He'. inversion Hs'. inversion He'. subst start' stop'.
    now rewrite select_between_reversed. }
  rewrite (get_subset_loop _ _ _ _ _ _ _ _ Hv H0).
  pose proof (pad_loop_spec self var ts depth pad fuel bbox subset0 H0) as P.
  destruct (pad_loop fuel self var ts depth pad bbox subset0) as [[[box sub]|e]|].
  - destruct P as (n & _ & _ & Hm & Hnz & _). exfalso. apply Hnz. eapply Hall; eauto.
  - contradiction.
  - reflexivity.
Qed.

(** X10. When the start of the slice is later than its stop, the slice
    selects nothing under any box, so every subset has a nan-sum of zero
    and [_get_subset] is still padding after any number of rounds. *)
Theorem get_subset_never_returns_on_reversed_slice :
  forall (self : QcConfigCreator) (var : string) (bbox : list Q)
         (time_slice : string * string) (depth : nat) (pad_delta : Q)
         (start stop : date) (subset0 : list float64),
    parse_label (fst time_slice) = Ok start ->
    parse_label (snd time_slice) = Ok stop ->
    date_leb start stop = false ->
    is_ok (var2dataset self var) = true ->
    masked_subset self var time_slice depth bbox = Ok subset0 ->
    forall fuel, _get_subset fuel self var bbox time_slice depth pad_delta = None.
Proof. exact reversed_slice_never_returns. Qed.

Lemma get_subset_never_returns_on_reversed_slice_witness :
  parse_label (fst over_new_year) = Ok (mkDate 2005 11 1)
  /\ parse_label (snd over_new_year) = Ok (mkDate 2005 2 1)
  /\ date_leb (mkDate 2005 11 1) (mkDate 2005 2 1) = false
  /\ is_ok (var2dataset clim_creator "temp") = true
  /\ masked_subset clim_creator "temp" over_new_year 0 [0%Q; 0%Q; 3%Q; 3%Q] = Ok []
  /\ forall fuel,
      _get_subset fuel clim_creator "temp" [0%Q; 0%Q; 3%Q; 3%Q] over_new_year 0 0.5 = None.
Proof.
  split; [reflexivity|]. split; [reflexivity|]. split; [reflexivity|].
  split; [reflexivity|]. split; [reflexivity|].
  exact (get_subset_never_returns_on_reversed_slice clim_creator "temp"
           [0%Q; 0%Q; 3%Q; 3%Q] over_new_year 0 0.5 (mkDate 2005 11 1) (mkDate 2005 2 1) []
           eq_refl eq_refl eq_refl eq_refl eq_refl).
Defined.


(** X14. A deployment window whose end month and day come before its
    start month and day (a window over the new year) never yields
    statistics: both dates are put in the one reference year, the slice
    selects nothing, and [_get_stats] and [create_config] are still
    padding after any number of rounds. *)
Theorem create_config_never_returns_over_new_year :
  forall (eval_fx : pyval -> Stats -> result pyval) (self : QcConfigCreator)
         (c : VariableConfig) (d0 d1 : date) (var_in_file nm : string) (yr : nat)
         (subset0 : list float64),
    strptime_ymd (start_time c) = Ok d0 ->
    strptime_ymd (end_time c) = Ok d1 ->
    (month d1 < month d0 \/ (month d1 = month d0 /\ day d1 < day d0))%nat ->
    _var2var_in_file (config self) (variable c) = Some (var_in_file, nm) ->
    dict_get (dataset_years self) nm = Some yr ->
    is_ok (var2dataset self (variable c)) = true ->
    masked_subset self (variable c)
      (date_label yr (month d0) (day d0), date_label yr (month d1) (day d1)) 0 (bbox c)
    = Ok subset0 ->
    forall fuel,
      _get_stats fuel self c = None /\ create_config eval_fx fuel self c = None.
Proof.
  intros eval_fx self c d0 d1 w nm yr subset0 H0 H1 Hord Hvar Hyr Hv Hs fuel.
  assert (Hstats : _get_stats fuel self c = None).
  { unfold _get_stats. rewrite H0, H1. cbn [bind]. unfold _get_time_range.
    rewrite Hvar. cbn [unpack_pair bind snd fst]. unfold dict_item. rewrite Hyr.
    cbn [bind fst snd].
    assert (Hm := Hs). unfold masked_subset in Hm.
    apply bind_ok_inv in Hm. destruct Hm as (b1 & _ & Hm).
    apply bind_ok_inv in Hm. destruct Hm as (b3 & _ & Hm).
    apply bind_ok_inv in Hm. destruct Hm as (b0 & _ & Hm).
    apply bind_ok_inv in Hm. destruct Hm as (b2 & _ & Hm).
    destruct (get_daily_interp_subset_shape _ _ _ _ _ _ _ Hm)
      as (pts & start & stop & Ps & Pe & _).
    cbn [fst snd] in Ps, Pe.
    assert (Es : start = mkDate yr (month d0) (day d0)).
    { unfold parse_label in Ps.
      destruct (read_ymd (fun _ => true) (date_label yr (month d0) (day d0))) eqn:R;
        [|discriminate]. inversion Ps. subst. eapply read_ymd_date_label; eauto. }
    assert (Ee : stop = mkDate yr (month d1) (day d1)).
    { unfold parse_label in Pe.
      destruct (read_ymd (fun _ => true) (date_label yr (month d1) (day d1))) eqn:R;
        [|discriminate]. inversion Pe. subst. eapply read_ymd_date_label; eauto. }
    assert (Hrev : date_leb start stop = false).
    { destruct (date_leb start stop) eqn:L; [|reflexivity].
      apply date_leb_iff in L. subst start stop. cbn [year month day] in L. lia. }
    rewrite (reversed_slice_never_returns self (variable c) (bbox c)
               (date_label yr (month d0) (day d0), date_label yr (month d1) (day d1))
               0 0.5 start stop subset0 Ps Pe Hrev Hv Hs fuel).
    reflexivity. }
  split; [exact Hstats|]. unfold create_config. now rewrite Hstats.
Qed.

Lemma create_config_never_returns_over_new_year_witness :
  strptime_ymd (start_time new_year_config) = Ok (mkDate 2020 11 1)
  /\ strptime_ymd (end_time new_year_config) = Ok (mkDate 2021 2 1)
  /\ _var2var_in_file (config clim_creator) (variable new_year_config)
     = Some ("TEMP", "clim")
  /\ dict_get (dataset_years clim_creator) "clim" = Some 2005%nat
  /\ masked_subset clim_creator (variable new_year_config)
       (date_label 2005 11 1, date_label 2005 2 1) 0 (bbox new_year_config) = Ok []
  /\ forall fuel,
      _get_stats fuel clim_creator new_year_config = None
      /\ create_config eval_stat_name fuel clim_creator new_year_config = None.
Proof.
  split; [reflexivity|]. split; [reflexivity|]. split; [reflexivity|].
  split; [reflexivity|]. split; [reflexivity|].
  exact (create_config_never_returns_over_new_year eval_stat_name clim_creator
           new_year_config (mkDate 2020 11 1) (mkDate 2021 2 1) "TEMP" "clim" 2005 []
           eq_refl eq_refl (or_introl (Nat.lt_le_trans 2 3 11 (le_n 3) ltac:(repeat constructor)))
           eq_refl eq_refl eq_refl eq_refl).
Defined.

(** ** The expression check looks at tokens only *)

(** X15. The check of an expression is a check of its tokens, one by
    one: two expressions joined by a space are accepted exactly when both
    are, whatever they are; so the order of the tokens and the pairing of
    the parentheses play no part. *)
Theorem validate_fx_of_joined_expressions :
  forall (a b test_name : string),
    _validate_fx (PStr (a ++ " " ++ b)) test_name = Ok tt
    <-> _validate_fx (PStr a) test_name = Ok tt
        /\ _validate_fx (PStr b) test_name = Ok tt.
Proof.
  intros a b test_name. cbn [_validate_fx].
  change (a ++ " " ++ b) with (a ++ String " "%char b).
  rewrite split_on_join, !validate_tokens_ok, forallb_app, andb_true_iff. tauto.
Qed.

(** ** [create_config] *)

Section CreateConfigFacts.

Variable eval_fx : pyval -> Stats -> result pyval.
Variable c : VariableConfig.
Variable stats : Stats.

Lemma test_sections_collects (names : list string) :
  forall acc : dict pyval,
    NoDup names ->
    (forall nm, In nm names -> is_ok (_create_test_section eval_fx nm c stats) = true) ->
    exists secs,
      test_sections eval_fx names c stats acc = Ok secs
      /\ (forall nm sec,
             In nm names -> _create_test_section eval_fx nm c stats = Ok sec ->
             dict_get secs nm = Some sec)
      /\ (forall nm, ~ In nm names -> dict_get secs nm = dict_get acc nm)
      /\ dict_keys secs
         = (dict_keys acc ++ filter (fun k => negb (dict_contains acc k)) names)%list.
Proof.
  induction names as [|nm0 rest IH]; intros acc Hnd Hok.
  - exists acc. cbn [test_sections filter]. rewrite app_nil_r.
    repeat split; auto. intros nm sec [].
  - inversion Hnd as [|? ? Hnot Hrest]. subst.
    pose proof (Hok nm0 (or_introl eq_refl)) as H0.
    destruct (_create_test_section eval_fx nm0 c stats) as [sec0|e] eqn:E0; [|discriminate].
    destruct (IH (dict_set acc nm0 sec0) Hrest) as (secs & Hs & Hin & Hout & Hkeys).
    { intros nm Hnm. apply Hok. now right. }
    exists secs. cbn [test_sections]. rewrite E0. cbn [bind].
    split; [exact Hs|]. split; [|split].
    + intros nm sec [<-|Hnm] Hsec.
      * rewrite (Hout nm0 Hnot), dict_get_set_same. congruence.
      * now apply Hin.
    + intros nm Hnm. rewrite (Hout nm).
      * apply dict_get_set_other. intros ->. apply Hnm. now left.
      * intros H. apply Hnm. now right.
    + rewrite Hkeys, dict_keys_set. cbn [filter].
      assert (F : filter (fun k => negb (dict_contains (dict_set acc nm0 sec0) k)) rest
                  = filter (fun k => negb (dict_contains acc k)) rest).
      { apply filter_ext_in. intros k Hk. rewrite dict_contains_set.
        destruct (String.eqb_spec k nm0) as [->|_]; [contradiction|].
        now rewrite orb_false_r. }
      rewrite F. destruct (dict_contains acc nm0); cbn [negb]; [reflexivity|].
      now rewrite <- app_assoc.
Qed.

Lemma test_sections_first_error (pre : list string) :
  forall (acc : dict pyval) (nm : string) (post : list string) (e : exn),
    (forall n, In n pre -> is_ok (_create_test_section eval_fx n c stats) = true) ->
    _create_test_section eval_fx nm c stats = Raise e ->
    test_sections eval_fx (pre ++ nm :: post) c stats acc = Raise e.
Proof.
  induction pre as [|n0 pre IH]; intros acc nm post e Hpre He; cbn [app test_sections].
  - now rewrite He.
  - pose proof (Hpre n0 (or_introl eq_refl)) as H0.
    destruct (_create_test_section eval_fx n0 c stats) as [sec0|e0]; [|discriminate].
    cbn [bind]. apply IH; [|exact He]. intros n Hn. apply Hpre. now right.
Qed.

Lemma test_param_of_test (test_name : string) (params : dict pyval) (q : string) :
  dict_get (tests c) test_name = Some (PDict params) ->
  test_param c test_name q = dict_item params q.
Proof. intros H. unfold test_param, dict_item at 1. now rewrite H. Qed.

End CreateConfigFacts.

(** X16. When the statistics were computed and the section of every test
    of the configuration is built, [create_config] returns
    [{variable: {'qartod': sections}}] where [sections] has the test names
    of the configuration, in its order, each with its section. *)
Theorem create_config_collects_sections :
  forall (eval_fx : pyval -> Stats -> result pyval) (fuel : nat)
         (self : QcConfigCreator) (c : VariableConfig) (stats : Stats),
    _get_stats fuel self c = Some (Ok stats) ->
    NoDup (dict_keys (tests c)) ->
    (forall nm, In nm (dict_keys (tests c)) ->
                is_ok (_create_test_section eval_fx nm c stats) = true) ->
    exists secs,
      create_config eval_fx fuel self c
      = Some (Ok (PDict [(variable c, PDict [("qartod", PDict secs)])]))
      /\ dict_keys secs = dict_keys (tests c)
      /\ (forall nm sec,
             In nm (dict_keys (tests c)) ->
             _create_test_section eval_fx nm c stats = Ok sec ->
             dict_get secs nm = Some sec).
Proof.
  intros eval_fx fuel self c stats Hst Hnd Hok.
  destruct (test_sections_collects eval_fx c stats _ [] Hnd Hok)
    as (secs & Hs & Hin & _ & Hkeys).
  exists secs. unfold create_config. rewrite Hst, Hs. cbn [bind].
  split; [reflexivity|]. split; [|exact Hin].
  rewrite Hkeys. cbn [dict_keys map app]. apply forallb_filter_id. apply forallb_forall. intros k _. reflexivity.
Qed.

(** X17. When the statistics were computed, the error of the first test,
    in the order of the configuration, whose section raises is the error of
    [create_config]: nothing is returned for the tests before it. *)
Theorem create_config_raises_first_section_error :
  forall (eval_fx : pyval -> Stats -> result pyval) (fuel : nat)
         (self : QcConfigCreator) (c : VariableConfig) (stats : Stats)
         (pre : list string) (nm : string) (post : list string) (e : exn),
    _get_stats fuel self c = Some (Ok stats) ->
    dict_keys (tests c) = (pre ++ nm :: post)%list ->
    (forall n, In n pre -> is_ok (_create_test_section eval_fx n c stats) = true) ->
    _create_test_section eval_fx nm c stats = Raise e ->
    create_config eval_fx fuel self c = Some (Raise e).
Proof.
  intros eval_fx fuel self c stats pre nm post e Hst Hkeys Hpre He.
  unfold create_config. rewrite Hst, Hkeys.
  now rewrite (test_sections_first_error eval_fx c stats pre [] nm post e Hpre He).
Qed.


Lemma create_config_collects_sections_witness :
  exists secs,
    create_config eval_stat_name 0 clim_creator assembler_config
    = Some (Ok (PDict [("temp", PDict [("qartod", PDict secs)])]))
    /\ dict_keys secs = ["gross_range_test"; "location_test"]
    /\ (forall nm sec,
           In nm ["gross_range_test"; "location_test"] ->
           _create_test_section eval_stat_name nm assembler_config example_stats = Ok sec ->
           dict_get secs nm = Some sec).
Proof.
  refine (create_config_collects_sections eval_stat_name 0 clim_creator assembler_config
            example_stats
            (clim_stats assembler_config 0 eq_refl eq_refl eq_refl eq_refl) _ _).
  - repeat constructor; cbn; intuition discriminate.
  - intros nm [<-|[<-|[]]]; reflexivity.
Defined.

Lemma create_config_raises_first_section_error_witness :
  create_config eval_stat_name 0 clim_creator half_spike_config
  = Some (Raise (KeyError "fail_threshold")).
Proof.
  refine (create_config_raises_first_section_error eval_stat_name 0 clim_creator
            half_spike_config example_stats [] "spike_test" [] (KeyError "fail_threshold")
            (clim_stats half_spike_config 0 eq_refl eq_refl eq_refl eq_refl)
            eq_refl _ eq_refl).
  intros n [].
Defined.

(** One parameter read by a section: either it is the missing one, or it
    is present and evaluates; reading past the end of the list of required
    parameters is impossible. *)
Ltac read_param Hreq Hmiss Hhave :=
  match type of Hreq with
  | [] = (?pre ++ _ :: _)%list => destruct pre; discriminate Hreq
  | _ :: _ = (?pre ++ _ :: _)%list =>
      let q := fresh "q" in
      let Hq := fresh "Hq" in
      let e := fresh "e" in
      let v := fresh "v" in
      let He := fresh "He" in
      let Hv := fresh "Hv" in
      destruct pre as [|q pre]; cbn [app] in Hreq;
      [ injection Hreq as <- _; now rewrite Hmiss
      | injection Hreq as Hq Hreq; subst q;
        destruct (Hhave _ (or_introl eq_refl)) as (e & v & He & Hv);
        rewrite He; cbn [bind]; try (rewrite Hv; cbn [bind]); clear He Hv;
        specialize (fun q' Hq' => Hhave q' (or_intror Hq')) ]
  end.


(** X18. A test that lacks one of the parameters its section reads
    fails when the section is built: if the parameters read before the
    missing one are present and evaluate, [_create_test_section] raises the
    [KeyError] of the missing parameter. *)
Theorem section_raises_key_error_for_missing_parameter :
  forall (eval_fx : pyval -> Stats -> result pyval) (c : VariableConfig) (stats : Stats)
         (test_name : string) (params : dict pyval)
         (pre : list string) (p : string) (post : list string),
    dict_get (tests c) test_name = Some (PDict params) ->
    required_params test_name = (pre ++ p :: post)%list ->
    (forall q, In q pre ->
               exists e, dict_get params q = Some e /\ is_ok (eval_fx e stats) = true) ->
    dict_get params p = None ->
    _create_test_section eval_fx test_name c stats = Raise (KeyError p).
Proof.
  intros eval_fx c stats test_name params pre p post Ht Hreq Hpre Hp.
  pose proof (test_param_of_test c test_name params) as TP.
  assert (Hmiss : test_param c test_name p = Raise (KeyError p)).
  { rewrite (TP p Ht). unfold dict_item. now rewrite Hp. }
  assert (Hhave : forall q, In q pre ->
            exists e v, test_param c test_name q = Ok e /\ eval_fx e stats = Ok v).
  { intros q Hq. destruct (Hpre q Hq) as (e & Hg & Hv).
    destruct (eval_fx e stats) as [v|] eqn:E; [|discriminate].
    exists e, v. rewrite (TP q Ht). unfold dict_item. rewrite Hg. auto. }
  clear Hpre TP Hp Ht.
  unfold required_params in Hreq. unfold _create_test_section.
  destruct (String.eqb test_name "spike_test");
    [|destruct (String.eqb test_name "location_test");
      [|destruct (String.eqb test_name "rate_of_change_test");
        [|destruct (String.eqb test_name "flat_line_test")]]];
  unfold __create_spike_section, __create_location_section,
    __create_rate_of_change_section, __create_flat_line_section, __create_span_section;
  do 5 try read_param Hreq Hmiss Hhave.
Qed.

Lemma section_raises_key_error_for_missing_parameter_witness :
  is_ok (QcVariableConfig_init half_spike_config) = true
  /\ _create_test_section eval_stat_name "spike_test" half_spike_config example_stats
     = Raise (KeyError "fail_threshold").
Proof.
  split; [reflexivity|].
  refine (section_raises_key_error_for_missing_parameter eval_stat_name half_spike_config
            example_stats "spike_test" [("suspect_threshold", PStr "std")]
            ["suspect_threshold"] "fail_threshold" [] eq_refl eq_refl _ eq_refl).
  intros q [<-|[]]. exists (PStr "std"). split; reflexivity.
Defined.


(** ** The constructor and the parameters a section needs *)

(** X19. The constructor checks the expressions that are there and
    never that a test has the parameters its section reads: removing any
    of the parameters of a test of an accepted configuration leaves the
    configuration accepted. *)
Theorem constructor_accepts_removed_parameters :
  forall (c : VariableConfig) (test : string) (params : dict pyval)
         (keep : string * pyval -> bool),
    dict_get (tests c) test = Some (PDict params) ->
    QcVariableConfig_init c = Ok c ->
    QcVariableConfig_init
      (with_tests c (dict_set (tests c) test (PDict (filter keep params))))
    = Ok (with_tests c (dict_set (tests c) test (PDict (filter keep params)))).
Proof.
  intros c test params keep Hget Hok.
  apply QcVariableConfig_init_ok in Hok. apply QcVariableConfig_init_ok.
  cbn [with_tests tests]. rewrite (dict_keys_set_present _ _ _ _ Hget).
  unfold tests_ok in *. rewrite forallb_forall in *. intros k Hk.
  destruct (String.eqb_spec k test) as [->|Hne].
  - rewrite dict_get_set_same.
    specialize (Hok test Hk). rewrite Hget in Hok. cbn [test_ok] in *.
    rewrite forallb_forall in *. intros kv Hkv. apply Hok.
    apply filter_In in Hkv. tauto.
  - rewrite dict_get_set_other by exact Hne. apply Hok, Hk.
Qed.

Lemma constructor_accepts_removed_parameters_witness :
  QcVariableConfig_init spike_config = Ok spike_config
  /\ with_tests spike_config
       (dict_set (tests spike_config) "spike_test"
          (PDict (filter (fun kv => String.eqb (fst kv) "suspect_threshold")
                    [("suspect_threshold", PStr "std"); ("fail_threshold", PStr "2 * std")])))
     = half_spike_config
  /\ QcVariableConfig_init half_spike_config = Ok half_spike_config
  /\ _create_test_section eval_stat_name "spike_test" half_spike_config example_stats
     = Raise (KeyError "fail_threshold").
Proof.
  split; [reflexivity|]. split; [reflexivity|]. split; [|reflexivity].
  exact (constructor_accepts_removed_parameters spike_config "spike_test"
           [("suspect_threshold", PStr "std"); ("fail_threshold", PStr "2 * std")]
           (fun kv => String.eqb (fst kv) "suspect_threshold") eq_refl eq_refl).
Defined.


(** ** [PandasStore.save] *)

Lemma prefix_refl (s : string) : String.prefix s s = true.
Proof.
  induction s as [|c s IH]; cbn; [reflexivity|].
  destruct (ascii_dec c c); [exact IH|contradiction].
Qed.

Lemma str_contains_refl (s : string) : str_contains s s = true.
Proof. destruct s; cbn [str_contains]; now rewrite prefix_refl. Qed.

Lemma is_ok_true {A : Type} (r : result A) : is_ok r = true -> exists v, r = Ok v.
Proof. destruct r; [eauto|discriminate]. Qed.

Section PandasStoreFacts.

Variable ndarray : Type.
Variable size : ndarray -> nat.
Variable DataFrame : Type.
Variable empty_frame : DataFrame.
Variable frame_contains : DataFrame -> string -> bool.
Variable frame_setitem : DataFrame -> string -> ndarray -> result DataFrame.
Variable py_str : pyval -> string.

Local Notation "'CR'" := (CollectedResult ndarray).
Local Notation "'Store'" := (PandasStore ndarray).
Local Notation "'step'" := (save_step ndarray size DataFrame frame_contains frame_setitem py_str).
Local Notation "'loop'" := (save_loop ndarray size DataFrame frame_contains frame_setitem py_str).
Local Notation "'axis'" := (add_axis ndarray size DataFrame frame_contains frame_setitem).
Local Notation "'no_iter'" := (TypeError "argument of type 'NoneType' is not iterable").

Variable self : Store.
Variable write_data : bool.

(** A result that [exclude] does not name by function or stream id makes
    the step fail when there is no [include]. *)
Lemma save_step_exclude_only (exc : list selector) (df : DataFrame) (cr : CR) :
  sel_in (SelFunction (cr_function ndarray cr)) exc = false ->
  sel_in (SelStr (cr_stream_id ndarray cr)) exc = false ->
  is_ok (step self write_data None (Some exc) df cr) = false
  /\ (forall df4,
         (df1 <- axis self df "t" (cr_tinp ndarray cr) ;;
          df2 <- axis self df1 "z" (cr_zinp ndarray cr) ;;
          df3 <- axis self df2 "x" (cr_lon ndarray cr) ;;
          axis self df3 "y" (cr_lat ndarray cr)) = Ok df4 ->
         step self write_data None (Some exc) df cr = Raise no_iter).
Proof.
  intros Hf Hs. unfold save_step.
  destruct (axis self df "t" (cr_tinp ndarray cr)) as [df1|e]; cbn [bind];
    [|split; [reflexivity|discriminate]].
  destruct (axis self df1 "z" (cr_zinp ndarray cr)) as [df2|e]; cbn [bind];
    [|split; [reflexivity|discriminate]].
  destruct (axis self df2 "x" (cr_lon ndarray cr)) as [df3|e]; cbn [bind];
    [|split; [reflexivity|discriminate]].
  destruct (axis self df3 "y" (cr_lat ndarray cr)) as [df4|e]; cbn [bind];
    [|split; [reflexivity|discriminate]].
  cbn [skipped_by_include]. unfold skipped_by_exclude.
  rewrite Hf, Hs, str_contains_refl. cbn [bind]. split; reflexivity.
Qed.

(** A result that [exclude] names by function or stream id only adds axis
    columns. *)
Lemma save_step_excluded (inc : option (list selector)) (exc : list selector)
    (df : DataFrame) (cr : CR) :
  skipped_by_include ndarray inc cr = false ->
  sel_in (SelFunction (cr_function ndarray cr)) exc
  || sel_in (SelStr (cr_stream_id ndarray cr)) exc = true ->
  step self write_data inc (Some exc) df cr
  = (df1 <- axis self df "t" (cr_tinp ndarray cr) ;;
     df2 <- axis self df1 "z" (cr_zinp ndarray cr) ;;
     df3 <- axis self df2 "x" (cr_lon ndarray cr) ;;
     axis self df3 "y" (cr_lat ndarray cr)).
Proof.
  intros Hi H. unfold save_step.
  destruct (axis self df "t" (cr_tinp ndarray cr)) as [df1|e]; cbn [bind]; [|reflexivity].
  destruct (axis self df1 "z" (cr_zinp ndarray cr)) as [df2|e]; cbn [bind]; [|reflexivity].
  destruct (axis self df2 "x" (cr_lon ndarray cr)) as [df3|e]; cbn [bind]; [|reflexivity].
  destruct (axis self df3 "y" (cr_lat ndarray cr)) as [df4|e]; cbn [bind]; [|reflexivity].
  rewrite Hi. unfold skipped_by_exclude.
  destruct (sel_in (SelFunction (cr_function ndarray cr)) exc); [reflexivity|].
  cbn [orb] in H. now rewrite H.
Qed.

Lemma add_axis_returns (df : DataFrame) (k : string) (inp : option ndarray) :
  (forall d n a, is_ok (frame_setitem d n a) = true) ->
  dict_contains (axes ndarray self) k = true ->
  exists df', axis self df k inp = Ok df'.
Proof.
  intros Hset Hk. unfold add_axis, dict_item. unfold dict_contains in Hk.
  destruct (dict_get (axes ndarray self) k) as [name|]; [|discriminate]. cbn [bind].
  destruct (negb (frame_contains df name)); [|eauto].
  destruct inp as [a|]; [|eauto].
  destruct (negb (size a =? 0)%nat); [|eauto].
  apply is_ok_true, Hset.
Qed.

Lemma add_axes_return (df : DataFrame) (cr : CR) :
  (forall d n a, is_ok (frame_setitem d n a) = true) ->
  forallb (dict_contains (axes ndarray self)) ["t"; "z"; "x"; "y"] = true ->
  exists df4,
    (df1 <- axis self df "t" (cr_tinp ndarray cr) ;;
     df2 <- axis self df1 "z" (cr_zinp ndarray cr) ;;
     df3 <- axis self df2 "x" (cr_lon ndarray cr) ;;
     axis self df3 "y" (cr_lat ndarray cr)) = Ok df4.
Proof.
  intros Hset Hax. cbn [forallb] in Hax.
  repeat (apply andb_prop in Hax; destruct Hax as [? Hax]).
  destruct (add_axis_returns df "t" (cr_tinp ndarray cr) Hset) as [df1 ->]; [assumption|].
  cbn [bind].
  destruct (add_axis_returns df1 "z" (cr_zinp ndarray cr) Hset) as [df2 ->]; [assumption|].
  cbn [bind].
  destruct (add_axis_returns df2 "x" (cr_lon ndarray cr) Hset) as [df3 ->]; [assumption|].
  cbn [bind].
  apply add_axis_returns; assumption.
Qed.

Lemma save_loop_fails (inc exc : option (list selector)) (crs : list CR) (cr : CR) :
  In cr crs ->
  (forall df, is_ok (step self write_data inc exc df cr) = false) ->
  forall df, is_ok (loop self write_data inc exc crs df) = false.
Proof.
  intros Hin Hcr. induction crs as [|c crs IH]; [destruct Hin|].
  intros df. cbn [save_loop].
  destruct Hin as [->|Hin].
  - specialize (Hcr df).
    destruct (step self write_data inc exc df cr); [discriminate|reflexivity].
  - destruct (step self write_data inc exc df c); cbn [bind]; [now apply IH|reflexivity].
Qed.

Lemma save_loop_exclude_only (exc : list selector) (crs : list CR) (cr : CR) :
  (forall d n a, is_ok (frame_setitem d n a) = true) ->
  forallb (dict_contains (axes ndarray self)) ["t"; "z"; "x"; "y"] = true ->
  In cr crs ->
  sel_in (SelFunction (cr_function ndarray cr)) exc = false ->
  sel_in (SelStr (cr_stream_id ndarray cr)) exc = false ->
  forall df, loop self write_data None (Some exc) crs df = Raise no_iter.
Proof.
  intros Hset Hax Hin Hf Hs. induction crs as [|c crs IH]; [destruct Hin|].
  intros df. cbn [save_loop].
  destruct (add_axes_return df c Hset Hax) as [df4 H4].
  destruct (sel_in (SelFunction (cr_function ndarray c)) exc
            || sel_in (SelStr (cr_stream_id ndarray c)) exc) eqn:E.
  - rewrite (save_step_excluded None exc df c eq_refl E), H4. cbn [bind].
    apply IH. destruct Hin as [->|Hin]; [|exact Hin].
    rewrite Hf, Hs in E. discriminate.
  - apply orb_false_elim in E. destruct E as [Ef Es].
    destruct (save_step_exclude_only exc df c Ef Es) as [_ R].
    now rewrite (R df4 H4).
Qed.

(** The frame does not depend on the flags and data of a result that one
    of the two lists skips. *)
Lemma save_step_skipped (inc exc : option (list selector)) (a b : CR) :
  same_but_arrays ndarray a b ->
  skipped_by_include ndarray inc a = true
  \/ skipped_by_exclude ndarray inc exc a <> Ok false ->
  forall df, step self write_data inc exc df a = step self write_data inc exc df b.
Proof.
  intros (Hs & Hp & Ht & Hf & H1 & H2 & H3 & H4) Hskip df.
  assert (Ei : skipped_by_include ndarray inc b = skipped_by_include ndarray inc a).
  { unfold skipped_by_include. now rewrite Hs, Ht, Hf. }
  assert (Ee : skipped_by_exclude ndarray inc exc b = skipped_by_exclude ndarray inc exc a).
  { unfold skipped_by_exclude. now rewrite Hs, Ht, Hf. }
  unfold save_step. rewrite Ei, Ee, <- H1, <- H2, <- H3, <- H4.
  destruct (axis self df "t" (cr_tinp ndarray a)) as [df1|e]; cbn [bind]; [|reflexivity].
  destruct (axis self df1 "z" (cr_zinp ndarray a)) as [df2|e]; cbn [bind]; [|reflexivity].
  destruct (axis self df2 "x" (cr_lon ndarray a)) as [df3|e]; cbn [bind]; [|reflexivity].
  destruct (axis self df3 "y" (cr_lat ndarray a)) as [df4|e]; cbn [bind]; [|reflexivity].
  destruct (skipped_by_include ndarray inc a); [reflexivity|].
  destruct Hskip as [Hskip|Hskip]; [discriminate|].
  destruct (skipped_by_exclude ndarray inc exc a) as [[|]|e]; cbn [bind];
    [reflexivity|now elim Hskip|reflexivity].
Qed.

Lemma save_loop_ext (inc exc : option (list selector)) (crs crs' : list CR) :
  Forall2 (fun a b => forall df, step self write_data inc exc df a
                                 = step self write_data inc exc df b) crs crs' ->
  forall df, loop self write_data inc exc crs df = loop self write_data inc exc crs' df.
Proof.
  induction 1 as [|a b crs crs' Hab _ IH]; intros df; cbn [save_loop]; [reflexivity|].
  rewrite Hab. destruct (step self write_data inc exc df b); cbn [bind]; auto.
Qed.

End PandasStoreFacts.

(** X20. [save] called with an exclusion list and no inclusion list
    returns no frame as soon as one collected result is named by the
    exclusion list neither by its function nor by its stream id: the test
    name is looked up in [include], which is [None]. When the store has its
    four axes and the frame accepts every column, the error is the
    [TypeError] of that lookup. *)
Theorem save_with_exclude_only_fails :
  forall (ndarray : Type) (size : ndarray -> nat) (DataFrame : Type)
         (empty_frame : DataFrame) (frame_contains : DataFrame -> string -> bool)
         (frame_setitem : DataFrame -> string -> ndarray -> result DataFrame)
         (py_str : pyval -> string)
         (self : PandasStore ndarray) (write_data : bool) (exclude : list selector)
         (cr : CollectedResult ndarray),
    In cr (collected_results ndarray self) ->
    sel_in (SelFunction (cr_function ndarray cr)) exclude = false ->
    sel_in (SelStr (cr_stream_id ndarray cr)) exclude = false ->
    is_ok (save ndarray size DataFrame empty_frame frame_contains frame_setitem py_str
             self write_data None (Some exclude)) = false
    /\ ((forall d n a, is_ok (frame_setitem d n a) = true) ->
        forallb (dict_contains (axes ndarray self)) ["t"; "z"; "x"; "y"] = true ->
        save ndarray size DataFrame empty_frame frame_contains frame_setitem py_str
          self write_data None (Some exclude)
        = Raise (TypeError "argument of type 'NoneType' is not iterable")).
Proof.
  intros ndarray size DataFrame empty_frame frame_contains frame_setitem py_str
         self write_data exclude cr Hin Hf Hs.
  unfold save. split.
  - apply (save_loop_fails ndarray size DataFrame frame_contains frame_setitem py_str
             self write_data None (Some exclude) _ cr Hin).
    intros df.
    apply (save_step_exclude_only ndarray size DataFrame frame_contains frame_setitem
             py_str self write_data exclude df cr Hf Hs).
  - intros Hset Hax.
    apply (save_loop_exclude_only ndarray size DataFrame frame_contains frame_setitem
             py_str self write_data exclude _ cr Hset Hax Hin Hf Hs).
Qed.

Lemma save_with_exclude_only_fails_witness :
  is_ok (list_save [one_result "temp" "spike_test" "spike_test" [1; 1]%Z] false
           None (Some [SelStr "spike_test"])) = false
  /\ list_save [one_result "temp" "spike_test" "spike_test" [1; 1]%Z] false
       None (Some [SelStr "spike_test"])
     = Raise (TypeError "argument of type 'NoneType' is not iterable").
Proof.
  destruct (save_with_exclude_only_fails (list Z) (@List.length Z) (dict (list Z)) []
              dict_contains list_frame_setitem (fun _ => "")
              (PandasStore_init (list Z)
                 [one_result "temp" "spike_test" "spike_test" [1; 1]%Z] None)
              false [SelStr "spike_test"]
              (one_result "temp" "spike_test" "spike_test" [1; 1]%Z)
              (or_introl eq_refl) eq_refl eq_refl) as [H1 H2].
  split; [exact H1|]. apply H2; reflexivity.
Defined.

(** X21. With both lists given, a collected result whose test name is
    in the inclusion list is never written: the frame is the same whatever
    the flags and the data of such results are. *)
Theorem save_drops_results_included_by_test_name :
  forall (ndarray : Type) (size : ndarray -> nat) (DataFrame : Type)
         (empty_frame : DataFrame) (frame_contains : DataFrame -> string -> bool)
         (frame_setitem : DataFrame -> string -> ndarray -> result DataFrame)
         (py_str : pyval -> string)
         (crs crs' : list (CollectedResult ndarray)) (store_axes : dict string)
         (write_data : bool) (include exclude : list selector),
    Forall2 (fun a b =>
               a = b
               \/ (same_but_arrays ndarray a b
                   /\ sel_in (SelStr (cr_test ndarray a)) include = true))
            crs crs' ->
    save ndarray size DataFrame empty_frame frame_contains frame_setitem py_str
      (mkPandasStore ndarray crs store_axes) write_data (Some include) (Some exclude)
    = save ndarray size DataFrame empty_frame frame_contains frame_setitem py_str
        (mkPandasStore ndarray crs' store_axes) write_data (Some include) (Some exclude).
Proof.
  intros ndarray size DataFrame empty_frame frame_contains frame_setitem py_str
         crs crs' store_axes write_data include exclude H.
  unfold save. cbn [collected_results].
  assert (L : forall self df,
            save_loop ndarray size DataFrame frame_contains frame_setitem py_str self
              write_data (Some include) (Some exclude) crs df
            = save_loop ndarray size DataFrame frame_contains frame_setitem py_str self
                write_data (Some include) (Some exclude) crs' df).
  { intros self. apply save_loop_ext.
    eapply Forall2_impl; [|exact H]. intros a b [->|[Hsame Ht]] df; [reflexivity|].
    apply save_step_skipped; [exact Hsame|]. right.
    unfold skipped_by_exclude. rewrite Ht, str_contains_refl.
    destruct (sel_in (SelFunction (cr_function ndarray a)) exclude); [discriminate|].
    destruct (sel_in (SelStr (cr_stream_id ndarray a)) exclude); discriminate. }
  assert (E : forall l c c' df,
            save_loop ndarray size DataFrame frame_contains frame_setitem py_str
              (mkPandasStore ndarray c store_axes)
              write_data (Some include) (Some exclude) l df
            = save_loop ndarray size DataFrame frame_contains frame_setitem py_str
                (mkPandasStore ndarray c' store_axes)
                write_data (Some include) (Some exclude) l df).
  { intros l c c'. induction l as [|x xs IHx]; intros df; [reflexivity|].
    cbn [save_loop].
    change (save_step ndarray size DataFrame frame_contains frame_setitem py_str
              (mkPandasStore ndarray c store_axes) write_data (Some include)
              (Some exclude) df x)
      with (save_step ndarray size DataFrame frame_contains frame_setitem py_str
              (mkPandasStore ndarray c' store_axes) write_data (Some include)
              (Some exclude) df x).
    destruct (save_step ndarray size DataFrame frame_contains frame_setitem py_str
                (mkPandasStore ndarray c' store_axes) write_data (Some include)
                (Some exclude) df x); cbn [bind]; [|reflexivity].
    apply IHx. }
  rewrite (E crs crs crs' empty_frame). apply L.
Qed.


Lemma save_drops_results_included_by_test_name_witness :
  Forall2 (fun a b =>
             a = b
             \/ (same_but_arrays (list Z) a b
                 /\ sel_in (SelStr (cr_test (list Z) a)) [SelStr "spike_test"] = true))
          [one_result "temp" "spike_test" "spike_test" [1; 1]%Z]
          [one_result "temp" "spike_test" "spike_test" [4; 4]%Z]
  /\ list_save [one_result "temp" "spike_test" "spike_test" [1; 1]%Z] false
       (Some [SelStr "spike_test"]) None
     = Ok [("time", [0; 1]%Z); ("temp_qartod_spike_test", [1; 1]%Z)]
  /\ list_save [one_result "temp" "spike_test" "spike_test" [1; 1]%Z] false
       (Some [SelStr "spike_test"]) (Some [])
     = Ok [("time", [0; 1]%Z)]
  /\ list_save [one_result "temp" "spike_test" "spike_test" [1; 1]%Z] false
       (Some [SelStr "spike_test"]) (Some [])
     = list_save [one_result "temp" "spike_test" "spike_test" [4; 4]%Z] false
         (Some [SelStr "spike_test"]) (Some []).
Proof.
  assert (F : Forall2 (fun a b =>
             a = b
             \/ (same_but_arrays (list Z) a b
                 /\ sel_in (SelStr (cr_test (list Z) a)) [SelStr "spike_test"] = true))
          [one_result "temp" "spike_test" "spike_test" [1; 1]%Z]
          [one_result "temp" "spike_test" "spike_test" [4; 4]%Z]).
  { constructor; [|constructor]. right. split; [|reflexivity].
    repeat split; reflexivity. }
  split; [exact F|]. split; [reflexivity|]. split; [reflexivity|].
  exact (save_drops_results_included_by_test_name (list Z) (@List.length Z)
           (dict (list Z)) [] dict_contains list_frame_setitem (fun _ => "")
           _ _ default_axes false [SelStr "spike_test"] [] F).
Defined.

Section PandasStoreColumns.

Variable ndarray : Type.
Variable size : ndarray -> nat.
Variable DataFrame : Type.
Variable frame_contains : DataFrame -> string -> bool.
Variable frame_setitem : DataFrame -> string -> ndarray -> result DataFrame.
Variable frame_get : DataFrame -> string -> option ndarray.
Variable py_str : pyval -> string.

(** An accepted assignment leaves the other columns as they are. *)
Hypothesis setitem_contains :
  forall df n a df' m,
    frame_setitem df n a = Ok df' -> m <> n -> frame_contains df' m = frame_contains df m.
Hypothesis setitem_get :
  forall df n a df' m,
    frame_setitem df n a = Ok df' -> m <> n -> frame_get df' m = frame_get df m.

Variable self : PandasStore ndarray.
Variable write_data : bool.
Variable include exclude : option (list selector).
Variable n : string.

Local Notation "'kept'" := (column_kept frame_contains frame_get n).

Lemma guarded_setitem_keeps (df df' : DataFrame) (m : string) (a : ndarray) (g : bool) :
  frame_contains df n = true ->
  (if g && negb (frame_contains df m) then frame_setitem df m a else Ok df) = Ok df' ->
  kept df df'.
Proof.
  intros Hn H. unfold column_kept. destruct g; cbn [andb] in H.
  - destruct (frame_contains df m) eqn:E; cbn [negb] in H.
    + inversion H. subst. auto.
    + assert (Hne : n <> m) by (intros ->; congruence).
      rewrite (setitem_contains _ _ _ _ n H Hne), (setitem_get _ _ _ _ n H Hne). auto.
  - inversion H. subst. auto.
Qed.

Lemma add_axis_keeps (df df' : DataFrame) (k : string) (inp : option ndarray) :
  frame_contains df n = true ->
  add_axis ndarray size DataFrame frame_contains frame_setitem self df k inp = Ok df' ->
  kept df df'.
Proof.
  intros Hn. unfold add_axis.
  destruct (dict_item (axes ndarray self) k) as [name|e]; cbn [bind]; [|discriminate].
  destruct inp as [a|].
  - destruct (negb (size a =? 0)%nat).
    + intros H. apply (guarded_setitem_keeps df df' name a true Hn). exact H.
    + destruct (negb (frame_contains df name)); intros H; inversion H; subst; split; auto.
  - destruct (negb (frame_contains df name)); intros H; inversion H; subst; split; auto.
Qed.

Lemma column_kept_trans (a b c : DataFrame) :
  kept a b -> kept b c -> kept a c.
Proof. intros [_ H1] [H2 H3]. split; [exact H2|congruence]. Qed.

Lemma save_step_keeps (df df' : DataFrame) (cr : CollectedResult ndarray) :
  frame_contains df n = true ->
  save_step ndarray size DataFrame frame_contains frame_setitem py_str self write_data
    include exclude df cr = Ok df' ->
  kept df df'.
Proof.
  intros Hn. unfold save_step.
  destruct (add_axis _ _ _ _ _ self df "t" (cr_tinp ndarray cr)) as [df1|e] eqn:E1;
    cbn [bind]; [|discriminate].
  pose proof (add_axis_keeps _ _ _ _ Hn E1) as K1.
  destruct (add_axis _ _ _ _ _ self df1 "z" (cr_zinp ndarray cr)) as [df2|e] eqn:E2;
    cbn [bind]; [|discriminate].
  pose proof (column_kept_trans _ _ _ K1 (add_axis_keeps _ _ _ _ (proj1 K1) E2)) as K2.
  destruct (add_axis _ _ _ _ _ self df2 "x" (cr_lon ndarray cr)) as [df3|e] eqn:E3;
    cbn [bind]; [|discriminate].
  pose proof (column_kept_trans _ _ _ K2 (add_axis_keeps _ _ _ _ (proj1 K2) E3)) as K3.
  destruct (add_axis _ _ _ _ _ self df3 "y" (cr_lat ndarray cr)) as [df4|e] eqn:E4;
    cbn [bind]; [|discriminate].
  pose proof (column_kept_trans _ _ _ K3 (add_axis_keeps _ _ _ _ (proj1 K3) E4)) as K4.
  clear E1 E2 E3 E4 K1 K2 K3.
  destruct (skipped_by_include ndarray include cr).
  { intros H. inversion H. subst. exact K4. }
  destruct (skipped_by_exclude ndarray include exclude cr) as [[|]|e]; cbn [bind];
    [|
     |discriminate].
  { intros H. inversion H. subst. exact K4. }
  destruct (if write_data && negb (frame_contains df4 (cr_stream_id ndarray cr))
            then frame_setitem df4 (cr_stream_id ndarray cr) (cr_data ndarray cr)
            else Ok df4) as [df5|e] eqn:E5; cbn [bind]; [|discriminate].
  pose proof (column_kept_trans _ _ _ K4
                (guarded_setitem_keeps _ _ _ _ _ (proj1 K4) E5)) as K5.
  destruct (cf_safe_name py_str _) as [column_name|e]; cbn [bind]; [|discriminate].
  intros H. apply (column_kept_trans _ _ _ K5).
  apply (guarded_setitem_keeps df5 df' column_name (cr_results ndarray cr) true (proj1 K5)).
  exact H.
Qed.

Lemma save_loop_keeps (crs : list (CollectedResult ndarray)) :
  forall df df',
    frame_contains df n = true ->
    save_loop ndarray size DataFrame frame_contains frame_setitem py_str self write_data
      include exclude crs df = Ok df' ->
    kept df df'.
Proof.
  induction crs as [|cr crs IH]; intros df df' Hn; cbn [save_loop].
  - intros H. inversion H. subst. split; auto.
  - destruct (save_step _ _ _ _ _ _ self write_data include exclude df cr) as [df1|e] eqn:E;
      cbn [bind]; [|discriminate].
    intros H. pose proof (save_step_keeps _ _ _ Hn E) as K1.
    exact (column_kept_trans _ _ _ K1 (IH _ _ (proj1 K1) H)).
Qed.

Lemma save_loop_app (crs1 crs2 : list (CollectedResult ndarray)) :
  forall df,
    save_loop ndarray size DataFrame frame_contains frame_setitem py_str self write_data
      include exclude (crs1 ++ crs2)%list df
    = (df1 <- save_loop ndarray size DataFrame frame_contains frame_setitem py_str self
                write_data include exclude crs1 df ;;
       save_loop ndarray size DataFrame frame_contains frame_setitem py_str self
         write_data include exclude crs2 df1).
Proof.
  induction crs1 as [|cr crs1 IH]; intros df; cbn [app save_loop bind]; [reflexivity|].
  destruct (save_step _ _ _ _ _ _ self write_data include exclude df cr); cbn [bind];
    [apply IH|reflexivity].
Qed.

End PandasStoreColumns.

(** X22. [save] never overwrites a column: when the frame accepts an
    assignment by leaving its other columns as they are, a column that is
    in the frame after the first collected results is in the final frame
    with the same content, whatever results follow. A later result with
    the same column name is dropped. *)
Theorem save_never_overwrites_a_column :
  forall (ndarray : Type) (size : ndarray -> nat) (DataFrame : Type)
         (empty_frame : DataFrame) (frame_contains : DataFrame -> string -> bool)
         (frame_setitem : DataFrame -> string -> ndarray -> result DataFrame)
         (frame_get : DataFrame -> string -> option ndarray)
         (py_str : pyval -> string)
         (crs1 crs2 : list (CollectedResult ndarray)) (store_axes : dict string)
         (write_data : bool) (include exclude : option (list selector))
         (n : string) (df1 df : DataFrame),
    (forall d k a d' m,
        frame_setitem d k a = Ok d' -> m <> k -> frame_contains d' m = frame_contains d m) ->
    (forall d k a d' m,
        frame_setitem d k a = Ok d' -> m <> k -> frame_get d' m = frame_get d m) ->
    save ndarray size DataFrame empty_frame frame_contains frame_setitem py_str
      (mkPandasStore ndarray crs1 store_axes) write_data include exclude = Ok df1 ->
    frame_contains df1 n = true ->
    save ndarray size DataFrame empty_frame frame_contains frame_setitem py_str
      (mkPandasStore ndarray (crs1 ++ crs2)%list store_axes) write_data include exclude
    = Ok df ->
    frame_contains df n = true /\ frame_get df n = frame_get df1 n.
Proof.
  intros ndarray size DataFrame empty_frame frame_contains frame_setitem frame_get py_str
         crs1 crs2 store_axes write_data include exclude n df1 df Hc Hg H1 Hn H.
  unfold save in *. cbn [collected_results] in *.
  assert (E : forall l c c' d,
            save_loop ndarray size DataFrame frame_contains frame_setitem py_str
              (mkPandasStore ndarray c store_axes) write_data include exclude l d
            = save_loop ndarray size DataFrame frame_contains frame_setitem py_str
                (mkPandasStore ndarray c' store_axes) write_data include exclude l d).
  { intros l c c'. induction l as [|x xs IHx]; intros d; [reflexivity|].
    cbn [save_loop].
    change (save_step ndarray size DataFrame frame_contains frame_setitem py_str
              (mkPandasStore ndarray c store_axes) write_data include exclude d x)
      with (save_step ndarray size DataFrame frame_contains frame_setitem py_str
              (mkPandasStore ndarray c' store_axes) write_data include exclude d x).
    destruct (save_step ndarray size DataFrame frame_contains frame_setitem py_str
                (mkPandasStore ndarray c' store_axes) write_data include exclude d x);
      cbn [bind]; [|reflexivity].
    apply IHx. }
  rewrite save_loop_app in H.
  rewrite (E crs1 _ crs1) in H. rewrite H1 in H. cbn [bind] in H.
  exact (save_loop_keeps ndarray size DataFrame frame_contains frame_setitem frame_get
           py_str Hc Hg _ write_data include exclude n crs2 df1 df Hn H).
Qed.

Lemma list_frame_setitem_contains :
  forall (d : dict (list Z)) k a d' m,
    list_frame_setitem d k a = Ok d' -> m <> k -> dict_contains d' m = dict_contains d m.
Proof.
  intros d k a d' m H Hne. inversion H. rewrite dict_contains_set.
  destruct (String.eqb_spec m k); [contradiction|apply orb_false_r].
Qed.

Lemma list_frame_setitem_get :
  forall (d : dict (list Z)) k a d' m,
    list_frame_setitem d k a = Ok d' -> m <> k -> dict_get d' m = dict_get d m.
Proof. intros d k a d' m H Hne. inversion H. now apply dict_get_set_other. Qed.

Lemma save_never_overwrites_a_column_witness :
  list_save [one_result "sea.temp" "spike_test" "spike_test" [1; 1]%Z] false None None
  = Ok [("time", [0; 1]%Z); ("sea_temp_qartod_spike_test", [1; 1]%Z)]
  /\ list_save [one_result "sea.temp" "spike_test" "spike_test" [1; 1]%Z;
                one_result "sea_temp" "spike_test" "spike_test" [4; 4]%Z] false None None
     = Ok [("time", [0; 1]%Z); ("sea_temp_qartod_spike_test", [1; 1]%Z)]
  /\ dict_contains [("time", [0; 1]%Z); ("sea_temp_qartod_spike_test", [1; 1]%Z)]
       "sea_temp_qartod_spike_test" = true
  /\ dict_get [("time", [0; 1]%Z); ("sea_temp_qartod_spike_test", [1; 1]%Z)]
       "sea_temp_qartod_spike_test" = Some [1; 1]%Z.
Proof.
  split; [reflexivity|]. split; [reflexivity|].
  exact (save_never_overwrites_a_column (list Z) (@List.length Z) (dict (list Z)) []
           dict_contains list_frame_setitem (@dict_get (list Z)) (fun _ => "")
           [one_result "sea.temp" "spike_test" "spike_test" [1; 1]%Z]
           [one_result "sea_temp" "spike_test" "spike_test" [4; 4]%Z]
           default_axes false None None "sea_temp_qartod_spike_test"
           [("time", [0; 1]%Z); ("sea_temp_qartod_spike_test", [1; 1]%Z)]
           [("time", [0; 1]%Z); ("sea_temp_qartod_spike_test", [1; 1]%Z)]
           list_frame_setitem_contains list_frame_setitem_get
           eq_refl eq_refl eq_refl).
Defined.


(** ** [CFNetCDFStore.save] *)

Lemma safe_char_not_space (c : ascii) : is_safe_char c = true -> is_space c = false.
Proof.
  destruct c as [b0 b1 b2 b3 b4 b5 b6 b7].
  destruct b0, b1, b2, b3, b4, b5, b6, b7; vm_compute; congruence.
Qed.

Lemma lstrip_no_space (l : list ascii) :
  forallb is_safe_char l = true -> lstrip l = l.
Proof.
  destruct l as [|c l]; [reflexivity|]. cbn [forallb lstrip]. intros H.
  apply andb_prop in H. destruct H as [H _].
  now rewrite (safe_char_not_space c H).
Qed.

Lemma strip_safe (l : list ascii) : forallb is_safe_char l = true -> strip l = l.
Proof.
  intros H. unfold strip. rewrite (lstrip_no_space l H).
  rewrite lstrip_no_space by (now rewrite forallb_rev). apply rev_involutive.
Qed.

Lemma strip_space_before (l : list ascii) :
  forallb is_safe_char l = true -> strip (" "%char :: l) = l.
Proof. intros H. unfold strip. cbn [lstrip]. change (strip l = l). now apply strip_safe. Qed.

Lemma strip_space_after (l : list ascii) :
  forallb is_safe_char l = true -> strip (l ++ [" "%char])%list = l.
Proof.
  intros H. unfold strip. destruct l as [|c l]; [reflexivity|].
  assert (L : lstrip ((c :: l) ++ [" "%char])%list = ((c :: l) ++ [" "%char])%list).
  { cbn [app lstrip forallb] in *. apply andb_prop in H. destruct H as [H _].
    now rewrite (safe_char_not_space c H). }
  rewrite L, rev_app_distr. cbn [rev app lstrip].
  change (is_space " "%char) with true. cbv iota.
  change (rev l ++ [c])%list with (rev (c :: l)).
  rewrite lstrip_no_space by (now rewrite forallb_rev). apply rev_involutive.
Qed.

(** Whatever the order of the set, joining the empty string and a safe
    name with a space and stripping gives the name. *)
Lemma strip_join_set (l : list string) (col : string) :
  NoDup l ->
  (forall x, In x l <-> In x [""; col]) ->
  forallb is_safe_char (list_ascii_of_string col) = true ->
  py_strip (join " " l) = col.
Proof.
  intros Hnd Hin Hsafe. unfold py_strip.
  destruct (string_dec col "") as [->|Hne].
  - assert (P : Permutation [""] l).
    { apply NoDup_Permutation; [repeat constructor; intros []|exact Hnd|].
      intros x. rewrite Hin. cbn. tauto. }
    apply Permutation_length_1_inv in P. subst l. reflexivity.
  - assert (P : Permutation [""; col] l).
    { apply NoDup_Permutation; [|exact Hnd|intros x; now rewrite Hin].
      constructor; [|repeat constructor; intros []].
      intros [H|[]]. now elim Hne. }
    apply Permutation_length_2_inv in P. destruct P as [->| ->]; cbn [join].
    + cbn [append list_ascii_of_string]. rewrite strip_space_before by exact Hsafe.
      apply string_of_list_ascii_of_string.
    + rewrite list_ascii_of_string_app. cbn [append list_ascii_of_string].
      rewrite strip_space_after by exact Hsafe.
      apply string_of_list_ascii_of_string.
Qed.

Section CFNetCDFStoreFacts.

Variable ndarray : Type.
Variable py_str : pyval -> string.
Variable set_to_list : list string -> list string.
Variable flags : Type.
Variable get_flags : CollectedResult ndarray -> result flags.
Variable payload : Type.
Variable qc_attributes : CollectedResult ndarray -> flags -> result payload.

Hypothesis set_to_list_nodup : forall l, NoDup (set_to_list l).
Hypothesis set_to_list_in : forall l x, In x (set_to_list l) <-> In x l.

Local Notation "'astep'" :=
  (attrs_step ndarray py_str set_to_list flags get_flags payload qc_attributes).
Local Notation "'aloop'" :=
  (attrs_loop ndarray py_str set_to_list flags get_flags payload qc_attributes).

Local Notation "'name_of' cr" :=
  (PStr (cr_stream_id ndarray cr ++ "." ++ cr_package ndarray cr ++ "."
         ++ cr_test ndarray cr))
  (at level 10, cr at level 9).

Lemma cf_safe_name_safe (s col : string) :
  cf_safe_name py_str (PStr s) = Ok col ->
  forallb is_safe_char (list_ascii_of_string col) = true.
Proof. cbn [cf_safe_name]. intros H. inversion H. apply sub_unsafe_safe. Qed.

(** The entry of a stream that is already in [attrs] becomes the string of
    the column name of the result at hand. *)
Lemma attrs_step_known_stream (attrs attrs' : dict (attr_value payload))
    (cr : CollectedResult ndarray) (col : string) :
  cf_safe_name py_str (name_of cr) = Ok col ->
  dict_contains attrs (cr_stream_id ndarray cr) = true ->
  astep attrs cr = Ok attrs' ->
  dict_get attrs' (cr_stream_id ndarray cr) = Some (AttrStr col).
Proof.
  intros Hcol Hc. unfold attrs_step. rewrite Hcol. cbn [bind]. unfold dict_contains in Hc.
  destruct (dict_get attrs (cr_stream_id ndarray cr)) as [v|]; [|discriminate].
  cbn [bind].
  assert (E : getattr_ancillary_variables v = "") by (destruct v; reflexivity).
  rewrite E. cbn [split_on app].
  rewrite (strip_join_set _ col (set_to_list_nodup _)
             (set_to_list_in _) (cf_safe_name_safe _ _ Hcol)).
  destruct (get_flags cr) as [fl|e]; cbn [bind]; [|discriminate].
  rewrite dict_contains_set.
  destruct (dict_contains attrs col
            || String.eqb col (cr_stream_id ndarray cr)) eqn:C; cbn [negb].
  - intros H. inversion H. apply dict_get_set_same.
  - destruct (qc_attributes cr fl) as [p|e]; cbn [bind]; [|discriminate].
    intros H. inversion H. apply orb_false_elim in C. destruct C as [_ C].
    rewrite dict_get_set_other.
    + apply dict_get_set_same.
    + intros Heq. rewrite <- Heq, String.eqb_refl in C. discriminate.
Qed.

(** A step adds the stream of its result and removes no key. *)
Lemma attrs_step_contains (attrs attrs' : dict (attr_value payload))
    (cr : CollectedResult ndarray) :
  astep attrs cr = Ok attrs' ->
  dict_contains attrs' (cr_stream_id ndarray cr) = true
  /\ (forall k, dict_contains attrs k = true -> dict_contains attrs' k = true).
Proof.
  unfold attrs_step.
  destruct (cf_safe_name py_str (name_of cr)) as [col|e]; cbn [bind]; [|discriminate].
  set (attrs1 := match dict_get attrs (cr_stream_id ndarray cr) with
                 | Some v => _ | None => _ end).
  assert (H1 : exists v, attrs1 = Ok (dict_set attrs (cr_stream_id ndarray cr) v)).
  { subst attrs1. destruct (dict_get attrs (cr_stream_id ndarray cr)); eauto. }
  destruct H1 as [v ->]. cbn [bind].
  destruct (get_flags cr) as [fl|e]; cbn [bind]; [|discriminate].
  destruct (negb (dict_contains (dict_set attrs (cr_stream_id ndarray cr) v) col)).
  - destruct (qc_attributes cr fl) as [p|e]; cbn [bind]; [|discriminate].
    intros H. inversion H. split.
    + rewrite !dict_contains_set, String.eqb_refl. now rewrite orb_true_r.
    + intros k Hk. rewrite !dict_contains_set, Hk. reflexivity.
  - intros H. inversion H. subst. split.
    + rewrite dict_contains_set, String.eqb_refl. now rewrite orb_true_r.
    + intros k Hk. rewrite dict_contains_set, Hk. reflexivity.
Qed.

(** A step for another stream leaves the entry of a stream that is in
    [attrs] as it is. *)
Lemma attrs_step_other_stream (attrs attrs' : dict (attr_value payload))
    (cr : CollectedResult ndarray) (s : string) :
  cr_stream_id ndarray cr <> s ->
  dict_contains attrs s = true ->
  astep attrs cr = Ok attrs' ->
  dict_get attrs' s = dict_get attrs s.
Proof.
  intros Hne Hc. unfold attrs_step.
  destruct (cf_safe_name py_str (name_of cr)) as [col|e]; cbn [bind]; [|discriminate].
  set (attrs1 := match dict_get attrs (cr_stream_id ndarray cr) with
                 | Some v => _ | None => _ end).
  assert (H1 : exists v, attrs1 = Ok (dict_set attrs (cr_stream_id ndarray cr) v)).
  { subst attrs1. destruct (dict_get attrs (cr_stream_id ndarray cr)); eauto. }
  destruct H1 as [v ->]. cbn [bind].
  destruct (get_flags cr) as [fl|e]; cbn [bind]; [|discriminate].
  assert (G : dict_get (dict_set attrs (cr_stream_id ndarray cr) v) s = dict_get attrs s).
  { apply dict_get_set_other. congruence. }
  destruct (dict_contains (dict_set attrs (cr_stream_id ndarray cr) v) col)
    eqn:C; cbn [negb].
  - intros H. inversion H. subst. exact G.
  - destruct (qc_attributes cr fl) as [p|e]; cbn [bind]; [|discriminate].
    intros H. inversion H. rewrite dict_get_set_other; [exact G|].
    intros ->. rewrite dict_contains_set, Hc in C. discriminate.
Qed.

Lemma attrs_loop_contains (crs : list (CollectedResult ndarray)) :
  forall attrs attrs',
    aloop crs attrs = Ok attrs' ->
    (forall k, dict_contains attrs k = true -> dict_contains attrs' k = true)
    /\ (forall cr, In cr crs -> dict_contains attrs' (cr_stream_id ndarray cr) = true).
Proof.
  induction crs as [|c crs IH]; intros attrs attrs'; cbn [attrs_loop].
  - intros H. inversion H. subst. split; [auto|intros cr []].
  - destruct (astep attrs c) as [attrs1|e] eqn:E; cbn [bind]; [|discriminate].
    intros H. destruct (IH _ _ H) as [Hk Hin].
    destruct (attrs_step_contains _ _ _ E) as [Hc Hm]. split.
    + intros k Hkk. apply Hk, Hm, Hkk.
    + intros cr [<-|Hcr]; [apply Hk, Hc|apply Hin, Hcr].
Qed.

Lemma attrs_loop_other_streams (crs : list (CollectedResult ndarray)) (s : string) :
  Forall (fun c => cr_stream_id ndarray c <> s) crs ->
  forall attrs attrs',
    dict_contains attrs s = true ->
    aloop crs attrs = Ok attrs' ->
    dict_get attrs' s = dict_get attrs s.
Proof.
  induction 1 as [|c crs Hc _ IH]; intros attrs attrs' Hs; cbn [attrs_loop].
  - intros H. now inversion H.
  - destruct (astep attrs c) as [attrs1|e] eqn:E; cbn [bind]; [|discriminate].
    intros H. rewrite (IH attrs1 attrs').
    + exact (attrs_step_other_stream _ _ _ _ Hc Hs E).
    + exact (proj2 (attrs_step_contains _ _ _ E) s Hs).
    + exact H.
Qed.

Lemma attrs_loop_app (crs1 crs2 : list (CollectedResult ndarray)) :
  forall attrs,
    aloop (crs1 ++ crs2)%list attrs = (a <- aloop crs1 attrs ;; aloop crs2 a).
Proof.
  induction crs1 as [|c crs1 IH]; intros attrs; cbn [app attrs_loop bind]; [reflexivity|].
  destruct (astep attrs c); cbn [bind]; [apply IH|reflexivity].
Qed.

(** The entry of a stream with two results or more. *)
Lemma attrs_loop_last_column (pre post : list (CollectedResult ndarray))
    (cr0 cr : CollectedResult ndarray) (attrs : dict (attr_value payload)) :
  In cr0 pre ->
  cr_stream_id ndarray cr0 = cr_stream_id ndarray cr ->
  Forall (fun c => cr_stream_id ndarray c <> cr_stream_id ndarray cr) post ->
  aloop (pre ++ cr :: post)%list [] = Ok attrs ->
  exists col,
    cf_safe_name py_str (name_of cr) = Ok col
    /\ dict_get attrs (cr_stream_id ndarray cr) = Some (AttrStr col).
Proof.
  intros H0 Hs Hpost. rewrite attrs_loop_app.
  destruct (aloop pre []) as [a1|e] eqn:E1; cbn [bind]; [|discriminate].
  cbn [attrs_loop].
  destruct (astep a1 cr) as [a2|e] eqn:E2; cbn [bind]; [|discriminate].
  intros H.
  assert (C1 : dict_contains a1 (cr_stream_id ndarray cr) = true).
  { rewrite <- Hs. exact (proj2 (attrs_loop_contains _ _ _ E1) cr0 H0). }
  rewrite (attrs_loop_other_streams post _ Hpost a2 attrs
             (proj1 (attrs_step_contains _ _ _ E2)) H).
  destruct (cf_safe_name py_str (name_of cr)) as [col|e] eqn:Ecol.
  - exists col. split; [reflexivity|].
    exact (attrs_step_known_stream _ _ _ _ Ecol C1 E2).
  - unfold attrs_step in E2. rewrite Ecol in E2. discriminate.
Qed.

End CFNetCDFStoreFacts.

(** X23. [CFNetCDFStore.save] keeps one ancillary variable per stream
    at most: when a stream has two collected results or more, the writer is
    given, for that stream, the bare string of the column name of the last
    of them, not a dict of attributes, and the column names of the earlier
    ones are lost. *)
Theorem cf_save_keeps_last_ancillary_variable_only :
  forall (ndarray : Type) (size : ndarray -> nat) (DataFrame : Type)
         (empty_frame : DataFrame) (frame_contains : DataFrame -> string -> bool)
         (frame_setitem : DataFrame -> string -> ndarray -> result DataFrame)
         (py_str : pyval -> string)
         (frame_setscalar : DataFrame -> string -> Z -> result DataFrame)
         (set_to_list : list string -> list string)
         (flags : Type) (get_flags : CollectedResult ndarray -> result flags)
         (payload : Type)
         (qc_attributes : CollectedResult ndarray -> flags -> result payload)
         (n_contexts : nat) (dumps_config : result string)
         (kwargs target Ncd : Type)
         (from_dataframe : DataFrame -> target -> dict string -> kwargs ->
                           dict (attr_value payload) -> result Ncd)
         (pre post : list (CollectedResult ndarray)) (cr0 cr : CollectedResult ndarray)
         (store_axes : dict string) (path_or_ncd : target) (dsg_kwargs : kwargs)
         (write_data : bool) (include exclude : option (list selector)) (ncd : Ncd),
    (forall l, NoDup (set_to_list l)) ->
    (forall l x, In x (set_to_list l) <-> In x l) ->
    In cr0 pre ->
    cr_stream_id ndarray cr0 = cr_stream_id ndarray cr ->
    Forall (fun c => cr_stream_id ndarray c <> cr_stream_id ndarray cr) post ->
    cr_stream_id ndarray cr <> "ioos_qc_config" ->
    CFNetCDFStore_save ndarray size DataFrame empty_frame frame_contains frame_setitem
      py_str frame_setscalar set_to_list flags get_flags payload qc_attributes
      n_contexts dumps_config kwargs target Ncd from_dataframe
      (mkCFNetCDFStore ndarray (pre ++ cr :: post)%list store_axes)
      path_or_ncd dsg_kwargs write_data include exclude = Ok ncd ->
    exists df attrs column_name,
      from_dataframe df path_or_ncd store_axes dsg_kwargs attrs = Ok ncd
      /\ cf_safe_name py_str
           (PStr (cr_stream_id ndarray cr ++ "." ++ cr_package ndarray cr ++ "."
                  ++ cr_test ndarray cr)) = Ok column_name
      /\ dict_get attrs (cr_stream_id ndarray cr) = Some (AttrStr column_name).
Proof.
  intros ndarray size DataFrame empty_frame frame_contains frame_setitem py_str
         frame_setscalar set_to_list flags get_flags payload qc_attributes
         n_contexts dumps_config kwargs target Ncd from_dataframe
         pre post cr0 cr store_axes path_or_ncd dsg_kwargs write_data include exclude ncd
         Hnd Hin H0 Hs Hpost Hname.
  unfold CFNetCDFStore_save. cbn [cf_collected_results cf_axes].
  destruct (save _ _ _ _ _ _ _ _ _ _ _) as [df0|e]; cbn [bind]; [|discriminate].
  destruct (attrs_loop _ _ _ _ _ _ _ _ _) as [attrs0|e] eqn:E; cbn [bind]; [|discriminate].
  pose proof (attrs_loop_last_column ndarray py_str set_to_list flags get_flags payload
                qc_attributes Hnd Hin pre post cr0 cr attrs0 H0 Hs Hpost E) as L.
  assert (G : forall attrs1,
            (if (1 <? n_contexts)%nat
             then j <- dumps_config ;; Ok (dict_set attrs0 "ioos_qc_config" (AttrStr j))
             else Ok attrs0) = Ok attrs1 ->
            dict_get attrs1 (cr_stream_id ndarray cr) = dict_get attrs0 (cr_stream_id ndarray cr)).
  { intros attrs1. destruct (1 <? n_contexts)%nat.
    - destruct dumps_config as [j|e]; cbn [bind]; [|discriminate].
      intros H. inversion H. now apply dict_get_set_other.
    - intros H. now inversion H. }
  destruct (if (1 <? n_contexts)%nat then _ else _) as [attrs1|e]; cbn [bind];
    [|discriminate].
  specialize (G attrs1 eq_refl).
  destruct (frame_setscalar df0 "station" 0%Z) as [df1|e]; cbn [bind]; [|discriminate].
  destruct (frame_setscalar df1 "trajectory" 0%Z) as [df2|e]; cbn [bind]; [|discriminate].
  destruct (frame_setscalar df2 "profile" 0%Z) as [df3|e]; cbn [bind]; [|discriminate].
  intros H. destruct L as (col & Hcol & L).
  exists df3, attrs1, col. split; [exact H|]. split; [exact Hcol|]. rewrite G. exact L.
Qed.

Lemma cf_save_keeps_last_ancillary_variable_only_witness :
  list_cf_save [one_result "temp" "spike_test" "spike_test" [1; 1]%Z;
                one_result "temp" "flat_line_test" "flat_line_test" [1; 1]%Z]
  = Ok ([("time", [0; 1]%Z); ("temp_qartod_spike_test", [1; 1]%Z);
         ("temp_qartod_flat_line_test", [1; 1]%Z);
         ("station", [0]%Z); ("trajectory", [0]%Z); ("profile", [0]%Z)],
        [("temp", AttrStr "temp_qartod_flat_line_test");
         ("temp_qartod_spike_test", QcVariable "spike_test");
         ("temp_qartod_flat_line_test", QcVariable "flat_line_test")])
  /\ exists df attrs column_name,
       Ok (df, attrs)
       = Ok ([("time", [0; 1]%Z); ("temp_qartod_spike_test", [1; 1]%Z);
              ("temp_qartod_flat_line_test", [1; 1]%Z);
              ("station", [0]%Z); ("trajectory", [0]%Z); ("profile", [0]%Z)],
             [("temp", @AttrStr string "temp_qartod_flat_line_test");
              ("temp_qartod_spike_test", QcVariable "spike_test");
              ("temp_qartod_flat_line_test", QcVariable "flat_line_test")])
       /\ cf_safe_name (fun _ => "") (PStr ("temp" ++ "." ++ "qartod" ++ "." ++ "flat_line_test"))
          = Ok column_name
       /\ dict_get attrs "temp" = Some (AttrStr column_name).
Proof.
  split; [vm_compute; reflexivity|].
  refine (cf_save_keeps_last_ancillary_variable_only (list Z) (@List.length Z)
           (dict (list Z)) [] dict_contains list_frame_setitem (fun _ => "")
           (fun df name z => Ok (dict_set df name [z]))
           (nodup string_dec)
           unit (fun _ => Ok tt)
           string (fun cr _ => Ok (cr_test (list Z) cr))
           1 (Ok "{}")
           unit unit (dict (list Z) * dict (attr_value string))
           (fun df _ _ _ attrs => Ok (df, attrs))
           [one_result "temp" "spike_test" "spike_test" [1; 1]%Z] []
           (one_result "temp" "spike_test" "spike_test" [1; 1]%Z)
           (one_result "temp" "flat_line_test" "flat_line_test" [1; 1]%Z)
           default_axes tt tt false None None _
           (fun l => NoDup_nodup string_dec l)
           (fun l x => nodup_In string_dec l x)
           (or_introl eq_refl) eq_refl (Forall_nil _) _ _).
  - cbn. discriminate.
  - vm_compute. reflexivity.
Defined.
